(** * Trajectory dump parser / writer and run-log extractor

    Shallow embedding of [scripts/convert_to_trajectory.py]
    ([read_dump_voro], [write_trajectory], [verify_output]),
    of the dump reader and the frame export of
    [scripts/analyze_dislocations.py] ([read_lammps_dump],
    [export_frame_to_xyz]) and of [scripts/extract_stress_strain_data.py].

    Conventions of the embedding.
    - A text file opened for reading is the list of lines its iterator
      yields (each line may still carry its line terminator); [next(f)]
      pops the head of that list and raises [StopIteration] on the empty
      list.  A file opened for writing is the list of strings passed to
      [f.write].
    - Characters are ASCII code points.
    - Python exceptions are values of [exn]; a computation that may raise
      returns [exn + A] ([inl] is the raised exception).
    - A Python [float] is an IEEE binary64 value, kept as a sign and an
      exact rational magnitude; [float(str)] and the arithmetic round to
      nearest, ties to even.
    - [int(str)] refuses a literal of more than 4300 digits, the default
      of CPython; the same limit of [str(int)] is not modelled: the
      integers that are formatted come from [int(str)], [int(float)] or
      [len]. *)

From Stdlib Require Import ZArith QArith Qround Ascii String DecimalString Lia.
From Stdlib Require Import DecimalPos DecimalN DecimalFacts.
From stdpp Require Import base list strings gmap.

Open Scope Z_scope.

(** [simpl] may unfold [++] on strings applied to a constructor. *)
#[global] Arguments String.append !_ _ / : simpl nomatch.

(** ** Exceptions *)

Inductive exn : Set :=
| StopIteration
| ValueError
| IndexError
| OverflowError
| UnboundLocalError
| TypeError
| ZeroDivisionError
| KeyError
| FileNotFoundError.

Definition result (A : Type) : Type := (exn + A)%type.

#[global] Instance result_ret : MRet result := fun _ a => inr a.
#[global] Instance result_bind : MBind result := fun _ _ k m =>
  match m with
  | inl e => inl e
  | inr a => k a
  end.

Definition raise {A} (e : exn) : result A := inl e.

(** ** Python string primitives *)

Module Py.

(** [str.isspace] on an ASCII character: TAB, LF, VT, FF, CR, the four
    separators FS GS RS US, and the blank. *)
Definition is_space (c : ascii) : bool :=
  let n := N_of_ascii c in
  ((9 <=? n) && (n <=? 13) || (28 <=? n) && (n <=? 32))%N.

Definition is_digit (c : ascii) : bool :=
  let n := N_of_ascii c in ((48 <=? n) && (n <=? 57))%N.

Definition digit_val (c : ascii) : Z := Z.of_N (N_of_ascii c) - 48.

(** Lower-casing of an ASCII letter, for the case-insensitive literals
    of [float]. *)
Definition lower (c : ascii) : ascii :=
  let n := N_of_ascii c in
  if ((65 <=? n) && (n <=? 90))%N then ascii_of_N (n + 32) else c.

Fixpoint lower_str (s : string) : string :=
  match s with
  | EmptyString => EmptyString
  | String c s' => String (lower c) (lower_str s')
  end.

Fixpoint lstrip (s : string) : string :=
  match s with
  | EmptyString => EmptyString
  | String c s' => if is_space c then lstrip s' else s
  end.

Fixpoint rstrip (s : string) : string :=
  match s with
  | EmptyString => EmptyString
  | String c s' =>
      match rstrip s' with
      | EmptyString => if is_space c then EmptyString else String c EmptyString
      | r => String c r
      end
  end.

(** [s.strip()] *)
Definition strip (s : string) : string := rstrip (lstrip s).

(** [s.startswith(p)] *)
Definition startswith (p s : string) : bool := String.prefix p s.

(** [s.split()]: maximal runs of non-blank characters. *)
Fixpoint split (s : string) : list string :=
  match s with
  | EmptyString => []
  | String c s' =>
      if is_space c then split s'
      else
        match s' with
        | EmptyString => [String c EmptyString]
        | String c' _ =>
            if is_space c' then String c EmptyString :: split s'
            else
              match split s' with
              | t :: ts => String c t :: ts
              | [] => [String c EmptyString]
              end
        end
  end.

(** [x in l] for a list of strings *)
Definition contains (x : string) (l : list string) : bool :=
  existsb (String.eqb x) l.

(** [l.index(x)], defined when [x in l] *)
Fixpoint index (x : string) (l : list string) : option nat :=
  match l with
  | [] => None
  | y :: l' => if String.eqb x y then Some 0%nat else S <$> index x l'
  end.

(** [sub in s] for strings *)
Fixpoint has_substring (sub s : string) : bool :=
  startswith sub s ||
  match s with
  | EmptyString => false
  | String _ s' => has_substring sub s'
  end.

(** [l[i]] *)
Definition getitem {A} (l : list A) (i : nat) : result A :=
  match l !! i with
  | Some a => mret a
  | None => raise IndexError
  end.

End Py.

(** ** Python numbers *)

Module Num.

(** [digit (["_"] digit)*] at the head of [s]: the digits read (without
    the underscores) and what follows them. *)
Fixpoint take_digits (s : string) : string * string :=
  match s with
  | EmptyString => (EmptyString, EmptyString)
  | String c s' =>
      if Py.is_digit c then
        match s' with
        | String "_" (String d _ as t) =>
            if Py.is_digit d
            then let '(ds, r) := take_digits t in (String c ds, r)
            else (String c EmptyString, s')
        | _ => let '(ds, r) := take_digits s' in (String c ds, r)
        end
      else (EmptyString, s)
  end.

Fixpoint digits_val_acc (acc : Z) (s : string) : Z :=
  match s with
  | EmptyString => acc
  | String c s' => digits_val_acc (10 * acc + Py.digit_val c) s'
  end.

Definition digits_val (s : string) : Z := digits_val_acc 0 s.

(** An optional sign: [true] for a minus. *)
Definition take_sign (s : string) : bool * string :=
  match s with
  | String "-" s' => (true, s')
  | String "+" s' => (false, s')
  | _ => (false, s)
  end.

Definition is_empty (s : string) : bool :=
  match s with EmptyString => true | _ => false end.

(** The blanks that the number parsers of CPython skip around an ASCII
    literal ([Py_ISSPACE]): TAB, LF, VT, FF, CR and the blank, not the
    four separators FS GS RS US that [str.strip] also removes. *)
Definition is_c_space (c : ascii) : bool :=
  let n := N_of_ascii c in
  ((9 <=? n) && (n <=? 13) || (n =? 32))%N.

Fixpoint c_lstrip (s : string) : string :=
  match s with
  | EmptyString => EmptyString
  | String c s' => if is_c_space c then c_lstrip s' else s
  end.

Fixpoint c_rstrip (s : string) : string :=
  match s with
  | EmptyString => EmptyString
  | String c s' =>
      match c_rstrip s' with
      | EmptyString => if is_c_space c then EmptyString else String c EmptyString
      | r => String c r
      end
  end.

Definition c_strip (s : string) : string := c_rstrip (c_lstrip s).

(** [sys.get_int_max_str_digits()], at its default. *)
Definition max_str_digits : nat := 4300.

(** [int(s)] for a string [s]; [None] stands for [ValueError].  A
    literal of more than [max_str_digits] digits, leading zeros
    included, is refused. *)
Definition int_of_string (s : string) : option Z :=
  let '(neg, u) := take_sign (c_strip s) in
  let '(ds, r) := take_digits u in
  if is_empty ds || negb (is_empty r) then None
  else if (max_str_digits <? String.length ds)%nat then None
  else Some (if neg then - digits_val ds else digits_val ds).

(** *** binary64 values *)

Inductive pyfloat : Type :=
| Finite (neg : bool) (mag : Q)
| Infinity (neg : bool)
| NaN.

(** Nearest integer, ties to even, of a non-negative rational. *)
Definition round_half_even (x : Q) : Z :=
  let f := Qfloor x in
  match (x - inject_Z f ?= 1 # 2)%Q with
  | Lt => f
  | Gt => f + 1
  | Eq => if Z.even f then f else f + 1
  end.

Definition two : Q := inject_Z 2.
Definition ten : Q := inject_Z 10.

(** Rounding of the exact non-negative rational [q] to binary64:
    [e] is the binary exponent of [q], [p] the exponent of the unit in
    the last place (53 significant bits, subnormals below [2^-1022]). *)
Definition binary64 (neg : bool) (q : Q) : pyfloat :=
  if (Qnum q <=? 0)%Z then Finite neg 0
  else
    let e0 := (Z.log2 (Qnum q) - Z.log2 (Zpos (Qden q)))%Z in
    let e := if Qle_bool (two ^ e0) q then e0 else (e0 - 1)%Z in
    let p := Z.max (e - 52) (-1074) in
    let n := round_half_even (q / two ^ p) in
    let v := Qred (inject_Z n * two ^ p) in
    if Qle_bool (two ^ 1024) v then Infinity neg else Finite neg v.

(** The part of a float literal after the mantissa: an optional
    exponent, then the end of the string. *)
Definition take_exponent (s : string) : option Z :=
  match s with
  | EmptyString => Some 0
  | String c s' =>
      if Ascii.eqb (Py.lower c) "e" then
        let '(neg, u) := take_sign s' in
        let '(ds, r) := take_digits u in
        if is_empty ds || negb (is_empty r) then None
        else Some (if neg then - digits_val ds else digits_val ds)
      else None
  end.

(** [float(s)] for a string [s]; [None] stands for [ValueError]. *)
Definition float_of_string (s : string) : option pyfloat :=
  let '(neg, u) := take_sign (c_strip s) in
  let l := Py.lower_str u in
  if String.eqb l "inf" || String.eqb l "infinity" then Some (Infinity neg)
  else if String.eqb l "nan" then Some NaN
  else
    let '(ip, r1) := take_digits u in
    let '(fp, r2) :=
      match r1 with
      | String "." t => take_digits t
      | _ => (EmptyString, r1)
      end in
    if is_empty ip && is_empty fp then None
    else
      match take_exponent r2 with
      | None => None
      | Some ex =>
          let m := digits_val (ip ++ fp) in
          Some (binary64 neg
                  (inject_Z m * ten ^ (ex - Z.of_nat (String.length fp))))
      end.

(** [int(x)] for a float [x]: truncation towards zero. *)
Definition int_of_float (x : pyfloat) : result Z :=
  match x with
  | Finite neg mag => mret (if neg then - Qfloor mag else Qfloor mag)
  | Infinity _ => raise OverflowError
  | NaN => raise ValueError
  end.

(** *** Arithmetic *)

Definition is_zero (x : pyfloat) : bool :=
  match x with
  | Finite _ mag => (Qnum mag =? 0)%Z
  | _ => false
  end.

(** The exact value of a finite float. *)
Definition signed (neg : bool) (mag : Q) : Q :=
  if neg then (- mag)%Q else mag.

(** Rounding of the exact rational [q]; [zneg] is the sign given to an
    exact zero. *)
Definition round_signed (zneg : bool) (q : Q) : pyfloat :=
  match (Qnum q ?= 0)%Z with
  | Eq => Finite zneg 0
  | Lt => binary64 true (- q)
  | Gt => binary64 false q
  end.

(** [- x] *)
Definition fneg (x : pyfloat) : pyfloat :=
  match x with
  | Finite neg mag => Finite (negb neg) mag
  | Infinity neg => Infinity (negb neg)
  | NaN => NaN
  end.

(** [x - y] *)
Definition fsub (x y : pyfloat) : pyfloat :=
  match x, y with
  | NaN, _ | _, NaN => NaN
  | Infinity a, Infinity b => if Bool.eqb a b then NaN else Infinity a
  | Infinity a, Finite _ _ => Infinity a
  | Finite _ _, Infinity b => Infinity (negb b)
  | Finite a p, Finite b q =>
      round_signed (is_zero x && is_zero y && a && negb b)
                   (signed a p - signed b q)
  end.

(** [x / y]; a zero divisor raises [ZeroDivisionError]. *)
Definition fdiv (x y : pyfloat) : result pyfloat :=
  if is_zero y then raise ZeroDivisionError
  else
    mret match x, y with
         | NaN, _ | _, NaN => NaN
         | Infinity _, Infinity _ => NaN
         | Infinity a, Finite b _ => Infinity (xorb a b)
         | Finite a _, Infinity b => Finite (xorb a b) 0
         | Finite a p, Finite b q => binary64 (xorb a b) (p / q)
         end.

(** *** Formatting *)

Definition digit_char (d : Z) : ascii :=
  match d with
  | 0 => "0" | 1 => "1" | 2 => "2" | 3 => "3" | 4 => "4"
  | 5 => "5" | 6 => "6" | 7 => "7" | 8 => "8" | _ => "9"
  end%char.

(** The [k] low decimal digits of [n], most significant first. *)
Fixpoint fixed_digits (k : nat) (n : Z) : string :=
  match k with
  | O => EmptyString
  | S k' => fixed_digits k' (n / 10) ++ String (digit_char (n mod 10)) EmptyString
  end.

(** Decimal digits of a non-negative integer, no leading zero. *)
Definition nat_digits (n : Z) : string :=
  NilZero.string_of_uint (N.to_uint (Z.to_N n)).

(** [str(n)] / [f"{n}"] for an int. *)
Definition str_of_int (n : Z) : string :=
  if n <? 0 then String "-" (nat_digits (- n)) else nat_digits n.

(** [f"{x:.6f}"] *)
Definition format_6f (x : pyfloat) : string :=
  match x with
  | Finite neg mag =>
      let n := round_half_even (mag * inject_Z 1000000) in
      (if neg then "-" else "") ++
      nat_digits (n / 1000000) ++ "." ++ fixed_digits 6 (n mod 1000000)
  | Infinity neg => if neg then "-inf" else "inf"
  | NaN => "nan"
  end.

(** Decimal exponent of a positive rational: the [k] with
    [10^k <= q < 10^(k+1)], found from the binary exponent. *)
Definition decimal_exponent (q : Q) : Z :=
  let e2 := (Z.log2 (Qnum q) - Z.log2 (Zpos (Qden q)))%Z in
  let k0 := (e2 * 30103 / 100000)%Z in
  let up k := if Qle_bool (ten ^ (k + 1)) q then (k + 1)%Z else k in
  let down k := if Qle_bool (ten ^ k) q then k else (k - 1)%Z in
  down (down (down (up (up k0)))).

(** [f"{x:.6e}"] *)
Definition format_6e (x : pyfloat) : string :=
  match x with
  | Finite neg mag =>
      let '(n, k) :=
        if (Qnum mag <=? 0)%Z then (0, 0)
        else
          let k := decimal_exponent mag in
          let n := round_half_even (mag / ten ^ (k - 6)) in
          if (10000000 <=? n)%Z then (n / 10, k + 1) else (n, k) in
      (if neg then "-" else "") ++
      String (digit_char (n / 1000000)) "." ++ fixed_digits 6 (n mod 1000000) ++
      "e" ++ (if (k <? 0)%Z then "-" else "+") ++
      (if (Z.abs k <? 10)%Z then "0" else "") ++ nat_digits (Z.abs k)
  | Infinity neg => if neg then "-inf" else "inf"
  | NaN => "nan"
  end.

End Num.

Import Num.

(** ** [convert_to_trajectory.py]: the reader *)

(** One element of the list returned by [read_dump_voro] and consumed by
    [write_trajectory]: the tuple
    [(timestep, positions, box_bounds, atom_ids)]. *)
Record Snapshot : Type := mkSnapshot {
  timestep : Z;
  positions : list (list pyfloat);
  box_bounds : option (list (list pyfloat));
  atom_ids : list Z
}.

(** The four column indices bound by the ATOMS branch. *)
Record Columns : Type := mkColumns {
  id_idx : nat;
  x_idx : nat;
  y_idx : nat;
  z_idx : nat
}.

(** The local variables of [read_dump_voro].  [cur_box_bounds] and
    [cur_atom_ids] are the locals [box_bounds] and [atom_ids]; [cols] is
    [None] as long as [id_idx], [x_idx], [y_idx], [z_idx] are unbound.
    A tuple appended to [data] shares its three lists with the locals;
    the loop rebinds [current_data] and [atom_ids] to fresh lists right
    after the append, and [box_bounds] is rebound, never mutated, once
    its three entries are in, so the stored tuples never change. *)
Record State : Type := mkState {
  data : list Snapshot;
  current_timestep : option Z;
  current_data : list (list pyfloat);
  cur_box_bounds : option (list (list pyfloat));
  cur_atom_ids : list Z;
  cols : option Columns
}.

Definition init_state : State :=
  {| data := []; current_timestep := None; current_data := [];
     cur_box_bounds := None; cur_atom_ids := []; cols := None |}.

(** [next(f)] *)
Definition next (f : list string) : result (string * list string) :=
  match f with
  | [] => raise StopIteration
  | l :: f' => mret (l, f')
  end.

(** [list(map(float, toks))] *)
Fixpoint floats (toks : list string) : result (list pyfloat) :=
  match toks with
  | [] => mret []
  | t :: toks' =>
      match float_of_string t with
      | None => raise ValueError
      | Some v => vs ← floats toks'; mret (v :: vs)
      end
  end.

(** Truthiness of a list *)
Definition truthy {A} (l : list A) : bool :=
  match l with [] => false | _ => true end.

(** [if current_timestep is not None and current_data: data.append(...)];
    the value of [data] afterwards. *)
Definition flush (st : State) : list Snapshot :=
  match current_timestep st with
  | Some t =>
      if truthy (current_data st)
      then data st ++ [mkSnapshot t (current_data st) (cur_box_bounds st)
                                  (cur_atom_ids st)]
      else data st
  | None => data st
  end.

(** The [for _ in range(n)] loop of the BOX BOUNDS branch. *)
Fixpoint read_bounds (n : nat) (f : list string)
  : result (list (list pyfloat) * list string) :=
  match n with
  | O => mret ([], f)
  | S n' =>
      '(l, f1) ← next f;
      bounds ← floats (Py.split l);
      '(rest, f2) ← read_bounds n' f1;
      mret (bounds :: rest, f2)
  end.

(** [headers.index(name) if name in headers else dflt] *)
Definition column (name : string) (dflt : nat) (headers : list string) : nat :=
  if Py.contains name headers then default dflt (Py.index name headers)
  else dflt.

Definition resolve_columns (headers : list string) : Columns :=
  {| id_idx := column "id" 0 headers;
     x_idx := column "x" 1 headers;
     y_idx := column "y" 2 headers;
     z_idx := column "z" 3 headers |}.

(** [try: ... except ValueError: continue] around a body that returns
    the updated state. *)
Definition except_ValueError (st : State) (body : result State) : result State :=
  match body with
  | inl ValueError => mret st
  | r => r
  end.

(** The body of the [try] of a data line.  No list is mutated before the
    last point where [ValueError] can be raised, so returning the old
    state from the handler is exact. *)
Definition parse_data_line (st : State) (line : string) : result State :=
  values ← floats (Py.split line);
  if (4 <=? length values)%nat then
    match cols st with
    | None => raise UnboundLocalError
    | Some c =>
        v ← Py.getitem values (id_idx c);
        atom_id ← int_of_float v;
        x ← Py.getitem values (x_idx c);
        y ← Py.getitem values (y_idx c);
        z ← Py.getitem values (z_idx c);
        mret {| data := data st;
                current_timestep := current_timestep st;
                current_data := current_data st ++ [[x; y; z]];
                cur_box_bounds := cur_box_bounds st;
                cur_atom_ids := cur_atom_ids st ++ [atom_id];
                cols := cols st |}
    end
  else mret st.

(** One iteration of [for line in tqdm(f)]: the state and the iterator
    after the iteration. *)
Definition body (st : State) (raw : string) (f : list string)
  : result (State * list string) :=
  let line := Py.strip raw in
  if Py.startswith "ITEM: TIMESTEP" line then
    let data' := flush st in
    '(v, f1) ← next f;
    match int_of_string v with
    | None => raise ValueError
    | Some t =>
        mret ({| data := data'; current_timestep := Some t;
                 current_data := []; cur_box_bounds := cur_box_bounds st;
                 cur_atom_ids := []; cols := cols st |}, f1)
    end
  else if Py.startswith "ITEM: BOX BOUNDS" line then
    '(bb, f1) ← read_bounds 3 f;
    mret ({| data := data st; current_timestep := current_timestep st;
             current_data := current_data st; cur_box_bounds := Some bb;
             cur_atom_ids := cur_atom_ids st; cols := cols st |}, f1)
  else if Py.startswith "ITEM:" line then
    if negb (Py.startswith "ITEM: ATOMS" line) then mret (st, f)
    else
      '(h, f1) ← next f;
      let headers := Py.split (Py.strip h) in
      mret ({| data := data st; current_timestep := current_timestep st;
               current_data := current_data st;
               cur_box_bounds := cur_box_bounds st;
               cur_atom_ids := cur_atom_ids st;
               cols := Some (resolve_columns headers) |}, f1)
  else
    match current_timestep st with
    | Some _ =>
        st' ← except_ValueError st (parse_data_line st line);
        mret (st', f)
    | None => mret (st, f)
    end.

(** The [for] loop.  Every iteration takes at least one line from the
    iterator, so [length f] iterations always exhaust it
    ([for_lines_fuel]); the branch for [O] is never reached from
    [read_dump_voro]. *)
Fixpoint for_lines (fuel : nat) (st : State) (f : list string) : result State :=
  match f with
  | [] => mret st
  | raw :: f' =>
      match fuel with
      | O => mret st
      | S fuel' =>
          '(st', f'') ← body st raw f';
          for_lines fuel' st' f''
      end
  end.

Definition read_dump_voro (f : list string) : result (list Snapshot) :=
  st ← for_lines (length f) init_state f;
  mret (flush st).

(** ** [convert_to_trajectory.py]: the writer and the check *)

Definition LF : ascii := "010"%char.

(** A line of text: [s] followed by the newline. *)
Definition ln (s : string) : string := s ++ String LF EmptyString.

(** [f"{bounds[0]:.6f} {bounds[1]:.6f}\n"] *)
Definition bounds_line (bounds : list pyfloat) : result string :=
  lo ← Py.getitem bounds 0;
  hi ← Py.getitem bounds 1;
  mret (ln (format_6f lo ++ " " ++ format_6f hi)).

(** [f"{atom_id} 1 {pos[0]:.6f} {pos[1]:.6f} {pos[2]:.6f}\n"] *)
Definition atom_line (atom_id : Z) (pos : list pyfloat) : result string :=
  x ← Py.getitem pos 0;
  y ← Py.getitem pos 1;
  z ← Py.getitem pos 2;
  mret (ln (str_of_int atom_id ++ " 1 " ++ format_6f x ++ " " ++
            format_6f y ++ " " ++ format_6f z)).

(** A [for] loop whose body writes one string per element. *)
Fixpoint write_each {A} (w : A -> result string) (l : list A)
  : result (list string) :=
  match l with
  | [] => mret []
  | a :: l' => s ← w a; rest ← write_each w l'; mret (s :: rest)
  end.

Definition default_bounds : list string :=
  [ln "0.0 100.0"; ln "0.0 100.0"; ln "0.0 100.0"].

(** [if box_bounds: ... else: ...] *)
Definition write_bounds (bb : option (list (list pyfloat)))
  : result (list string) :=
  match bb with
  | Some (b :: bs) => write_each bounds_line (b :: bs)
  | _ => mret default_bounds
  end.

(** Strings written for one element of [data]. *)
Definition write_snapshot (s : Snapshot) : result (list string) :=
  bl ← write_bounds (box_bounds s);
  al ← write_each (fun '(atom_id, pos) => atom_line atom_id pos)
                  (zip (atom_ids s) (positions s));
  mret ([ ln "ITEM: TIMESTEP"; ln (str_of_int (timestep s));
          ln "ITEM: NUMBER OF ATOMS";
          ln (str_of_int (Z.of_nat (length (positions s))));
          ln "ITEM: BOX BOUNDS pp pp pp" ]
        ++ bl ++ [ln "ITEM: ATOMS id type x y z"] ++ al).

(** The sequence of [f.write] arguments of a complete run. *)
Fixpoint write_trajectory (data : list Snapshot) : result (list string) :=
  match data with
  | [] => mret []
  | s :: data' =>
      w ← write_snapshot s;
      rest ← write_trajectory data';
      mret (w ++ rest)
  end.

(** Contents of the file after the writes. *)
Definition file_text (writes : list string) : string :=
  foldr String.append EmptyString writes.

(** The lines yielded by iterating a text file with these contents. *)
Fixpoint readlines (s : string) : list string :=
  match s with
  | EmptyString => []
  | String c s' =>
      if Ascii.eqb c LF then String c EmptyString :: readlines s'
      else
        match readlines s' with
        | l :: ls => String c l :: ls
        | [] => [String c EmptyString]
        end
  end.

(** [[next(f) for _ in range(n)]] *)
Fixpoint take_lines (n : nat) (f : list string) : result (list string) :=
  match n with
  | O => mret []
  | S n' => '(l, f1) ← next f; rest ← take_lines n' f1; mret (l :: rest)
  end.

Definition verify_output (input_file output_file : list string) : result bool :=
  input_lines ← take_lines 10 input_file;
  output_lines ← take_lines 10 output_file;
  i0 ← Py.getitem input_lines 0;
  o0 ← Py.getitem output_lines 0;
  if negb (String.eqb (Py.strip i0) (Py.strip o0)) then mret false
  else mret true.

(** [main]: the text written to the output file and the value returned
    by [verify_output] (which [main] discards). *)
Definition main (input_file : list string) : result (string * bool) :=
  data ← read_dump_voro input_file;
  writes ← write_trajectory data;
  let out := file_text writes in
  ok ← verify_output input_file (readlines out);
  mret (out, ok).

(** ** [analyze_dislocations.py]: [read_lammps_dump] *)

Module Dislocations.

(** [np.array(l)] for a list [l] of Python ints, by the element type
    that numpy chooses (with a 64-bit C long): [int64] when every
    integer fits it, [uint64] when every integer is above [int64] and
    fits [uint64], [float64] when the two kinds are mixed (the integers
    are then rounded), and otherwise an array of Python objects, which
    keeps the integers.  The empty list gives an empty [float64]
    array. *)
Inductive np_ints : Type :=
| NpInt64 (l : list Z)
| NpUInt64 (l : list Z)
| NpFloat64 (l : list pyfloat)
| NpObject (l : list Z).

Definition fits_int64 (z : Z) : bool := (- 2 ^ 63 <=? z) && (z <? 2 ^ 63).

Definition fits_uint64 (z : Z) : bool := (2 ^ 63 <=? z) && (z <? 2 ^ 64).

(** [float(z)] for an int [z] that fits 64 bits. *)
Definition float_of_int (z : Z) : pyfloat := round_signed false (inject_Z z).

Definition np_array_of_ints (l : list Z) : np_ints :=
  match l with
  | [] => NpFloat64 []
  | _ =>
      if forallb fits_int64 l then NpInt64 l
      else if forallb fits_uint64 l then NpUInt64 l
      else if forallb (fun z => fits_int64 z || fits_uint64 z) l
      then NpFloat64 (map float_of_int l)
      else NpObject l
  end.

(** The elements of the array, as iteration yields them. *)
Definition np_items (a : np_ints) : list (Z + pyfloat) :=
  match a with
  | NpInt64 l | NpUInt64 l | NpObject l => map inl l
  | NpFloat64 l => map inr l
  end.

(** [len(a)] *)
Definition np_len (a : np_ints) : nat := length (np_items a).

(** The value stored in [data[current_timestep]]: [positions] and [csp]
    are [float64] arrays, kept as the lists of their elements. *)
Record Frame : Type := mkFrame {
  positions : list (list pyfloat);
  types : np_ints;
  csp : list pyfloat;
  box_bounds : option (list (list pyfloat))
}.

(** The local variables of [read_lammps_dump]; [data] is a dict. *)
Record State : Type := mkState {
  data : gmap Z Frame;
  current_timestep : option Z;
  cur_positions : list (list pyfloat);
  cur_types : list Z;
  cur_csp : list pyfloat;
  cur_box_bounds : option (list (list pyfloat));
  reading_atoms : bool;
  atoms_expected : option Z;
  atoms_read : nat
}.

Definition init_state : State :=
  {| data := ∅; current_timestep := None; cur_positions := [];
     cur_types := []; cur_csp := []; cur_box_bounds := None;
     reading_atoms := false; atoms_expected := None; atoms_read := 0 |}.

(** [if current_timestep is not None and atoms_read > 0:
       if target_timesteps is None or current_timestep in target_timesteps:
           data[current_timestep] = {...}] *)
Definition save (target_timesteps : option (list Z)) (st : State) : gmap Z Frame :=
  match current_timestep st with
  | Some t =>
      if (0 <? atoms_read st)%nat then
        if match target_timesteps with
           | None => true
           | Some ts => bool_decide (t ∈ ts)
           end
        then <[t := mkFrame (cur_positions st)
                            (np_array_of_ints (cur_types st)) (cur_csp st)
                            (cur_box_bounds st)]> (data st)
        else data st
      else data st
  | None => data st
  end.

Definition str_to_int (s : string) : result Z :=
  match int_of_string s with
  | Some z => mret z
  | None => raise ValueError
  end.

Definition str_to_float (s : string) : result pyfloat :=
  match float_of_string s with
  | Some x => mret x
  | None => raise ValueError
  end.

(** The [for _ in range(n)] loop of the BOX BOUNDS branch:
    [[float(bounds[0]), float(bounds[1])]] for each of the next lines. *)
Fixpoint read_bounds (n : nat) (f : list string)
  : result (list (list pyfloat) * list string) :=
  match n with
  | O => mret ([], f)
  | S n' =>
      '(l, f1) ← next f;
      let bounds := Py.split l in
      b0 ← Py.getitem bounds 0;
      lo ← str_to_float b0;
      b1 ← Py.getitem bounds 1;
      hi ← str_to_float b1;
      '(rest, f2) ← read_bounds n' f1;
      mret ([lo; hi] :: rest, f2)
  end.

(** [try: ... except (ValueError, IndexError): continue] *)
Definition except_Value_Index (st : State) (body : result State) : result State :=
  match body with
  | inl ValueError | inl IndexError => mret st
  | r => r
  end.

(** The body of the [try] of the [elif reading_atoms] branch; every
    conversion precedes the first [append]. *)
Definition parse_atom_line (st : State) (line : string) : result State :=
  let parts := Py.split line in
  if (11 <=? length parts)%nat then
    p0 ← Py.getitem parts 0;
    _ ← str_to_int p0;
    p1 ← Py.getitem parts 1;
    atom_type ← str_to_int p1;
    xyz ← floats (take 3 (drop 2 parts));
    p10 ← Py.getitem parts 10;
    csp_value ← str_to_float p10;
    let n := S (atoms_read st) in
    mret {| data := data st; current_timestep := current_timestep st;
            cur_positions := cur_positions st ++ [xyz];
            cur_types := cur_types st ++ [atom_type];
            cur_csp := cur_csp st ++ [csp_value];
            cur_box_bounds := cur_box_bounds st;
            reading_atoms :=
              match atoms_expected st with
              | Some e => if (e <=? Z.of_nat n)%Z then false else reading_atoms st
              | None => reading_atoms st
              end;
            atoms_expected := atoms_expected st;
            atoms_read := n |}
  else mret st.

(** One iteration of [for line in f]. *)
Definition body (target_timesteps : option (list Z)) (st : State)
    (line : string) (f : list string) : result (State * list string) :=
  if Py.has_substring "ITEM: TIMESTEP" line then
    let data' := save target_timesteps st in
    '(v, f1) ← next f;
    t ← str_to_int v;
    mret ({| data := data'; current_timestep := Some t; cur_positions := [];
             cur_types := []; cur_csp := [];
             cur_box_bounds := cur_box_bounds st; reading_atoms := false;
             atoms_expected := None; atoms_read := 0 |}, f1)
  else if Py.has_substring "ITEM: NUMBER OF ATOMS" line then
    '(v, f1) ← next f;
    n ← str_to_int v;
    mret ({| data := data st; current_timestep := current_timestep st;
             cur_positions := cur_positions st; cur_types := cur_types st;
             cur_csp := cur_csp st; cur_box_bounds := cur_box_bounds st;
             reading_atoms := reading_atoms st; atoms_expected := Some n;
             atoms_read := atoms_read st |}, f1)
  else if Py.has_substring "ITEM: BOX BOUNDS" line then
    '(bb, f1) ← read_bounds 3 f;
    mret ({| data := data st; current_timestep := current_timestep st;
             cur_positions := cur_positions st; cur_types := cur_types st;
             cur_csp := cur_csp st; cur_box_bounds := Some bb;
             reading_atoms := reading_atoms st;
             atoms_expected := atoms_expected st;
             atoms_read := atoms_read st |}, f1)
  else if Py.has_substring "ITEM: ATOMS" line then
    mret ({| data := data st; current_timestep := current_timestep st;
             cur_positions := cur_positions st; cur_types := cur_types st;
             cur_csp := cur_csp st; cur_box_bounds := cur_box_bounds st;
             reading_atoms := true; atoms_expected := atoms_expected st;
             atoms_read := atoms_read st |}, f)
  else if reading_atoms st then
    st' ← except_Value_Index st (parse_atom_line st line);
    mret (st', f)
  else mret (st, f).

Fixpoint for_lines (target_timesteps : option (list Z)) (fuel : nat)
    (st : State) (f : list string) : result State :=
  match f with
  | [] => mret st
  | line :: f' =>
      match fuel with
      | O => mret st
      | S fuel' =>
          '(st', f'') ← body target_timesteps st line f';
          for_lines target_timesteps fuel' st' f''
      end
  end.

(** [read_lammps_dump(filename, target_timesteps)]; the lines of the
    file stand for [filename], the [print] calls are left out. *)
Definition read_lammps_dump (f : list string) (target_timesteps : option (list Z))
  : result (gmap Z Frame) :=
  st ← for_lines target_timesteps (length f) init_state f;
  mret (save target_timesteps st).


(** *** [export_frame_to_xyz] *)

Section Xyz.

(** The text of a numpy [float64] under [str()] (the shortest decimal
    that reads back as the same value) is not computed here. *)
Variable float_str : pyfloat -> string.

(** [f"{t}"] for an element of the array of types. *)
Definition type_str (t : Z + pyfloat) : string :=
  match t with
  | inl z => str_of_int z
  | inr x => float_str x
  end.

(** [f"{t} {pos[0]} {pos[1]} {pos[2]} {c}\n"] *)
Definition xyz_line (pos : list pyfloat) (t : Z + pyfloat) (c : pyfloat)
  : result string :=
  x ← Py.getitem pos 0;
  y ← Py.getitem pos 1;
  z ← Py.getitem pos 2;
  mret (ln (type_str t ++ " " ++ float_str x ++ " " ++ float_str y ++ " " ++
            float_str z ++ " " ++ float_str c)).

(** [export_frame_to_xyz(data, timestep, output_file)]: the lines
    printed and the strings written, if the file is opened;
    [output_file] is the name of the file, a relative path. *)
Definition export_frame_to_xyz (data : gmap Z Frame) (timestep : Z)
    (output_file : string) : result (list string * option (list string)) :=
  match data !! timestep with
  | None =>
      mret (["Timestep " +:+ str_of_int timestep +:+ " not found in data."], None)
  | Some frame =>
      let full_output_path := "outputs/" +:+ output_file in
      rows ← write_each (fun '(pos, t, c) => xyz_line pos t c)
                        (zip (zip (positions frame) (np_items (types frame)))
                             (csp frame));
      mret (["Exported frame at timestep " +:+ str_of_int timestep +:+ " to " +:+
             full_output_path],
            Some (ln (str_of_int (Z.of_nat (length (positions frame))))
                  :: ln ("Frame at timestep " ++ str_of_int timestep)
                  :: rows))
  end.

End Xyz.

End Dislocations.

(** ** [extract_stress_strain_data.py] *)

Module Extract.

(** [exn] as shown by [{e}] in a message: the interpreter's text is
    abbreviated to the class of the exception. *)
Definition exn_text (e : exn) : string :=
  match e with
  | StopIteration => "StopIteration"
  | ValueError => "ValueError"
  | IndexError => "IndexError"
  | OverflowError => "OverflowError"
  | UnboundLocalError => "UnboundLocalError"
  | TypeError => "TypeError"
  | ZeroDivisionError => "ZeroDivisionError"
  | KeyError => "KeyError"
  | FileNotFoundError => "FileNotFoundError"
  end.

(** [{'x': 'Pxx', 'y': 'Pyy', 'z': 'Pzz'}[loading_direction]] *)
Definition stress_component (loading_direction : string) : result string :=
  if String.eqb loading_direction "x" then mret "Pxx"
  else if String.eqb loading_direction "y" then mret "Pyy"
  else if String.eqb loading_direction "z" then mret "Pzz"
  else raise KeyError.

Definition stress_keys : list string :=
  ["Pxx"; "Pyy"; "Pzz"; "Pxy"; "Pxz"; "Pyz"].

(** [re.match(r'^\s*Step', line)] *)
Definition match_Step (line : string) : bool :=
  Py.startswith "Step" (Py.lstrip line).

(** A row [(step, strain, -stress_value)]. *)
Definition Row : Type := (Z * pyfloat * pyfloat)%type.

(** The local variables of [extract_stress_strain_data] that the loop
    updates, and the lines printed so far.  [header] is read only once
    [header_line_found] holds, when it is bound. *)
Record State : Type := mkState {
  stress_strain_data : list Row;
  header_line_found : bool;
  header : list string;
  header_indices : gmap string nat;
  initial_L : option (pyfloat * pyfloat * pyfloat);
  printed : list string
}.

Definition init_state : State :=
  {| stress_strain_data := []; header_line_found := false; header := [];
     header_indices := ∅; initial_L := None; printed := [] |}.

(** [for key in keys: if key in header: header_indices[key] = header.index(key)] *)
Definition store_indices (hdr keys : list string) (m : gmap string nat)
  : gmap string nat :=
  foldl (fun m key =>
           match Py.index key hdr with
           | Some i => <[key := i]> m
           | None => m
           end) m keys.

(** [values[header_indices[key]]] *)
Definition field (st : State) (values : list string) (key : string)
  : result string :=
  match header_indices st !! key with
  | None => raise KeyError
  | Some i => Py.getitem values i
  end.

Definition str_to_int (s : string) : result Z :=
  match int_of_string s with
  | Some z => mret z
  | None => raise ValueError
  end.

Definition str_to_float (s : string) : result pyfloat :=
  match float_of_string s with
  | Some x => mret x
  | None => raise ValueError
  end.

(** [(L - initial_L) / initial_L]; [initial_L] may still be [None]. *)
Definition strain_of (L : pyfloat) (initial : option pyfloat) : result pyfloat :=
  match initial with
  | None => raise TypeError
  | Some L0 => fdiv (fsub L L0) L0
  end.

(** The body of the [try] of a data row. *)
Definition parse_row (loading_direction key : string) (st : State)
    (values : list string) : result State :=
  s ← field st values "Step";
  step ← str_to_int s;
  s ← field st values key;
  stress_value ← str_to_float s;
  s ← field st values "Lx";
  Lx ← str_to_float s;
  s ← field st values "Ly";
  Ly ← str_to_float s;
  s ← field st values "Lz";
  Lz ← str_to_float s;
  '(init', strain) ←
    (if (step =? 0)%Z then mret (Some (Lx, Ly, Lz), Finite false 0)
     else
       strain ←
         (if String.eqb loading_direction "x"
          then strain_of Lx ((fun t => t.1.1) <$> initial_L st)
          else if String.eqb loading_direction "y"
          then strain_of Ly ((fun t => t.1.2) <$> initial_L st)
          else if String.eqb loading_direction "z"
          then strain_of Lz ((fun t => t.2) <$> initial_L st)
          else mret (Finite false 0));
       mret (initial_L st, strain));
  mret {| stress_strain_data :=
            stress_strain_data st ++ [(step, strain, fneg stress_value)];
          header_line_found := header_line_found st;
          header := header st;
          header_indices := header_indices st;
          initial_L := init';
          printed := printed st |}.

(** [try: ... except (ValueError, IndexError): pass] *)
Definition except_Value_Index (st : State) (r : result State) : result State :=
  match r with
  | inl ValueError | inl IndexError => mret st
  | r => r
  end.

(** One iteration of [for line in f]. *)
Definition body (loading_direction key : string) (st : State) (raw : string)
  : result State :=
  let line := Py.strip raw in
  let required_keys := ["Step"; key; "Lx"; "Ly"; "Lz"] in
  if negb (header_line_found st) && match_Step line then
    let hdr := Py.split line in
    if forallb (fun k => Py.contains k hdr) required_keys then
      mret {| stress_strain_data := stress_strain_data st;
              header_line_found := true;
              header := hdr;
              header_indices :=
                store_indices hdr stress_keys
                  (store_indices hdr required_keys (header_indices st));
              initial_L := initial_L st;
              printed := printed st ++ ["Log file header identified."] |}
    else
      mret {| stress_strain_data := stress_strain_data st;
              header_line_found := header_line_found st;
              header := hdr;
              header_indices := header_indices st;
              initial_L := initial_L st;
              printed := printed st |}
  else if header_line_found st
          && (length (Py.split line) =? length (header st))%nat then
    except_Value_Index st (parse_row loading_direction key st (Py.split line))
  else mret st.

(** The [for] loop inside the outer [try]: the state when the loop
    ends, and the exception that ended it, if any. *)
Fixpoint for_lines (loading_direction key : string) (st : State)
    (f : list string) : State * option exn :=
  match f with
  | [] => (st, None)
  | raw :: f' =>
      match body loading_direction key st raw with
      | inl e => (st, Some e)
      | inr st' => for_lines loading_direction key st' f'
      end
  end.

(** [extract_stress_strain_data(log_file, loading_direction)]: the lines
    printed and the value returned ([None] or the rows).  [log_file] is
    the name of the file, [contents] its lines, [None] when the file does
    not exist. *)
Definition extract_stress_strain_data (log_file : string)
    (contents : option (list string)) (loading_direction : string)
  : result (list string * option (list Row)) :=
  key ← stress_component loading_direction;
  match contents with
  | None => mret (["Error: Log file not found at " +:+ log_file], None)
  | Some f =>
      match for_lines loading_direction key init_state f with
      | (st, Some e) =>
          mret (printed st ++
                ["An unexpected error occurred while reading the log file: "
                 +:+ exn_text e], None)
      | (st, None) =>
          if negb (header_line_found st) then
            mret (printed st ++
                  ["Error: Could not find the thermo output header line in the log file.";
                   "Please ensure 'thermo_style custom' is configured correctly in your LAMMPS input."],
                  None)
          else mret (printed st, Some (stress_strain_data st))
      end
  end.

(** [f"{step}, {strain:.6e}, {stress:.6e}\n"] *)
Definition row_line (r : Row) : string :=
  ln (str_of_int r.1.1 ++ ", " ++ format_6e r.1.2 ++ ", " ++ format_6e r.2).

(** [write_stress_strain_data(data, output_file, loading_direction)]:
    the lines printed and the strings written, if the file is opened.
    Errors of the file system are left out. *)
Definition write_stress_strain_data (data : option (list Row))
    (output_file loading_direction : string)
  : list string * option (list string) :=
  match data with
  | None | Some [] => (["No data to write."], None)
  | Some rows =>
      match stress_component loading_direction with
      | inl e => (["Error writing data to file: " +:+ exn_text e], None)
      | inr stress_label =>
          (["Stress-strain data written to " +:+ output_file],
           Some (ln ("# Timestep, Strain, Stress (" ++ stress_label ++ ")")
                 :: map row_line rows))
      end
  end.

(** What a run of the script leaves behind. *)
Record Run : Type := mkRun {
  stdout : list string;
  output_file : option (list string);
  exit_status : Z
}.

(** The [__main__] block.  The interpreter exits with status 0 when the
    block runs to its end and with status 1 on an uncaught exception;
    the block calls neither [sys.exit] nor [raise]. *)
Definition script (contents : option (list string)) : Run :=
  let log_file := "lammps.log" in
  let output_file := "stress_strain_data.txt" in
  let loading_direction := "z" in
  match extract_stress_strain_data log_file contents loading_direction with
  | inl e =>
      {| stdout := []; output_file := None; exit_status := 1 |}
  | inr (out, stress_strain_data) =>
      match stress_strain_data with
      | Some (r :: rows) =>
          let '(out', written) :=
            write_stress_strain_data (Some (r :: rows)) output_file
                                     loading_direction in
          {| stdout := out ++ out'; output_file := written; exit_status := 0 |}
      | _ =>
          {| stdout := out ++ ["Failed to extract stress-strain data."];
             output_file := None; exit_status := 0 |}
      end
  end.

End Extract.

(** * Vocabulary of the properties *)

(** ** Worked inputs *)

(** The float denoted by a literal. *)
Definition F (s : string) : pyfloat := default NaN (float_of_string s).

(** The excerpt of the input format (one snapshot, two particle lines). *)
Definition excerpt : list string :=
  map ln
    [ "ITEM: TIMESTEP"; "1000"; "ITEM: NUMBER OF ATOMS"; "4";
      "ITEM: BOX BOUNDS pp pp pp"; "0.0 100.0"; "0.0 100.0"; "0.0 100.0";
      "ITEM: ATOMS id type x y z";
      "1 1 10.5 20.3 5.0"; "2 1 11.0 21.0 5.2" ].

(** The two-snapshot scenario. *)
Definition scenario : list string :=
  map ln
    [ "ITEM: TIMESTEP"; "0"; "ITEM: NUMBER OF ATOMS"; "2";
      "ITEM: BOX BOUNDS pp pp pp"; "0.0 10.0"; "0.0 10.0"; "0.0 10.0";
      "ITEM: ATOMS id type x y z"; "1 1 1.0 1.0 1.0"; "2 1 2.0 2.0 2.0";
      "ITEM: TIMESTEP"; "100"; "ITEM: NUMBER OF ATOMS"; "2";
      "ITEM: BOX BOUNDS pp pp pp"; "0.0 10.5"; "0.0 10.5"; "0.0 10.5";
      "ITEM: ATOMS id type x y z"; "1 1 1.1 1.0 1.0"; "2 1 2.3 2.0 2.0" ].

(** A dump whose column list is on the line after the marker, with a
    particle line that has four tokens. *)
Definition short_row : list string :=
  map ln
    [ "ITEM: TIMESTEP"; "0"; "ITEM: ATOMS"; "id type q x y z";
      "1 1 0.5 1.0 1.0 1.0"; "2 1 0.5 2.0" ].

(** One snapshot, three particle lines; [with_bad_line] has one more
    line, which is not a particle line, right after the ATOMS marker. *)
Definition three_rows : list string :=
  map ln
    [ "ITEM: TIMESTEP"; "0"; "ITEM: ATOMS id type x y z";
      "1 1 1.0 1.0 1.0"; "2 1 2.0 2.0 2.0"; "3 1 3.0 3.0 3.0" ].

(** [three_rows] with a two-token line after the marker. *)
Definition with_bad_line : list string :=
  map ln
    [ "ITEM: TIMESTEP"; "0"; "ITEM: ATOMS id type x y z"; "1 1";
      "1 1 1.0 1.0 1.0"; "2 1 2.0 2.0 2.0"; "3 1 3.0 3.0 3.0" ].

(** A BOX BOUNDS marker followed by two bound lines and a blank line. *)
Definition two_bounds_then_blank : list string :=
  map ln
    [ "ITEM: TIMESTEP"; "0"; "ITEM: BOX BOUNDS pp pp pp"; "0.0 10.0"; "0.0 10.0";
      ""; "ITEM: ATOMS id type x y z"; "1 1 1.0 1.0 1.0"; "2 1 2.0 2.0 2.0" ].

(** One snapshot with one particle: ten lines. *)
Definition one_atom : list string :=
  map ln
    [ "ITEM: TIMESTEP"; "0"; "ITEM: NUMBER OF ATOMS"; "1";
      "ITEM: BOX BOUNDS pp pp pp"; "0.0 10.0"; "0.0 10.0"; "0.0 10.0";
      "ITEM: ATOMS id type x y z"; "1 1 1.0 1.0 1.0" ].

(** Timesteps out of order and repeated. *)
Definition unsorted : list string :=
  map ln
    [ "ITEM: TIMESTEP"; "5"; "ITEM: ATOMS id type x y z"; "1 1 0 0 0"; "2 1 0 0 0";
      "ITEM: TIMESTEP"; "3"; "ITEM: ATOMS id type x y z"; "1 1 0 0 0"; "2 1 0 0 0";
      "ITEM: TIMESTEP"; "5"; "ITEM: ATOMS id type x y z"; "1 1 0 0 0"; "2 1 0 0 0" ].

(** ** Lines, markers and states of the reader *)

(** A line that the loop takes for a section marker. *)
Definition is_marker (raw : string) : bool :=
  Py.startswith "ITEM:" (Py.strip raw).

(** The branch of the loop body that a line selects. *)
Inductive kind : Set := KTimestep | KBounds | KAtoms | KOther | KData.

(** The tests of the loop body, in their order. *)
Definition classify (raw : string) : kind :=
  let line := Py.strip raw in
  if Py.startswith "ITEM: TIMESTEP" line then KTimestep
  else if Py.startswith "ITEM: BOX BOUNDS" line then KBounds
  else if Py.startswith "ITEM:" line then
    if negb (Py.startswith "ITEM: ATOMS" line) then KOther else KAtoms
  else KData.

(** The states after the TIMESTEP, BOX BOUNDS and ATOMS branches. *)
Definition with_timestep (st : State) (t : Z) : State :=
  {| data := flush st; current_timestep := Some t; current_data := [];
     cur_box_bounds := cur_box_bounds st; cur_atom_ids := [];
     cols := cols st |}.

Definition with_bounds (st : State) (bb : list (list pyfloat)) : State :=
  {| data := data st; current_timestep := current_timestep st;
     current_data := current_data st; cur_box_bounds := Some bb;
     cur_atom_ids := cur_atom_ids st; cols := cols st |}.

Definition with_columns (st : State) (c : Columns) : State :=
  {| data := data st; current_timestep := current_timestep st;
     current_data := current_data st; cur_box_bounds := cur_box_bounds st;
     cur_atom_ids := cur_atom_ids st; cols := Some c |}.

(** The timesteps that the file declares, in file order: the integers on
    the lines that follow a TIMESTEP marker line. *)
Fixpoint declared_timesteps (f : list string) : list Z :=
  match f with
  | [] => []
  | m :: f' =>
      match classify m, f' with
      | KTimestep, v :: _ =>
          match int_of_string v with
          | Some t => t :: declared_timesteps f'
          | None => declared_timesteps f'
          end
      | _, _ => declared_timesteps f'
      end
  end.

(** The timestep of the snapshot being accumulated. *)
Definition pending (st : State) : list Z :=
  match current_timestep st with
  | Some t => [t]
  | None => []
  end.

(** What the reader returns on [unsorted]. *)
Definition unsorted_result : list Snapshot :=
  [ {| timestep := 5; positions := [[F "1"; F "0"; F "0"]];
       box_bounds := None; atom_ids := [2] |};
    {| timestep := 3; positions := [[F "1"; F "0"; F "0"]];
       box_bounds := None; atom_ids := [2] |};
    {| timestep := 5; positions := [[F "1"; F "0"; F "0"]];
       box_bounds := None; atom_ids := [2] |} ].

(** ** Written text *)

(** Every character of [s] satisfies [P]. *)
Fixpoint all_chars (P : ascii -> bool) (s : string) : bool :=
  match s with
  | EmptyString => true
  | String c s' => P c && all_chars P s'
  end.

(** The characters that make up a formatted number. *)
Definition plain (c : ascii) : bool :=
  Py.is_digit c ||
  existsb (Ascii.eqb c) ["-"; "."; "i"; "n"; "f"; "a"; "e"; "+"]%char.

Definition not_space (c : ascii) : bool := negb (Py.is_space c).

Definition not_LF (c : ascii) : bool := negb (Ascii.eqb c LF).

(** The chunks that [write_trajectory] writes. *)
Definition is_line (w : string) : Prop :=
  exists s, w = ln s /\ all_chars not_LF s = true.

(** ** Box bounds and counts *)

(** A line that selects the BOX BOUNDS branch. *)
Definition is_bounds_marker (raw : string) : bool :=
  match classify raw with KBounds => true | _ => false end.

(** No line of [f] selects the BOX BOUNDS branch. *)
Definition no_bounds_marker (f : list string) : bool :=
  forallb (fun l => negb (is_bounds_marker l)) f.

(** A marker line among the next [k] lines, or fewer than [k] lines. *)
Definition truncated (k : nat) (f : list string) : bool :=
  (length f <? k)%nat || existsb is_marker (take k f).

(** A state that holds parsed bounds, as after a first snapshot. *)
Definition holding_bounds : State :=
  with_bounds init_state [[F "0"; F "1"]; [F "0"; F "1"]; [F "0"; F "1"]].

(** A line that holds a non-negative integer and nothing else. *)
Definition is_count_line (c : string) : bool :=
  match Py.strip c with
  | EmptyString => false
  | String d s => all_chars Py.is_digit (String d s)
  end.

(** A NUMBER OF ATOMS marker line. *)
Definition is_count_marker (m : string) : bool :=
  Py.startswith "ITEM: NUMBER OF ATOMS" (Py.strip m).

(** A state of [read_lammps_dump] inside an ATOMS section, five atoms
    declared, none read yet. *)
Definition expecting_five : Dislocations.State :=
  {| Dislocations.data := ∅;
     Dislocations.current_timestep := Some 0;
     Dislocations.cur_positions := [];
     Dislocations.cur_types := [];
     Dislocations.cur_csp := [];
     Dislocations.cur_box_bounds := None;
     Dislocations.reading_atoms := true;
     Dislocations.atoms_expected := Some 5;
     Dislocations.atoms_read := 0 |}.

(** Two atom lines with a centro-symmetry column. *)
Definition two_csp_rows : list string :=
  map ln [ "1 1 1.0 1.0 1.0 0 0 0 0 0 0.5"; "2 1 2.0 2.0 2.0 0 0 0 0 0 0.7" ].

(** ** Layout of the output *)

(** Digits, a point, six digits. *)
Fixpoint point_then_six (s : string) : bool :=
  match s with
  | EmptyString => false
  | String c s' =>
      if Py.is_digit c then point_then_six s'
      else Ascii.eqb c "." && (String.length s' =? 6)%nat
           && all_chars Py.is_digit s'
  end.

(** An optional minus, digits, a point, six digits. *)
Definition six_decimals (s : string) : bool :=
  match (match s with String "-" s' => s' | _ => s end) with
  | EmptyString => false
  | String c s' => Py.is_digit c && point_then_six s'
  end.

(** The lines written for the box. *)
Definition bounds_layout (bb : option (list (list pyfloat)))
    (bl : list string) : Prop :=
  match bb with
  | Some (b :: bs) =>
      Forall2 (fun b l =>
                 exists lo hi, b !! 0%nat = Some lo /\ b !! 1%nat = Some hi /\
                   Py.split l = [format_6f lo; format_6f hi])
              (b :: bs) bl
  | _ => bl = default_bounds
  end.

(** The particle lines: one per pair of [zip(atom_ids, positions)], in
    that order, with the fields [id 1 x y z]. *)
Definition atoms_layout (ids : list Z) (poss : list (list pyfloat))
    (al : list string) : Prop :=
  Forall2 (fun (p : Z * list pyfloat) l =>
             exists x y z, p.2 !! 0%nat = Some x /\ p.2 !! 1%nat = Some y /\
               p.2 !! 2%nat = Some z /\
               Py.split l =
                 [str_of_int p.1; "1"; format_6f x; format_6f y; format_6f z])
          (zip ids poss) al.

(** The block written for one snapshot. *)
Definition snapshot_layout (s : Snapshot) (out : list string) : Prop :=
  exists bl al,
    out = [ ln "ITEM: TIMESTEP"; ln (str_of_int (timestep s));
            ln "ITEM: NUMBER OF ATOMS";
            ln (str_of_int (Z.of_nat (length (positions s))));
            ln "ITEM: BOX BOUNDS pp pp pp" ]
          ++ bl ++ [ln "ITEM: ATOMS id type x y z"] ++ al /\
    bounds_layout (box_bounds s) bl /\
    atoms_layout (atom_ids s) (positions s) al.

(** What the reader guarantees about a snapshot it returns. *)
Definition proper (s : Snapshot) : Prop :=
  positions s <> [] /\
  length (atom_ids s) = length (positions s) /\
  match box_bounds s with
  | None => True
  | Some bb => length bb = 3%nat
  end.

(** The same of the state of the loop. *)
Definition state_ok (st : State) : Prop :=
  Forall proper (data st) /\
  length (cur_atom_ids st) = length (current_data st) /\
  match cur_box_bounds st with
  | None => True
  | Some bb => length bb = 3%nat
  end.

(** ** [read_lammps_dump] *)

Module DislocationsSpec.
Import Dislocations.

(** A line that one of the four marker branches takes. *)
Definition is_marker_line (line : string) : bool :=
  Py.has_substring "ITEM: TIMESTEP" line ||
  Py.has_substring "ITEM: NUMBER OF ATOMS" line ||
  Py.has_substring "ITEM: BOX BOUNDS" line ||
  Py.has_substring "ITEM: ATOMS" line.

(** No line of [rows] is a marker line. *)
Definition no_marker_line (rows : list string) : bool :=
  forallb (fun l => negb (is_marker_line l)) rows.

(** The conversions of an atom line, before any [append]. *)
Definition fields (line : string)
  : result (option (Z * list pyfloat * pyfloat)) :=
  let parts := Py.split line in
  if (11 <=? length parts)%nat then
    p0 ← Py.getitem parts 0;
    _ ← str_to_int p0;
    p1 ← Py.getitem parts 1;
    atom_type ← str_to_int p1;
    xyz ← floats (take 3 (drop 2 parts));
    p10 ← Py.getitem parts 10;
    csp_value ← str_to_float p10;
    mret (Some (atom_type, xyz, csp_value))
  else mret None.

(** The three [append]s and the count test. *)
Definition add_atom (st : State) (a : Z * list pyfloat * pyfloat) : State :=
  let n := S (atoms_read st) in
  {| data := data st; current_timestep := current_timestep st;
     cur_positions := cur_positions st ++ [a.1.2];
     cur_types := cur_types st ++ [a.1.1];
     cur_csp := cur_csp st ++ [a.2];
     cur_box_bounds := cur_box_bounds st;
     reading_atoms :=
       match atoms_expected st with
       | Some e => if (e <=? Z.of_nat n)%Z then false else reading_atoms st
       | None => reading_atoms st
       end;
     atoms_expected := atoms_expected st;
     atoms_read := n |}.

(** The state with no declared count. *)
Definition unbounded (st : State) : State :=
  {| data := data st; current_timestep := current_timestep st;
     cur_positions := cur_positions st; cur_types := cur_types st;
     cur_csp := cur_csp st; cur_box_bounds := cur_box_bounds st;
     reading_atoms := reading_atoms st; atoms_expected := None;
     atoms_read := atoms_read st |}.


(** The state whose dict is cut down to the timesteps of [ts]. *)
Definition restrict (ts : list Z) (st : State) : State :=
  {| data := filter (fun kv => kv.1 ∈ ts) (data st);
     current_timestep := current_timestep st;
     cur_positions := cur_positions st; cur_types := cur_types st;
     cur_csp := cur_csp st; cur_box_bounds := cur_box_bounds st;
     reading_atoms := reading_atoms st;
     atoms_expected := atoms_expected st;
     atoms_read := atoms_read st |}.

(** A box of three pairs. *)
Definition box_ok (bb : option (list (list pyfloat))) : Prop :=
  match bb with
  | None => True
  | Some bb => length bb = 3%nat /\ Forall (fun b => length b = 2%nat) bb
  end.

(** A frame with at least one atom, one type and one csp value per
    position, three coordinates per position, and a box of three pairs
    if it has one. *)
Definition frame_ok (fr : Frame) : Prop :=
  (1 <= length (positions fr))%nat /\
  np_len (types fr) = length (positions fr) /\
  length (csp fr) = length (positions fr) /\
  Forall (fun p => length p = 3%nat) (positions fr) /\
  box_ok (box_bounds fr).

(** The lists under construction agree with [atoms_read]. *)
Definition lists_agree (st : State) : Prop :=
  map_Forall (fun _ fr => frame_ok fr) (data st) /\
  length (cur_positions st) = atoms_read st /\
  length (cur_types st) = atoms_read st /\
  length (cur_csp st) = atoms_read st /\
  Forall (fun p => length p = 3%nat) (cur_positions st) /\
  box_ok (cur_box_bounds st).

(** A line that the ATOMS branch takes. *)
Definition is_atoms_line (line : string) : bool :=
  negb (Py.has_substring "ITEM: TIMESTEP" line) &&
  negb (Py.has_substring "ITEM: NUMBER OF ATOMS" line) &&
  negb (Py.has_substring "ITEM: BOX BOUNDS" line) &&
  Py.has_substring "ITEM: ATOMS" line.

(** The dict with the one frame made of the atoms [kept] at timestep
    [t], empty when no atom is kept. *)
Definition one_frame (t : Z) (kept : list (Z * list pyfloat * pyfloat))
  : gmap Z Frame :=
  match kept with
  | [] => ∅
  | _ => {[ t := mkFrame (map (fun a => a.1.2) kept)
                         (np_array_of_ints (map (fun a => a.1.1) kept))
                         (map (fun a => a.2) kept) None ]}
  end.

(** The atoms of [rows], when every line converts. *)
Definition converted (rows : list string)
  : option (list (Z * list pyfloat * pyfloat)) :=
  mapM (fun l => match fields l with
                 | inr (Some a) => Some a
                 | _ => None
                 end) rows.

(** A dump of two timesteps with a centro-symmetry column. *)
Definition csp_dump : list string :=
  map ln [ "ITEM: TIMESTEP"; "0"; "ITEM: NUMBER OF ATOMS"; "2";
           "ITEM: BOX BOUNDS pp pp pp"; "0.0 10.0"; "0.0 10.0"; "0.0 10.0";
           "ITEM: ATOMS id type x y z c1 c2 c3 c4 c5 c_csp";
           "1 1 1.0 1.0 1.0 0 0 0 0 0 0.5";
           "2 1 2.0 2.0 2.0 0 0 0 0 0 0.7";
           "3 2 3.0 3.0 3.0 0 0 0 0 0 0.9";
           "ITEM: TIMESTEP"; "100"; "ITEM: NUMBER OF ATOMS"; "2";
           "ITEM: ATOMS id type x y z c1 c2 c3 c4 c5 c_csp";
           "1 1 1.5 1.0 1.0 0 0 0 0 0 0.5" ].


(** *** Dumps made of blocks *)

(** One snapshot of a dump: the TIMESTEP marker and its value, the
    NUMBER OF ATOMS marker and its value, an optional BOX BOUNDS
    section, the ATOMS marker line, and the lines of the section. *)
Record Block : Type := mkBlock {
  blk_timestep : string;
  blk_count : string;
  blk_bounds : option (list string);
  blk_atoms : string;
  blk_rows : list string
}.

(** The lines of the block. *)
Definition render (b : Block) : list string :=
  ln "ITEM: TIMESTEP" :: blk_timestep b ::
  ln "ITEM: NUMBER OF ATOMS" :: blk_count b ::
  match blk_bounds b with
  | Some l => ln "ITEM: BOX BOUNDS pp pp pp" :: l
  | None => []
  end ++
  blk_atoms b :: blk_rows b.

(** The pair of bounds that a line of a BOX BOUNDS section denotes. *)
Definition parsed_pair (line : string) : option (list pyfloat) :=
  match Py.split line with
  | b0 :: b1 :: _ =>
      match float_of_string b0, float_of_string b1 with
      | Some lo, Some hi => Some [lo; hi]
      | _, _ => None
      end
  | _ => None
  end.

(** The atom of a line of the section, if the line converts. *)
Definition row_atom (line : string) : option (Z * list pyfloat * pyfloat) :=
  match fields line with
  | inr (Some a) => Some a
  | _ => None
  end.

(** The atoms of the block, in the order of its lines. *)
Definition blk_atoms_read (b : Block) : list (Z * list pyfloat * pyfloat) :=
  omap row_atom (blk_rows b).

(** The box in force after the block. *)
Definition blk_box (carried : option (list (list pyfloat))) (b : Block)
  : option (list (list pyfloat)) :=
  match blk_bounds b with
  | Some l => mapM parsed_pair l
  | None => carried
  end.

(** A block whose declared number of atoms is strictly larger than the
    number of lines of its section, and that is otherwise in order: its
    timestep and its count are integers, its box, if any, is three
    pairs, and no line of its section holds a marker. *)
Definition short_block (b : Block) : bool :=
  match int_of_string (blk_timestep b) with Some _ => true | None => false end &&
  match int_of_string (blk_count b) with
  | Some e => (Z.of_nat (length (blk_rows b)) <? e)%Z
  | None => false
  end &&
  match blk_bounds b with
  | Some l =>
      (length l =? 3)%nat &&
      match mapM parsed_pair l with Some _ => true | None => false end
  | None => true
  end &&
  is_atoms_line (blk_atoms b) &&
  no_marker_line (blk_rows b).

(** [target_timesteps is None or t in target_timesteps] *)
Definition wanted (tt : option (list Z)) (t : Z) : bool :=
  match tt with
  | None => true
  | Some ts => bool_decide (t ∈ ts)
  end.

(** The frame of the atoms [atoms] with the box [box]. *)
Definition frame_of (atoms : list (Z * list pyfloat * pyfloat))
    (box : option (list (list pyfloat))) : Frame :=
  mkFrame (map (fun a => a.1.2) atoms)
          (np_array_of_ints (map (fun a => a.1.1) atoms))
          (map (fun a => a.2) atoms) box.

(** The dict after a sequence of blocks, from the dict [acc] and the box
    [carried] in force before them: a block with at least one atom that
    converts, and whose timestep is wanted, stores the frame of all its
    atoms under its timestep. *)
Fixpoint frames_from (tt : option (list Z))
    (carried : option (list (list pyfloat))) (acc : gmap Z Frame)
    (bs : list Block) : gmap Z Frame :=
  match bs with
  | [] => acc
  | b :: bs' =>
      let box := blk_box carried b in
      let atoms := blk_atoms_read b in
      let t := default 0 (int_of_string (blk_timestep b)) in
      frames_from tt box
        (if truthy atoms && wanted tt t
         then <[t := frame_of atoms box]> acc
         else acc)
        bs'
  end.

(** The state with the atoms [atoms] added, the section still open. *)
Definition with_atoms (st : State) (atoms : list (Z * list pyfloat * pyfloat))
  : State :=
  {| data := data st; current_timestep := current_timestep st;
     cur_positions := cur_positions st ++ map (fun a => a.1.2) atoms;
     cur_types := cur_types st ++ map (fun a => a.1.1) atoms;
     cur_csp := cur_csp st ++ map (fun a => a.2) atoms;
     cur_box_bounds := cur_box_bounds st;
     reading_atoms := reading_atoms st;
     atoms_expected := atoms_expected st;
     atoms_read := atoms_read st + length atoms |}.

(** The state after the block. *)
Definition after_block (tt : option (list Z)) (st : State) (b : Block) : State :=
  {| data := save tt st;
     current_timestep := Some (default 0 (int_of_string (blk_timestep b)));
     cur_positions := map (fun a => a.1.2) (blk_atoms_read b);
     cur_types := map (fun a => a.1.1) (blk_atoms_read b);
     cur_csp := map (fun a => a.2) (blk_atoms_read b);
     cur_box_bounds := blk_box (cur_box_bounds st) b;
     reading_atoms := true;
     atoms_expected := int_of_string (blk_count b);
     atoms_read := length (blk_atoms_read b) |}.

(** The loop of [read_lammps_dump] on the lines [f], from [st]. *)
Definition run (tt : option (list Z)) (st : State) (f : list string)
  : result State :=
  for_lines tt (length f) st f.

(** Two blocks that declare five atoms and hold two and one lines that
    convert; the second has no box, and a line that does not convert. *)
Definition short_blocks : list Block :=
  [ mkBlock (ln "0") (ln "5")
      (Some (map ln ["0.0 10.0"; "0.0 10.0"; "0.0 10.0"]))
      (ln "ITEM: ATOMS id type x y z c1 c2 c3 c4 c5 c_csp")
      (map ln [ "1 1 1.0 1.0 1.0 0 0 0 0 0 0.5";
                "2 1 2.0 2.0 2.0 0 0 0 0 0 0.7" ]);
    mkBlock (ln "100") (ln "5") None
      (ln "ITEM: ATOMS id type x y z c1 c2 c3 c4 c5 c_csp")
      (map ln [ "1 1 1.5 1.0 1.0 0 0 0 0 0 0.5"; "2 1 2.5" ]) ].


(** A line that the BOX BOUNDS branch takes. *)
Definition is_bounds_line (line : string) : bool :=
  negb (Py.has_substring "ITEM: TIMESTEP" line) &&
  negb (Py.has_substring "ITEM: NUMBER OF ATOMS" line) &&
  Py.has_substring "ITEM: BOX BOUNDS" line.

End DislocationsSpec.

(** ** The run log *)

Module ExtractSpec.
Import Extract.

(** A line that the loop accepts as the thermo header. *)
Definition is_header (key raw : string) : bool :=
  let line := Py.strip raw in
  match_Step line &&
  forallb (fun k => Py.contains k (Py.split line)) ["Step"; key; "Lx"; "Ly"; "Lz"].

(** No line of [f] is a header. *)
Definition no_header (key : string) (f : list string) : bool :=
  forallb (fun l => negb (is_header key l)) f.

(** The two lines printed when no header was found. *)
Definition header_hint : list string :=
  [ "Error: Could not find the thermo output header line in the log file.";
    "Please ensure 'thermo_style custom' is configured correctly in your LAMMPS input." ].

(** A log with no thermo table. *)
Definition log_without_header : list string :=
  map ln [ "LAMMPS (2 Aug 2023)"; "Reading data file ..."; "Step Temp Press";
           "Total wall time: 0:00:01" ].


(** The first line of the table that the script writes. *)
Definition table_header : string := ln "# Timestep, Strain, Stress (Pzz)".

(** The rows are empty while no reference lengths are known, and
    otherwise start with a row of step 0 and strain 0.0. *)
Definition starts_at_reference (st : State) : Prop :=
  match stress_strain_data st with
  | [] => initial_L st = None
  | r :: _ => r.1 = (0, Finite false 0)
  end.

(** The header has been accepted, it is [hdr], and the index stored for
    Step is the place of Step in it. *)
Definition header_known (hdr : list string) (st : State) : Prop :=
  header_line_found st = true /\ header st = hdr /\
  exists i, header_indices st !! "Step" = Some i /\ hdr !! i = Some "Step".

(** A log with a thermo table of three rows and a repeated header. *)
Definition log_with_table : list string :=
  map ln [ "LAMMPS (2 Aug 2023)";
           "Step Temp Pzz Lx Ly Lz";
           "0 300.0 -1.5 10.0 10.0 20.0";
           "100 300.0 -2.5 10.0 10.0 21.0";
           "Step Temp Pzz Lx Ly Lz";
           "200 300.0 -3.5 10.0 10.0 22.0";
           "Loop time of 1.0" ].

End ExtractSpec.

(** ** Further vocabulary: the reader *)

(** A snapshot as the reader builds it: [proper], and three coordinates
    for every particle. *)
Definition well_formed (s : Snapshot) : Prop :=
  proper s /\ Forall (fun p => length p = 3%nat) (positions s).

(** Three coordinates in every position held by the state. *)
Definition coords_ok (st : State) : Prop :=
  Forall (fun s => Forall (fun p => length p = 3%nat) (positions s)) (data st) /\
  Forall (fun p => length p = 3%nat) (current_data st).

(** A line that the loop passes over before the first TIMESTEP marker:
    a line that is no marker, or a marker other than TIMESTEP, BOX BOUNDS
    and ATOMS. *)
Definition is_preamble_line (raw : string) : bool :=
  match classify raw with
  | KData | KOther => true
  | _ => false
  end.

(** A marker line whose branch calls [next(f)]. *)
Definition reads_ahead (raw : string) : bool :=
  match classify raw with
  | KTimestep | KBounds | KAtoms => true
  | _ => false
  end.

(** A state in which the columns are resolved to the defaults. *)
Definition with_default_columns : State :=
  with_columns (with_timestep init_state 0) (resolve_columns []).

(** ** Further vocabulary: the writer and the check *)

(** Every entry of the box has a lower and an upper bound. *)
Definition bounds_have_pairs (s : Snapshot) : bool :=
  match box_bounds s with
  | Some bb => forallb (fun b => (2 <=? length b)%nat) bb
  | None => true
  end.

(** A block of [9 + N] lines whose fourth line declares [N], the number
    of positions of the snapshot. *)
Definition block_counts (s : Snapshot) (w : list string) : Prop :=
  length w = (9 + length (positions s))%nat /\
  w !! 3%nat = Some (ln (str_of_int (Z.of_nat (length (positions s))))).

(** What [verify_output] returns, read off the two lists of lines. *)
Definition verify_outcome (input_file output_file : list string) : result bool :=
  match input_file, output_file with
  | i0 :: _, o0 :: _ =>
      if (length input_file <? 10)%nat || (length output_file <? 10)%nat
      then inl StopIteration
      else inr (String.eqb (Py.strip i0) (Py.strip o0))
  | _, _ => inl StopIteration
  end.

(** ** Further vocabulary: reading back the written file *)

(** An integer that [int(str)] accepts back: its decimal numeral has at
    most [max_str_digits] digits. *)
Definition within_limit (n : Z) : bool :=
  (String.length (nat_digits (Z.abs n)) <=? max_str_digits)%nat.

(** The timesteps held by the state are within the limit. *)
Definition timesteps_within (st : State) : Prop :=
  Forall (fun s => within_limit (timestep s) = true) (data st) /\
  (forall t, current_timestep st = Some t -> within_limit t = true).

(** The loop of [read_dump_voro] on the lines [f], from the state [st]. *)
Definition run (st : State) (f : list string) : result State :=
  for_lines (length f) st f.

(** What may follow a run of digits: the end of the string, or a
    character that is neither a digit nor an underscore. *)
Definition stops (r : string) : bool :=
  match r with
  | EmptyString => true
  | String c _ => negb (Py.is_digit c) && negb (Ascii.eqb c "_")
  end.

(** A snapshot with at least two particles. *)
Definition has_two (s : Snapshot) : bool := (2 <=? length (positions s))%nat.

(** [s'] has the timestep of [s] and one particle less. *)
Definition loses_one (s s' : Snapshot) : Prop :=
  timestep s' = timestep s /\
  S (length (positions s')) = length (positions s) /\
  length (atom_ids s') = length (positions s').

(** What [main] comes to, for the snapshots [d] that were read and the
    strings [ws] that were written. *)
Definition main_outcome (input_file : list string) (d : list Snapshot)
    (ws : list string) : result (string * bool) :=
  match d with
  | [] => inl StopIteration
  | _ :: _ =>
      if (length input_file <? 10)%nat then inl StopIteration
      else inr (file_text ws,
                String.eqb (Py.strip (default EmptyString (head input_file)))
                           "ITEM: TIMESTEP")
  end.

(** ** Dumps made of blocks *)

(** One snapshot of a dump, as LAMMPS lays it out: the TIMESTEP marker
    and its value, an optional NUMBER OF ATOMS section, an optional BOX
    BOUNDS section, the ATOMS marker line, the line that follows it
    (which the reader takes for the column header), and the remaining
    lines of the section. *)
Record Block : Type := mkBlock {
  blk_timestep : string;
  blk_count : option string;
  blk_bounds : option (string * list string);
  blk_atoms : string;
  blk_header : string;
  blk_rows : list string
}.

(** The lines of the block. *)
Definition render (b : Block) : list string :=
  ln "ITEM: TIMESTEP" :: blk_timestep b ::
  match blk_count b with
  | Some c => [ln "ITEM: NUMBER OF ATOMS"; c]
  | None => []
  end ++
  match blk_bounds b with
  | Some (m, l) => m :: l
  | None => []
  end ++
  blk_atoms b :: blk_header b :: blk_rows b.

(** The floats of a list of tokens, if every token is one. *)
Definition float_list (toks : list string) : option (list pyfloat) :=
  mapM float_of_string toks.

(** The box that the lines of a BOX BOUNDS section denote. *)
Definition parsed_bounds (l : list string) : option (list (list pyfloat)) :=
  mapM (fun line => float_list (Py.split line)) l.

(** The columns that the reader binds in the block. *)
Definition blk_columns (b : Block) : Columns :=
  resolve_columns (Py.split (Py.strip (blk_header b))).

(** What a data line comes to under the columns [c]: [None] when the
    reader stops on it ([IndexError] or [OverflowError]), [Some None]
    when it is passed over (a token that is no float, fewer than four
    values, a NaN in the id column), [Some (Some (id, position))] when
    it gives a record. *)
Definition row_outcome (c : Columns) (raw : string)
  : option (option (Z * list pyfloat)) :=
  match float_list (Py.split (Py.strip raw)) with
  | None => Some None
  | Some vs =>
      if (4 <=? length vs)%nat then
        match vs !! id_idx c with
        | None | Some (Infinity _) => None
        | Some NaN => Some None
        | Some (Finite neg mag) =>
            match vs !! x_idx c, vs !! y_idx c, vs !! z_idx c with
            | Some x, Some y, Some z =>
                Some (Some (if neg then - Qfloor mag else Qfloor mag, [x; y; z]))
            | _, _, _ => None
            end
        end
      else Some None
  end.

(** The records of the block, in the order of its lines. *)
Definition blk_records (b : Block) : list (Z * list pyfloat) :=
  omap (fun raw => default None (row_outcome (blk_columns b) raw)) (blk_rows b).

(** The box in force after the block: the one of its BOX BOUNDS section
    if it has one, the one carried so far otherwise. *)
Definition blk_box (carried : option (list (list pyfloat))) (b : Block)
  : option (list (list pyfloat)) :=
  match blk_bounds b with
  | Some (_, l) => parsed_bounds l
  | None => carried
  end.

(** A block that the reader goes through without exception. *)
Definition block_ok (b : Block) : bool :=
  match int_of_string (blk_timestep b) with Some _ => true | None => false end &&
  match blk_count b with Some c => is_count_line c | None => true end &&
  match blk_bounds b with
  | Some (m, l) =>
      match classify m with KBounds => true | _ => false end &&
      (length l =? 3)%nat &&
      match parsed_bounds l with Some _ => true | None => false end
  | None => true
  end &&
  match classify (blk_atoms b) with KAtoms => true | _ => false end &&
  forallb (fun raw =>
             match classify raw with KData => true | _ => false end &&
             match row_outcome (blk_columns b) raw with
             | Some _ => true
             | None => false
             end)
          (blk_rows b).

(** The snapshots of a sequence of blocks, [carried] being the box in
    force before the first of them: a block gives a snapshot when it has
    a record, and the snapshot takes the box of the most recent BOX
    BOUNDS section, that of the block or of a block before it. *)
Fixpoint snapshots_from (carried : option (list (list pyfloat)))
    (bs : list Block) : list Snapshot :=
  match bs with
  | [] => []
  | b :: bs' =>
      let box := blk_box carried b in
      let recs := blk_records b in
      (if truthy recs
       then [mkSnapshot (default 0 (int_of_string (blk_timestep b)))
                        (map snd recs) box (map fst recs)]
       else [])
      ++ snapshots_from box bs'
  end.

(** The state after the block. *)
Definition after_block (st : State) (b : Block) : State :=
  {| data := flush st;
     current_timestep := Some (default 0 (int_of_string (blk_timestep b)));
     current_data := map snd (blk_records b);
     cur_box_bounds := blk_box (cur_box_bounds st) b;
     cur_atom_ids := map fst (blk_records b);
     cols := Some (blk_columns b) |}.

(** The state with one more record, or unchanged. *)
Definition with_record (st : State) (o : option (Z * list pyfloat)) : State :=
  match o with
  | Some (i, p) =>
      {| data := data st; current_timestep := current_timestep st;
         current_data := current_data st ++ [p];
         cur_box_bounds := cur_box_bounds st;
         cur_atom_ids := cur_atom_ids st ++ [i];
         cols := cols st |}
  | None => st
  end.

(** Three blocks: a box, another box, no box. *)
Definition three_blocks : list Block :=
  [ mkBlock (ln "0") (Some (ln "2"))
      (Some (ln "ITEM: BOX BOUNDS pp pp pp", map ln ["0.0 7.0"; "0.0 7.0"; "0.0 7.0"]))
      (ln "ITEM: ATOMS id type x y z") (ln "1 1 1.0 1.0 1.0")
      [ln "2 1 2.0 2.0 2.0"];
    mkBlock (ln "100") (Some (ln "2"))
      (Some (ln "ITEM: BOX BOUNDS pp pp pp", map ln ["0.0 9.0"; "0.0 9.0"; "0.0 9.0"]))
      (ln "ITEM: ATOMS id type x y z") (ln "1 1 1.0 1.0 1.0")
      [ln "2 1 2.5 2.0 2.0"];
    mkBlock (ln "200") (Some (ln "2")) None
      (ln "ITEM: ATOMS id type x y z") (ln "1 1 1.0 1.0 1.0")
      [ln "2 1 3.0 2.0 2.0"; ln "# no number here"] ].

(** ** A second snapshot whose BOX BOUNDS section is cut short *)

(** One snapshot, and the lines of a second one up to its BOX BOUNDS
    marker. *)
Definition before_second_bounds : list string :=
  one_atom ++ map ln ["ITEM: TIMESTEP"; "100"; "ITEM: NUMBER OF ATOMS"; "1"].

(** Two bound lines, and the ATOMS section. *)
Definition cut_short_section : list string :=
  map ln ["0.0 10.0"; "0.0 10.0"; "ITEM: ATOMS id type x y z"; "1 1 1.0 1.0 1.0"].

(** ** Lines before the first ATOMS marker *)

(** A line that selects the TIMESTEP branch. *)
Definition is_timestep_marker (raw : string) : bool :=
  match classify raw with KTimestep => true | _ => false end.

(** A line that selects the ATOMS branch. *)
Definition is_atoms_marker (raw : string) : bool :=
  match classify raw with KAtoms => true | _ => false end.

(** No line of [f] selects the ATOMS branch. *)
Definition no_atoms_marker (f : list string) : bool :=
  forallb (fun l => negb (is_atoms_marker l)) f.

(** A timestep is set, or a TIMESTEP marker is still to come. *)
Definition timestep_due (st : State) (f : list string) : Prop :=
  is_Some (current_timestep st) \/ existsb is_timestep_marker f = true.

(** A preamble, a TIMESTEP section, a count and a box, with no ATOMS
    marker. *)
Definition header_only : list string :=
  map ln [ "LAMMPS dump"; "ITEM: TIMESTEP"; "0"; "ITEM: NUMBER OF ATOMS"; "1";
           "ITEM: BOX BOUNDS pp pp pp"; "0.0 10.0"; "0.0 10.0"; "0.0 10.0";
           "1 2 3" ].

(** ** Snapshots with a single particle *)

(** Two well-formed snapshots with one particle each. *)
Definition two_single_particles : list string :=
  one_atom ++
  map ln
    [ "ITEM: TIMESTEP"; "100"; "ITEM: NUMBER OF ATOMS"; "1";
      "ITEM: BOX BOUNDS pp pp pp"; "0.0 10.0"; "0.0 10.0"; "0.0 10.0";
      "ITEM: ATOMS id type x y z"; "1 1 1.5 1.0 1.0" ].

(** Three well-formed snapshots; the second has one particle, the
    others have two. *)
Definition single_particle_between : list string :=
  map ln
    [ "ITEM: TIMESTEP"; "0"; "ITEM: NUMBER OF ATOMS"; "2";
      "ITEM: BOX BOUNDS pp pp pp"; "0.0 10.0"; "0.0 10.0"; "0.0 10.0";
      "ITEM: ATOMS id type x y z"; "1 1 1.0 1.0 1.0"; "2 1 2.0 2.0 2.0";
      "ITEM: TIMESTEP"; "100"; "ITEM: NUMBER OF ATOMS"; "1";
      "ITEM: BOX BOUNDS pp pp pp"; "0.0 10.0"; "0.0 10.0"; "0.0 10.0";
      "ITEM: ATOMS id type x y z"; "1 1 1.5 1.0 1.0";
      "ITEM: TIMESTEP"; "200"; "ITEM: NUMBER OF ATOMS"; "2";
      "ITEM: BOX BOUNDS pp pp pp"; "0.0 10.0"; "0.0 10.0"; "0.0 10.0";
      "ITEM: ATOMS id type x y z"; "1 1 2.0 1.0 1.0"; "2 1 3.0 2.0 2.0" ].

(** The reader's result as a list of timesteps. *)
Definition returned_timesteps (f : list string) : result (list Z) :=
  d ← read_dump_voro f; mret (map timestep d).

(** The block has a particle record. *)
Definition has_record (b : Block) : bool := truthy (blk_records b).

(** The timestep that the block declares. *)
Definition blk_time (b : Block) : Z := default 0 (int_of_string (blk_timestep b)).

(** * Proofs *)

(** ** The conversions on literals *)

Example int_of_string_examples :
  map int_of_string [ln "100"; " -1_000 "; "007"; "1__0"; "12a"; "1.0"; ""] =
  [Some 100; Some (-1000); Some 7; None; None; None; None].
Proof. reflexivity. Qed.

Example float_of_string_examples :
  map float_of_string ["2.3"; "-.5e1"; "1e400"; "-1e-400"; "NaN"; "1._5"; "ITEM:"] =
  [ Some (Finite false (2589569785738035 # 1125899906842624));
    Some (Finite true 5); Some (Infinity false); Some (Finite true 0);
    Some NaN; None; None ].
Proof. vm_compute. reflexivity. Qed.

Example format_6f_examples :
  map (fun s => format_6f (F s))
      ["2.3"; "0.0078125"; "-1e-9"; "0.0000015"; "1e23"; "inf"] =
  [ "2.300000"; "0.007812"; "-0.000000"; "0.000002";
    "99999999999999991611392.000000"; "inf" ].
Proof. vm_compute. reflexivity. Qed.

Example split_strip_examples :
  Py.split (ln "  1 1   10.5 20.3	5.0 ") = ["1"; "1"; "10.5"; "20.3"; "5.0"] /\
  Py.strip (ln "  ITEM: ATOMS id type x y z  ") = "ITEM: ATOMS id type x y z".
Proof. split; reflexivity. Qed.

(** ** The ATOMS header *)

(** C1 (the claim fails on the code): on the excerpt of the format the
    reader takes its column names from the line after the ATOMS marker.
    That line is the first particle line, which is lost; none of its
    tokens is a column name, so the indices are 0, 1, 2, 3 and the
    positions of the remaining particle are its type, x and y columns. *)
Theorem atoms_header_taken_from_next_line :
  read_dump_voro excerpt =
  inr [ {| timestep := 1000;
           positions := [[F "1"; F "11.0"; F "21.0"]];
           box_bounds := Some [[F "0.0"; F "100.0"]; [F "0.0"; F "100.0"];
                               [F "0.0"; F "100.0"]];
           atom_ids := [2] |} ].
Proof. vm_compute. reflexivity. Qed.

(** C2 (the claim fails on the code): the scenario yields two snapshots
    with timesteps 0 and 100, but each holds one particle record, the
    one of particle 2, with positions [(1, 2.0, 2.0)] and
    [(1, 2.3, 2.0)] taken from the type, x and y columns; the only
    displacement between the two snapshots is [(0, 2.3 - 2.0, 0)], of
    magnitude 0.2999999999999998, where the scenario expects two
    particles with displacements 0.1 and 0.3. *)
Theorem scenario_keeps_one_particle :
  read_dump_voro scenario =
  inr [ {| timestep := 0;
           positions := [[F "1"; F "2.0"; F "2.0"]];
           box_bounds := Some [[F "0.0"; F "10.0"]; [F "0.0"; F "10.0"];
                               [F "0.0"; F "10.0"]];
           atom_ids := [2] |};
        {| timestep := 100;
           positions := [[F "1"; F "2.3"; F "2.0"]];
           box_bounds := Some [[F "0.0"; F "10.5"]; [F "0.0"; F "10.5"];
                               [F "0.0"; F "10.5"]];
           atom_ids := [2] |} ] /\
  zip_with fsub [F "1"; F "2.3"; F "2.0"] [F "1"; F "2.0"; F "2.0"] =
    [F "0"; F "0.2999999999999998"; F "0"].
Proof. vm_compute. auto. Qed.

(** C3 (the claim fails on the code): a particle line with four tokens,
    fewer than the resolved indices need, raises [IndexError]; and a
    line that is not a particle line, put right after the ATOMS marker,
    changes the records of the lines around it. *)
Theorem invalid_line_not_skipped :
  read_dump_voro short_row = inl IndexError /\
  read_dump_voro three_rows =
    inr [ {| timestep := 0;
             positions := [[F "1"; F "2.0"; F "2.0"]; [F "1"; F "3.0"; F "3.0"]];
             box_bounds := None; atom_ids := [2; 3] |} ] /\
  read_dump_voro with_bad_line =
    inr [ {| timestep := 0;
             positions := [[F "1"; F "1.0"; F "1.0"]; [F "1"; F "2.0"; F "2.0"];
                           [F "1"; F "3.0"; F "3.0"]];
             box_bounds := None; atom_ids := [1; 2; 3] |} ].
Proof. vm_compute. auto. Qed.

(** ** Strings *)

Section StringFacts.

Local Open Scope string_scope.

Lemma append_assoc (a b c : string) : (a ++ b) ++ c = a ++ (b ++ c).
Proof. induction a as [|x a IH]; simpl; [reflexivity|]. rewrite IH. reflexivity. Qed.

Lemma length_append (a b : string) :
  String.length (a ++ b) = (String.length a + String.length b)%nat.
Proof. induction a as [|x a IH]; simpl; [reflexivity|]. rewrite IH. reflexivity. Qed.

Lemma append_nil_r (a : string) : a ++ "" = a.
Proof. induction a as [|x a IH]; simpl; [reflexivity|]. rewrite IH. reflexivity. Qed.

Lemma prefix_inv (p s : string) :
  String.prefix p s = true -> exists r, s = p ++ r.
Proof.
  revert s. induction p as [|c p IH]; intros s H.
  - exists s. reflexivity.
  - destruct s as [|d s]; [discriminate|]. simpl in H.
    destruct (ascii_dec c d) as [->|]; [|discriminate].
    destruct (IH _ H) as [r ->]. exists r. reflexivity.
Qed.

Lemma prefix_app (p r : string) : String.prefix p (p ++ r) = true.
Proof.
  induction p as [|c p IH]; simpl.
  - destruct r; reflexivity.
  - destruct (ascii_dec c c); [assumption|congruence].
Qed.

Lemma rstrip_cons (c : ascii) (s : string) :
  Py.is_space c = false -> Py.rstrip (String c s) = String c (Py.rstrip s).
Proof.
  intros Hc. simpl. rewrite Hc. destruct (Py.rstrip s); reflexivity.
Qed.

(** What [rstrip] keeps is a prefix of the string. *)
Lemma rstrip_prefix (s : string) : exists t, s = Py.rstrip s ++ t.
Proof.
  induction s as [|c s [t IH]].
  - exists "". reflexivity.
  - simpl. destruct (Py.rstrip s) eqn:E.
    + destruct (Py.is_space c).
      * exists (String c s). reflexivity.
      * exists t. rewrite IH at 1. reflexivity.
    + exists t. rewrite IH at 1. reflexivity.
Qed.

Lemma prefix_rstrip (p s : string) :
  String.prefix p (Py.rstrip s) = true -> String.prefix p s = true.
Proof.
  intros H. destruct (prefix_inv _ _ H) as [r Hr].
  destruct (rstrip_prefix s) as [t Ht].
  rewrite Ht, Hr, append_assoc. apply prefix_app.
Qed.

Lemma split_lstrip (s : string) : Py.split (Py.lstrip s) = Py.split s.
Proof.
  induction s as [|c s IH]; [reflexivity|].
  simpl Py.lstrip. destruct (Py.is_space c) eqn:E.
  - rewrite IH. simpl. rewrite E. reflexivity.
  - reflexivity.
Qed.

Lemma split_cons (c : ascii) (s : string) :
  Py.is_space c = false ->
  exists t ts, Py.split (String c s) = String c t :: ts.
Proof.
  intros Hc. simpl. rewrite Hc. destruct s as [|d s]; [eauto|].
  destruct (Py.is_space d); [eauto|].
  destruct (Py.split (String d s)); eauto.
Qed.

Lemma split_cons2 (c d : ascii) (s : string) :
  Py.is_space c = false -> Py.is_space d = false ->
  exists t ts, Py.split (String c (String d s)) = String c (String d t) :: ts.
Proof.
  intros Hc Hd. destruct (split_cons d s Hd) as (t & ts & E).
  exists t, ts. change (Py.split (String c (String d s))) with
    (if Py.is_space c then Py.split (String d s)
     else if Py.is_space d then String c "" :: Py.split (String d s)
     else match Py.split (String d s) with
          | t :: ts => String c t :: ts
          | [] => [String c ""]
          end).
  rewrite Hc, Hd, E. reflexivity.
Qed.

End StringFacts.

(** ** Marker lines *)

Lemma c_rstrip_cons (c : ascii) (s : string) :
  is_c_space c = false -> c_rstrip (String c s) = String c (c_rstrip s).
Proof.
  intros Hc. simpl. rewrite Hc. destruct (c_rstrip s); reflexivity.
Qed.

Lemma float_of_marker_token (t : string) :
  float_of_string (String "I" (String "T" t)) = None.
Proof.
  unfold float_of_string, c_strip. simpl c_lstrip.
  rewrite !c_rstrip_cons by reflexivity.
  generalize (c_rstrip t). intros u. reflexivity.
Qed.

Lemma marker_lstrip (raw : string) :
  is_marker raw = true -> exists r, Py.lstrip raw = ("ITEM:" ++ r)%string.
Proof.
  unfold is_marker, Py.strip, Py.startswith. intros H.
  apply prefix_rstrip in H. apply prefix_inv in H. exact H.
Qed.

(** [float] fails on the first token of a marker line. *)
Lemma marker_floats (raw : string) :
  is_marker raw = true -> floats (Py.split raw) = inl ValueError.
Proof.
  intros H. destruct (marker_lstrip _ H) as [r Hr].
  rewrite <- split_lstrip, Hr.
  destruct (split_cons2 "I" "T" ("EM:" ++ r)%string eq_refl eq_refl)
    as (t & ts & E).
  change ("ITEM:" ++ r)%string with (String "I" (String "T" ("EM:" ++ r)%string)).
  rewrite E. simpl. rewrite float_of_marker_token. reflexivity.
Qed.

(** What the number parsers see at the head of a marker line: the [I]
    of the marker, or a separator that only [str.strip] removes. *)
Lemma c_strip_marker (raw r : string) :
  Py.lstrip raw = String "I" r ->
  exists c u, c_strip raw = String c u /\
    (c = "I"%char \/ (Py.is_space c = true /\ is_c_space c = false)).
Proof.
  unfold c_strip. induction raw as [|a raw IH]; [discriminate|].
  simpl Py.lstrip. simpl c_lstrip.
  destruct (Py.is_space a) eqn:Ha.
  - intros H. destruct (is_c_space a) eqn:Hc; [exact (IH H)|].
    rewrite c_rstrip_cons by exact Hc. eauto 6.
  - intros [= -> ->]. change (is_c_space "I") with false. cbv iota.
    rewrite c_rstrip_cons by reflexivity. eauto.
Qed.

(** [int] fails on a marker line. *)
Lemma marker_int (raw : string) :
  is_marker raw = true -> int_of_string raw = None.
Proof.
  intros H. destruct (marker_lstrip _ H) as [r Hr].
  destruct (c_strip_marker raw _ Hr) as (c & u & E & Hc).
  unfold int_of_string. rewrite E.
  destruct Hc as [-> | [H1 H2]]; [reflexivity|].
  destruct c as [[] [] [] [] [] [] [] []]; try discriminate H1;
    try discriminate H2; reflexivity.
Qed.

(** ** The loop of [read_dump_voro] *)

Ltac unfold_monad :=
  unfold mbind, result_bind, mret, result_ret, raise in *.

Lemma read_bounds_length (n : nat) (f f' : list string) bb :
  read_bounds n f = inr (bb, f') ->
  length bb = n /\ (length f' + n = length f)%nat.
Proof.
  revert f f' bb. induction n as [|n IH]; intros f f' bb H; simpl in H.
  - injection H as <- <-. split; [reflexivity|lia].
  - destruct f as [|l f1]; [discriminate|]. simpl in H.
    unfold_monad.
    destruct (floats (Py.split l)); [discriminate|].
    destruct (read_bounds n f1) as [|[rest f2]] eqn:E; [discriminate|].
    injection H as <- <-. destruct (IH _ _ _ E). simpl. split; lia.
Qed.

(** An iteration never gives lines back to the iterator. *)
Lemma body_length (st st' : State) (raw : string) (f f' : list string) :
  body st raw f = inr (st', f') -> (length f' <= length f)%nat.
Proof.
  unfold body. intros H.
  destruct (Py.startswith "ITEM: TIMESTEP" _).
  { destruct f as [|v f1]; [discriminate|]. cbn in H.
    destruct (int_of_string v); [|discriminate].
    unfold_monad. injection H as _ <-. simpl. lia. }
  destruct (Py.startswith "ITEM: BOX BOUNDS" _).
  { unfold_monad.
    destruct (read_bounds 3 f) as [|[bb f1]] eqn:E; [discriminate|].
    injection H as _ <-. apply read_bounds_length in E. lia. }
  destruct (Py.startswith "ITEM:" _).
  { destruct (negb _).
    - unfold_monad. injection H as _ <-. lia.
    - destruct f as [|v f1]; [discriminate|]. cbn in H.
      unfold_monad. injection H as _ <-. simpl. lia. }
  destruct (current_timestep st).
  - unfold_monad.
    destruct (except_ValueError st (parse_data_line st (Py.strip raw)));
      [discriminate|].
    injection H as _ <-. lia.
  - unfold_monad. injection H as _ <-. lia.
Qed.

(** [length f] iterations exhaust the iterator: more fuel changes nothing. *)
Lemma for_lines_fuel (n m : nat) (st : State) (f : list string) :
  (length f <= n)%nat -> (length f <= m)%nat ->
  for_lines n st f = for_lines m st f.
Proof.
  revert m st f. induction n as [|n IH]; intros m st f Hn Hm.
  - destruct f; [|simpl in Hn; lia]. destruct m; reflexivity.
  - destruct f as [|raw f]; [destruct m; reflexivity|].
    destruct m as [|m]; [simpl in Hm; lia|]. simpl in *.
    destruct (body st raw f) as [e|[st' f']] eqn:E; [reflexivity|].
    apply body_length in E. simpl. apply IH; lia.
Qed.

(** [read_dump_voro] with any fuel not below the number of lines. *)
Lemma read_dump_voro_fuel (n : nat) (f : list string) :
  (length f <= n)%nat ->
  read_dump_voro f = (st ← for_lines n init_state f; mret (flush st)).
Proof.
  intros H. unfold read_dump_voro.
  rewrite (for_lines_fuel (length f) n) by lia. reflexivity.
Qed.

(** The body, branch by branch. *)
Lemma body_classify (st : State) (raw : string) (f : list string) :
  body st raw f =
  match classify raw with
  | KTimestep =>
      match f with
      | [] => inl StopIteration
      | v :: f1 =>
          match int_of_string v with
          | None => inl ValueError
          | Some t => inr (with_timestep st t, f1)
          end
      end
  | KBounds =>
      match read_bounds 3 f with
      | inl e => inl e
      | inr (bb, f1) => inr (with_bounds st bb, f1)
      end
  | KAtoms =>
      match f with
      | [] => inl StopIteration
      | h :: f1 =>
          inr (with_columns st (resolve_columns (Py.split (Py.strip h))), f1)
      end
  | KOther => inr (st, f)
  | KData =>
      match current_timestep st with
      | Some _ =>
          match except_ValueError st (parse_data_line st (Py.strip raw)) with
          | inl e => inl e
          | inr st' => inr (st', f)
          end
      | None => inr (st, f)
      end
  end.
Proof.
  unfold body, classify.
  destruct (Py.startswith "ITEM: TIMESTEP" _).
  { destruct f as [|v f1]; [reflexivity|]. cbn.
    destruct (int_of_string v); reflexivity. }
  destruct (Py.startswith "ITEM: BOX BOUNDS" _).
  { unfold_monad. destruct (read_bounds 3 f) as [|[bb f1]]; reflexivity. }
  destruct (Py.startswith "ITEM:" _).
  { destruct (negb _); [reflexivity|]. destruct f; reflexivity. }
  destruct (current_timestep st); reflexivity.
Qed.

Lemma classify_marker (raw : string) :
  classify raw <> KData -> is_marker raw = true.
Proof.
  unfold classify, is_marker, Py.startswith.
  destruct (String.prefix "ITEM: TIMESTEP" _) eqn:E1.
  { intros _. apply prefix_inv in E1 as [r ->]. reflexivity. }
  destruct (String.prefix "ITEM: BOX BOUNDS" _) eqn:E2.
  { intros _. apply prefix_inv in E2 as [r ->]. reflexivity. }
  destruct (String.prefix "ITEM:" _); [reflexivity|congruence].
Qed.

Lemma read_bounds_suffix (n : nat) (f f' : list string) bb :
  read_bounds n f = inr (bb, f') -> f' `suffix_of` f.
Proof.
  revert f f' bb. induction n as [|n IH]; intros f f' bb H; simpl in H.
  - injection H as _ <-. reflexivity.
  - destruct f as [|l f1]; [discriminate|]. cbn in H. unfold_monad.
    destruct (floats (Py.split l)); [discriminate|].
    destruct (read_bounds n f1) as [|[rest f2]] eqn:E; [discriminate|].
    injection H as _ <-. apply suffix_cons_r. eauto.
Qed.

Lemma body_suffix (st st' : State) (raw : string) (f f' : list string) :
  body st raw f = inr (st', f') -> f' `suffix_of` f.
Proof.
  rewrite body_classify. intros H. destruct (classify raw).
  - destruct f as [|v f1]; [discriminate|].
    destruct (int_of_string v); [|discriminate].
    injection H as _ <-. apply suffix_cons_r. reflexivity.
  - destruct (read_bounds 3 f) as [|[bb f1]] eqn:E; [discriminate|].
    injection H as _ <-. eapply read_bounds_suffix, E.
  - destruct f as [|v f1]; [discriminate|].
    injection H as _ <-. apply suffix_cons_r. reflexivity.
  - injection H as _ <-. reflexivity.
  - destruct (current_timestep st).
    + destruct (except_ValueError _ _); [discriminate|].
      injection H as _ <-. reflexivity.
    + injection H as _ <-. reflexivity.
Qed.

(** ** Order of the timesteps *)

Lemma declared_cons (m : string) (f : list string) :
  declared_timesteps f `sublist_of` declared_timesteps (m :: f).
Proof.
  simpl. destruct (classify m); try reflexivity.
  destruct f as [|v f]; [reflexivity|].
  destruct (int_of_string v); [apply sublist_cons|]; reflexivity.
Qed.

Lemma declared_suffix (f' f : list string) :
  f' `suffix_of` f -> declared_timesteps f' `sublist_of` declared_timesteps f.
Proof.
  intros [k ->]. induction k as [|m k IH]; [reflexivity|].
  etrans; [exact IH|]. apply declared_cons.
Qed.

Lemma flush_timesteps (st : State) :
  exists tl, map timestep (flush st) = map timestep (data st) ++ tl
             /\ tl `sublist_of` pending st.
Proof.
  unfold flush, pending. destruct (current_timestep st) as [t|].
  - destruct (truthy (current_data st)).
    + exists [t]. rewrite map_app. split; reflexivity.
    + exists []. rewrite app_nil_r. split; [reflexivity|apply sublist_nil_l].
  - exists []. rewrite app_nil_r. split; reflexivity.
Qed.

Tactic Notation "try_case" constr(m) "as" ident(v) :=
  destruct m as [[]|v];
  try (intros; discriminate); try (intros [= <-]; auto; fail).

Lemma parse_data_line_data (st st' : State) (line : string) :
  except_ValueError st (parse_data_line st line) = inr st' ->
  data st' = data st /\ current_timestep st' = current_timestep st /\
  cur_box_bounds st' = cur_box_bounds st /\ cols st' = cols st.
Proof.
  unfold except_ValueError, parse_data_line. unfold_monad.
  try_case (floats (Py.split line)) as values.
  destruct (4 <=? length _)%nat; [|intros [= <-]; auto].
  destruct (cols st) as [c|] eqn:Ec; [|discriminate].
  try_case (Py.getitem values (id_idx c)) as v.
  try_case (int_of_float v) as i.
  try_case (Py.getitem values (x_idx c)) as x.
  try_case (Py.getitem values (y_idx c)) as y.
  try_case (Py.getitem values (z_idx c)) as z.
Qed.

(** One iteration: what it appends to [data], and what remains to come. *)
Lemma body_timesteps (st st' : State) (raw : string) (f f' : list string) :
  body st raw f = inr (st', f') ->
  exists tl, map timestep (data st') = map timestep (data st) ++ tl /\
    tl ++ pending st' ++ declared_timesteps f'
      `sublist_of` pending st ++ declared_timesteps (raw :: f).
Proof.
  intros H. pose proof (body_suffix _ _ _ _ _ H) as Hs.
  rewrite body_classify in H. destruct (classify raw) eqn:K.
  - destruct f as [|v f1]; [discriminate|].
    destruct (int_of_string v) as [t|] eqn:Ev; [|discriminate].
    injection H as <- <-.
    destruct (flush_timesteps st) as (tl & E & Hsub).
    exists tl. split; [exact E|]. simpl declared_timesteps. rewrite K, Ev.
    apply sublist_app; [exact Hsub|]. apply sublist_skip.
    simpl. destruct (classify v) eqn:Kv; try reflexivity.
    assert (is_marker v = true) as Hm by (apply classify_marker; congruence).
    apply marker_int in Hm. congruence.
  - destruct (read_bounds 3 f) as [|[bb f1]]; [discriminate|].
    injection H as <- <-. exists []. rewrite app_nil_r, app_nil_l. split; [reflexivity|].
    apply sublist_app; [reflexivity|].
    etrans; [apply declared_suffix, Hs|apply declared_cons].
  - destruct f as [|h f1]; [discriminate|].
    injection H as <- <-. exists []. rewrite app_nil_r, app_nil_l. split; [reflexivity|].
    apply sublist_app; [reflexivity|].
    etrans; [apply declared_suffix, Hs|apply declared_cons].
  - injection H as <- <-. exists []. rewrite app_nil_r, app_nil_l. split; [reflexivity|].
    apply sublist_app; [reflexivity|]. apply declared_cons.
  - destruct (current_timestep st) as [t|] eqn:Et.
    + destruct (except_ValueError _ _) as [|st1] eqn:E; [discriminate|].
      injection H as <- <-. apply parse_data_line_data in E as (Ed & Ec & _).
      exists []. rewrite app_nil_r, app_nil_l. split; [rewrite Ed; reflexivity|].
      unfold pending. rewrite Ec, Et.
      apply sublist_app; [reflexivity|]. apply declared_cons.
    + injection H as <- <-. exists []. rewrite app_nil_r, app_nil_l. split; [reflexivity|].
      apply sublist_app; [reflexivity|]. apply declared_cons.
Qed.

Lemma for_lines_timesteps (n : nat) (st st' : State) (f : list string) :
  for_lines n st f = inr st' ->
  exists tl, map timestep (flush st') = map timestep (data st) ++ tl /\
    tl `sublist_of` pending st ++ declared_timesteps f.
Proof.
  revert st f. induction n as [|n IH]; intros st f H.
  - assert (st' = st) as -> by (destruct f; simpl in H; unfold_monad; congruence).
    destruct (flush_timesteps st) as (tl & E & Hsub).
    exists tl. split; [exact E|]. apply sublist_inserts_r, Hsub.
  - destruct f as [|raw f].
    + simpl in H. unfold_monad. injection H as <-.
      destruct (flush_timesteps st) as (tl & E & Hsub).
      exists tl. split; [exact E|]. apply sublist_inserts_r, Hsub.
    + simpl in H. unfold_monad.
      destruct (body st raw f) as [|[st1 f1]] eqn:Eb; [discriminate|].
      destruct (body_timesteps _ _ _ _ _ Eb) as (tl0 & E0 & H0).
      destruct (IH _ _ H) as (tl1 & E1 & H1).
      exists (tl0 ++ tl1). split.
      * rewrite E1, E0, app_assoc. reflexivity.
      * etrans; [|exact H0]. apply sublist_app; [reflexivity|exact H1].
Qed.

(** The timesteps of the snapshots returned by [read_dump_voro] are a
    subsequence of the timesteps declared in the file, in file order
    (the reader neither sorts nor removes duplicates, as on
    [unsorted]). *)
Lemma returned_timesteps_in_file_order (f : list string) (d : list Snapshot) :
  read_dump_voro f = inr d ->
  map timestep d `sublist_of` declared_timesteps f.
Proof.
  unfold read_dump_voro. unfold_monad.
  destruct (for_lines (length f) init_state f) as [|st] eqn:E; [discriminate|].
  intros [= <-]. destruct (for_lines_timesteps _ _ _ _ E) as (tl & Et & Hs).
  rewrite Et. exact Hs.
Qed.

Example unsorted_timesteps_kept :
  read_dump_voro unsorted = inr unsorted_result /\
  map timestep unsorted_result = [5; 3; 5] /\
  map timestep unsorted_result `sublist_of` declared_timesteps unsorted.
Proof.
  split; [vm_compute; reflexivity|]. split; [reflexivity|].
  apply (returned_timesteps_in_file_order unsorted unsorted_result).
  vm_compute. reflexivity.
Qed.

(** ** Written text *)

Section TextFacts.

Local Open Scope string_scope.

Lemma all_chars_app (P : ascii -> bool) (a b : string) :
  all_chars P (a ++ b) = all_chars P a && all_chars P b.
Proof.
  induction a as [|c a IH]; simpl; [reflexivity|].
  rewrite IH. apply andb_assoc.
Qed.

Lemma all_chars_impl (P Q : ascii -> bool) (s : string) :
  (forall c, P c = true -> Q c = true) ->
  all_chars P s = true -> all_chars Q s = true.
Proof.
  intros HPQ. induction s as [|c s IH]; simpl; [reflexivity|].
  intros [Hc Hs]%andb_prop. rewrite (HPQ _ Hc), (IH Hs). reflexivity.
Qed.

Lemma digit_plain (c : ascii) : Py.is_digit c = true -> plain c = true.
Proof. unfold plain. intros ->. reflexivity. Qed.

Lemma plain_not_space (c : ascii) : plain c = true -> not_space c = true.
Proof.
  destruct c as [[] [] [] [] [] [] [] []]; vm_compute; congruence.
Qed.

Lemma plain_not_LF (c : ascii) : plain c = true -> not_LF c = true.
Proof.
  destruct c as [[] [] [] [] [] [] [] []]; vm_compute; congruence.
Qed.

Lemma digit_char_digit (d : Z) : Py.is_digit (digit_char d) = true.
Proof.
  destruct d as [|p|p]; try reflexivity.
  do 4 (destruct p as [p|p|]; try reflexivity).
Qed.

Lemma fixed_digits_length (k : nat) (n : Z) :
  String.length (fixed_digits k n) = k.
Proof.
  revert n. induction k as [|k IH]; intros n; simpl; [reflexivity|].
  rewrite length_append, IH. simpl. lia.
Qed.

Lemma fixed_digits_digits (k : nat) (n : Z) :
  all_chars Py.is_digit (fixed_digits k n) = true.
Proof.
  revert n. induction k as [|k IH]; intros n; simpl; [reflexivity|].
  rewrite all_chars_app, IH. simpl. rewrite digit_char_digit. reflexivity.
Qed.

Lemma uint_digits (d : Decimal.uint) :
  all_chars Py.is_digit (NilEmpty.string_of_uint d) = true.
Proof. induction d; simpl; auto. Qed.

Lemma nat_digits_digits (n : Z) : all_chars Py.is_digit (nat_digits n) = true.
Proof.
  unfold nat_digits, NilZero.string_of_uint.
  destruct (N.to_uint (Z.to_N n)); try reflexivity; apply (uint_digits (_ u)).
Qed.

Lemma nat_digits_cons (n : Z) : exists c s, nat_digits n = String c s.
Proof.
  unfold nat_digits, NilZero.string_of_uint.
  destruct (N.to_uint (Z.to_N n)); simpl; eauto.
Qed.

Lemma str_of_int_plain (n : Z) : all_chars plain (str_of_int n) = true.
Proof.
  unfold str_of_int. destruct (n <? 0)%Z; simpl;
    apply (all_chars_impl _ _ _ digit_plain), nat_digits_digits.
Qed.

Lemma format_6f_plain (x : pyfloat) : all_chars plain (format_6f x) = true.
Proof.
  destruct x as [neg mag|[]|]; try reflexivity. unfold format_6f.
  rewrite !all_chars_app.
  rewrite (all_chars_impl _ _ _ digit_plain (nat_digits_digits _)).
  rewrite (all_chars_impl _ _ _ digit_plain (fixed_digits_digits _ _)).
  destruct neg; reflexivity.
Qed.

(** A token followed by a blank is the first word of the text. *)
Lemma split_token (t rest : string) (c d : ascii) :
  all_chars not_space (String d t) = true -> Py.is_space c = true ->
  Py.split (String d t ++ String c rest) = String d t :: Py.split (String c rest).
Proof.
  revert d. induction t as [|b t IH]; intros d Ht Hc.
  - simpl in Ht. rewrite andb_true_r in Ht. unfold not_space in Ht.
    apply negb_true_iff in Ht. simpl. rewrite Ht, Hc. reflexivity.
  - simpl in Ht. apply andb_prop in Ht as [Hd Ht]. 
    specialize (IH b Ht Hc).
    unfold not_space in Hd. apply negb_true_iff in Hd.
    apply andb_prop in Ht as [Hb _]. unfold not_space in Hb.
    apply negb_true_iff in Hb.
    change (String d (String b t) ++ String c rest)
      with (String d (String b t ++ String c rest)).
    change (Py.split (String d (String b t ++ String c rest))) with
      (if Py.is_space d then Py.split (String b t ++ String c rest)
       else if Py.is_space b
            then String d "" :: Py.split (String b t ++ String c rest)
            else match Py.split (String b t ++ String c rest) with
                 | t :: ts => String d t :: ts
                 | [] => [String d ""]
                 end).
    rewrite Hd, Hb, IH. reflexivity.
Qed.

(** A newline-terminated chunk without inner newline is one line. *)
Lemma readlines_ln (s rest : string) :
  all_chars not_LF s = true ->
  readlines (ln s ++ rest) = ln s :: readlines rest.
Proof.
  unfold ln. induction s as [|c s IH]; intros Hs.
  - reflexivity.
  - simpl in Hs. apply andb_prop in Hs as [Hc Hs].
    unfold not_LF in Hc. apply negb_true_iff in Hc.
    simpl. rewrite Hc. simpl in IH. rewrite (IH Hs). reflexivity.
Qed.

Lemma readlines_file_text (ws : list string) :
  Forall is_line ws -> readlines (file_text ws) = ws.
Proof.
  induction 1 as [|w ws (s & -> & Hs) _ IH]; [reflexivity|].
  simpl. rewrite readlines_ln by exact Hs. rewrite IH. reflexivity.
Qed.

End TextFacts.

(** ** Box bounds across snapshots *)

Lemma no_bounds_marker_suffix (f' f : list string) :
  f' `suffix_of` f -> no_bounds_marker f = true -> no_bounds_marker f' = true.
Proof.
  intros [k ->]. unfold no_bounds_marker. rewrite forallb_app.
  intros [_ H]%andb_prop. exact H.
Qed.

Lemma flush_bounds (st : State) :
  exists new, flush st = data st ++ new /\
    Forall (fun s => box_bounds s = cur_box_bounds st) new.
Proof.
  unfold flush. destruct (current_timestep st) as [t|].
  - destruct (truthy (current_data st)).
    + eexists. split; [reflexivity|]. repeat constructor.
    + exists []. rewrite app_nil_r. split; [reflexivity|constructor].
  - exists []. rewrite app_nil_r. split; [reflexivity|constructor].
Qed.

(** An iteration that is not the BOX BOUNDS branch keeps the bounds;
    what it appends to [data] carries them. *)
Lemma body_bounds (st st' : State) (raw : string) (f f' : list string) :
  is_bounds_marker raw = false ->
  body st raw f = inr (st', f') ->
  cur_box_bounds st' = cur_box_bounds st /\
  exists new, data st' = data st ++ new /\
    Forall (fun s => box_bounds s = cur_box_bounds st) new.
Proof.
  unfold is_bounds_marker. rewrite body_classify. intros K H.
  assert (forall s : State, exists new, data s = data s ++ new /\
            Forall (fun x => box_bounds x = cur_box_bounds s) new) as Hnil.
  { intros s. exists []. rewrite app_nil_r. split; [reflexivity|constructor]. }
  destruct (classify raw); try discriminate K.
  - destruct f as [|v f1]; [discriminate|].
    destruct (int_of_string v); [|discriminate].
    injection H as <- <-. split; [reflexivity|]. apply flush_bounds.
  - destruct f as [|h f1]; [discriminate|].
    injection H as <- <-. split; [reflexivity|]. apply (Hnil st).
  - injection H as <- <-. split; [reflexivity|]. apply (Hnil st).
  - destruct (current_timestep st).
    + destruct (except_ValueError _ _) as [|st1] eqn:E; [discriminate|].
      injection H as <- <-.
      apply parse_data_line_data in E as (Ed & _ & Eb & _).
      split; [exact Eb|]. rewrite Ed. apply (Hnil st).
    + injection H as <- <-. split; [reflexivity|]. apply (Hnil st).
Qed.

Lemma for_lines_bounds (n : nat) (st st' : State) (sec : list string) :
  no_bounds_marker sec = true ->
  for_lines n st sec = inr st' ->
  cur_box_bounds st' = cur_box_bounds st /\
  exists new, flush st' = data st ++ new /\
    Forall (fun s => box_bounds s = cur_box_bounds st) new.
Proof.
  revert st sec. induction n as [|n IH]; intros st sec Hsec H.
  - assert (st' = st) as ->
      by (destruct sec; simpl in H; unfold_monad; congruence).
    split; [reflexivity|apply flush_bounds].
  - destruct sec as [|raw f].
    + simpl in H. unfold_monad. injection H as <-.
      split; [reflexivity|apply flush_bounds].
    + simpl in H. unfold_monad.
      destruct (body st raw f) as [|[st1 f1]] eqn:Eb; [discriminate|].
      simpl in Hsec. apply andb_prop in Hsec as [Hraw Hf].
      apply negb_true_iff in Hraw.
      destruct (body_bounds _ _ _ _ _ Hraw Eb) as (E1 & new1 & Ed1 & Hn1).
      apply body_suffix in Eb.
      destruct (IH _ _ (no_bounds_marker_suffix _ _ Eb Hf) H)
        as (E2 & new2 & Ed2 & Hn2).
      split; [congruence|]. exists (new1 ++ new2). split.
      * rewrite Ed2, Ed1, app_assoc. reflexivity.
      * apply Forall_app. split; [exact Hn1|]. rewrite <- E1. exact Hn2.
Qed.

(** A line written from parsed bounds is never the default line. *)
Lemma bounds_line_not_default (b : list pyfloat) (l : string) :
  bounds_line b = inr l -> l <> ln "0.0 100.0".
Proof.
  unfold bounds_line, Py.getitem. unfold_monad.
  destruct (b !! 0%nat) as [lo|]; [|discriminate].
  destruct (b !! 1%nat) as [hi|]; [|discriminate].
  intros [= <-] E. unfold ln in E. rewrite !append_assoc in E.
  destruct lo as [[] mag|[]|]; try discriminate E.
  unfold format_6f in E at 1. rewrite !append_assoc in E.
  destruct (nat_digits_cons
              (round_half_even (mag * inject_Z 1000000) / 1000000))
    as (c & s & Ec).
  pose proof (nat_digits_digits
                (round_half_even (mag * inject_Z 1000000) / 1000000)) as Hd.
  rewrite Ec in E, Hd. simpl in Hd. apply andb_prop in Hd as [_ Hs].
  pose proof (fixed_digits_length 6
                (round_half_even (mag * inject_Z 1000000) mod 1000000)) as Hl.
  pose proof (fixed_digits_digits 6
                (round_half_even (mag * inject_Z 1000000) mod 1000000)) as Hf.
  destruct (fixed_digits 6 _) as [|d1 [|d2 fd]]; try discriminate Hl.
  simpl in Hf. apply andb_prop in Hf as [_ [Hd2 _]%andb_prop].
  generalize dependent (format_6f hi). intros tl E.
  simpl in E. injection E as _ E.
  destruct s as [|c2 s]; simpl in E.
  - injection E as _ E2 _. subst d2. discriminate Hd2.
  - injection E as E2 _. simpl in Hs.
    apply andb_prop in Hs as [Hc2 _]. subst c2. discriminate Hc2.
Qed.

(** The writer takes the default cube exactly for [None] and [[]]. *)
Lemma write_bounds_default (bb : option (list (list pyfloat))) :
  write_bounds bb = inr default_bounds <-> bb = None \/ bb = Some [].
Proof.
  split.
  - destruct bb as [[|b bs]|]; auto. simpl. unfold_monad.
    destruct (bounds_line b) as [|l] eqn:E; [discriminate|].
    destruct (write_each bounds_line bs); [discriminate|].
    intros [= -> _]. apply bounds_line_not_default in E.
    exfalso. apply E. reflexivity.
  - intros [->| ->]; reflexivity.
Qed.

(** Over any stretch of lines without BOX BOUNDS marker, TIMESTEP
    markers included, the reader keeps its [box_bounds]: every snapshot
    it appends, and the one it would append at the end of the input,
    carries the bounds held before the stretch ([None] if there were
    none). *)
Lemma bounds_kept_without_marker (n : nat) (st st' : State) (sec : list string) :
  no_bounds_marker sec = true ->
  for_lines n st sec = inr st' ->
  cur_box_bounds st' = cur_box_bounds st /\
  (exists new, flush st' = data st ++ new /\
     Forall (fun s => box_bounds s = cur_box_bounds st) new).
Proof.
  intros Hsec H. exact (for_lines_bounds _ _ _ _ Hsec H).
Qed.

(** ** Truncated box bounds *)

Lemma floats_error (toks : list string) (e : exn) :
  floats toks = inl e -> e = ValueError.
Proof.
  induction toks as [|t toks IH]; simpl; [discriminate|].
  destruct (float_of_string t); [|intros [= <-]; reflexivity].
  unfold_monad. destruct (floats toks); [|discriminate].
  intros [= <-]. apply IH. reflexivity.
Qed.

Lemma floats_length (toks : list string) (vs : list pyfloat) :
  floats toks = inr vs -> length vs = length toks.
Proof.
  revert vs. induction toks as [|t toks IH]; intros vs; simpl.
  - intros [= <-]. reflexivity.
  - destruct (float_of_string t); [|discriminate]. unfold_monad.
    destruct (floats toks) as [|ws]; [discriminate|].
    intros [= <-]. simpl. f_equal. apply IH. reflexivity.
Qed.

Lemma read_bounds_truncated (k : nat) (f : list string) :
  truncated k f = true ->
  read_bounds k f = inl ValueError \/ read_bounds k f = inl StopIteration.
Proof.
  unfold truncated. revert f. induction k as [|k IH]; intros f H.
  - rewrite take_0 in H. simpl in H. discriminate.
  - destruct f as [|l f]; [right; reflexivity|].
    simpl. unfold_monad.
    destruct (floats (Py.split l)) as [e|b] eqn:E.
    { left. apply floats_error in E. subst e. reflexivity. }
    assert (is_marker l = false) as Hl.
    { destruct (is_marker l) eqn:Hm; [|reflexivity].
      apply marker_floats in Hm. congruence. }
    simpl in H. rewrite Hl in H. simpl in H.
    destruct (IH f H) as [-> | ->]; auto.
Qed.

(** C4 (the claim fails on the code): two bound lines and a blank line
    before the next marker; the reader does not fail, and returns a
    snapshot whose box has an empty third axis. *)
Lemma blank_bound_line_accepted :
  read_dump_voro two_bounds_then_blank =
  inr [ {| timestep := 0;
           positions := [[F "1"; F "2.0"; F "2.0"]];
           box_bounds := Some [[F "0.0"; F "10.0"]; [F "0.0"; F "10.0"]; []];
           atom_ids := [2] |} ].
Proof. vm_compute. reflexivity. Qed.

(** ** Lines that are skipped *)

(** A data line with fewer than four tokens leaves everything as it is. *)
Lemma short_line_skipped (st : State) (raw : string) (f : list string) :
  classify raw = KData ->
  (length (Py.split (Py.strip raw)) < 4)%nat ->
  body st raw f = inr (st, f).
Proof.
  intros K Hlen. rewrite body_classify, K.
  destruct (current_timestep st); [|reflexivity].
  unfold parse_data_line. unfold_monad.
  destruct (floats (Py.split (Py.strip raw))) as [e|vs] eqn:E.
  - apply floats_error in E. subst e. reflexivity.
  - apply floats_length in E.
    destruct (4 <=? length vs)%nat eqn:E4; [|reflexivity].
    apply Nat.leb_le in E4. lia.
Qed.

(** A data line with a token that is not a float leaves everything as
    it is. *)
Lemma non_numeric_line_skipped (st : State) (raw : string) (f : list string) :
  classify raw = KData ->
  floats (Py.split (Py.strip raw)) = inl ValueError ->
  body st raw f = inr (st, f).
Proof.
  intros K E. rewrite body_classify, K.
  destruct (current_timestep st); [|reflexivity].
  unfold parse_data_line. unfold_monad. rewrite E. reflexivity.
Qed.

(** The ATOMS branch: the column names come from the next line [h],
    whatever the marker line itself lists. *)
Lemma atoms_marker_reads_next (st : State) (raw h : string) (f : list string) :
  classify raw = KAtoms ->
  body st raw (h :: f) =
  inr (with_columns st (resolve_columns (Py.split (Py.strip h))), f).
Proof. intros K. rewrite body_classify, K. reflexivity. Qed.

(** ** The declared number of atoms *)

Lemma count_marker_other (m : string) :
  is_count_marker m = true -> classify m = KOther.
Proof.
  unfold is_count_marker, classify, Py.startswith. intros H.
  apply prefix_inv in H as [r ->]. reflexivity.
Qed.

Lemma digit_not_space (c : ascii) : Py.is_digit c = true -> not_space c = true.
Proof. intros H. apply plain_not_space, digit_plain, H. Qed.

Lemma split_single (s : string) (d : ascii) :
  all_chars not_space (String d s) = true -> Py.split (String d s) = [String d s].
Proof.
  revert d. induction s as [|b s IH]; intros d H.
  - simpl in H. rewrite andb_true_r in H. unfold not_space in H.
    apply negb_true_iff in H. simpl. rewrite H. reflexivity.
  - simpl in H. apply andb_prop in H as [Hd Hs].
    pose proof (IH b Hs) as E.
    unfold not_space in Hd. apply negb_true_iff in Hd.
    apply andb_prop in Hs as [Hb _].
    unfold not_space in Hb. apply negb_true_iff in Hb.
    change (Py.split (String d (String b s))) with
      (if Py.is_space d then Py.split (String b s)
       else if Py.is_space b then String d "" :: Py.split (String b s)
       else match Py.split (String b s) with
            | t :: ts => String d t :: ts
            | [] => [String d ""]
            end).
    rewrite Hd, Hb, E. reflexivity.
Qed.

Lemma prefix_digit (p s : string) (d : ascii) :
  Py.is_digit d = true -> String.prefix (String "I" p) (String d s) = false.
Proof.
  intros H. cbn [String.prefix].
  destruct (ascii_dec "I" d) as [<-|]; [discriminate H|reflexivity].
Qed.

Lemma count_line_data (c : string) :
  is_count_line c = true ->
  classify c = KData /\ length (Py.split (Py.strip c)) = 1%nat.
Proof.
  unfold is_count_line, classify, Py.startswith.
  destruct (Py.strip c) as [|d s]; [discriminate|]. intros H.
  rewrite split_single
    by (exact (all_chars_impl _ _ _ digit_not_space H)).
  split; [|reflexivity].
  simpl in H. apply andb_prop in H as [Hd _].
  rewrite !prefix_digit by exact Hd. reflexivity.
Qed.

(** A count line in the position of a data line changes nothing. *)
Lemma count_line_skipped (st : State) (c : string) (f : list string) :
  is_count_line c = true -> body st c f = inr (st, f).
Proof.
  intros [K L]%count_line_data. apply short_line_skipped; [exact K|].
  rewrite L. lia.
Qed.

Section DeclaredCount.

Variables (m c1 c2 : string) (post : list string).
Hypothesis marker : is_count_marker m = true.
Hypothesis count1 : is_count_line c1 = true.
Hypothesis count2 : is_count_line c2 = true.

Lemma marker_is_marker : is_marker m = true.
Proof.
  apply classify_marker. rewrite (count_marker_other _ marker). discriminate.
Qed.

(** [read_bounds] over lines that end with the count marker: the same
    outcome whatever follows the marker. *)
Lemma read_bounds_indep (k : nat) (pre x y : list string) :
  (exists e, read_bounds k (pre ++ m :: x) = inl e /\
             read_bounds k (pre ++ m :: y) = inl e) \/
  (exists bb pre', read_bounds k (pre ++ m :: x) = inr (bb, pre' ++ m :: x) /\
                   read_bounds k (pre ++ m :: y) = inr (bb, pre' ++ m :: y)).
Proof.
  revert pre. induction k as [|k IH]; intros pre.
  - right. exists [], pre. split; reflexivity.
  - destruct pre as [|l pre]; simpl; unfold_monad.
    + left. rewrite (marker_floats _ marker_is_marker). eauto.
    + destruct (floats (Py.split l)) as [e|b]; [left; eauto|].
      destruct (IH pre) as [(e & -> & ->)|(bb & pre' & -> & ->)].
      * left. eauto.
      * right. exists (b :: bb), pre'. split; reflexivity.
Qed.

(** One iteration in front of the count marker. *)
Lemma body_indep (st : State) (raw : string) (pre : list string) :
  (exists e, body st raw (pre ++ m :: c1 :: post) = inl e /\
             body st raw (pre ++ m :: c2 :: post) = inl e) \/
  (exists st1 pre',
      body st raw (pre ++ m :: c1 :: post) = inr (st1, pre' ++ m :: c1 :: post) /\
      body st raw (pre ++ m :: c2 :: post) = inr (st1, pre' ++ m :: c2 :: post)) \/
  (exists st1,
      body st raw (pre ++ m :: c1 :: post) = inr (st1, c1 :: post) /\
      body st raw (pre ++ m :: c2 :: post) = inr (st1, c2 :: post)).
Proof.
  rewrite !body_classify. destruct (classify raw).
  - destruct pre as [|v pre]; simpl.
    + left. rewrite (marker_int _ marker_is_marker). eauto.
    + destruct (int_of_string v); [|left; eauto].
      right. left. eauto.
  - destruct (read_bounds_indep 3 pre (c1 :: post) (c2 :: post))
      as [(e & -> & ->)|(bb & pre' & -> & ->)].
    + left. eauto.
    + right. left. eauto.
  - destruct pre as [|h pre]; simpl.
    + right. right. eauto.
    + right. left. eauto.
  - right. left. eauto.
  - destruct (current_timestep st).
    + destruct (except_ValueError _ _); [left; eauto|right; left; eauto].
    + right. left. eauto.
Qed.

Lemma for_lines_count (n : nat) (st : State) :
  for_lines n st (c1 :: post) = for_lines n st (c2 :: post).
Proof.
  destruct n as [|n]; [reflexivity|]. simpl.
  rewrite !count_line_skipped by assumption. reflexivity.
Qed.

Lemma for_lines_indep (n : nat) (st : State) (pre : list string) :
  for_lines n st (pre ++ m :: c1 :: post) =
  for_lines n st (pre ++ m :: c2 :: post).
Proof.
  revert st pre. induction n as [|n IH]; intros st pre.
  - destruct pre; reflexivity.
  - destruct pre as [|raw pre].
    + simpl. rewrite !body_classify, (count_marker_other _ marker).
      unfold_monad. apply for_lines_count.
    + simpl.
      destruct (body_indep st raw pre)
        as [(e & -> & ->)|[(st1 & pre' & -> & ->)|(st1 & -> & ->)]];
        unfold_monad.
      * reflexivity.
      * apply IH.
      * apply for_lines_count.
Qed.

End DeclaredCount.

(** *** The same in [read_lammps_dump] *)

Module DislocationsFacts.
Import Dislocations DislocationsSpec.

Lemma parse_atom_line_fields (st : State) (line : string) :
  parse_atom_line st line =
  match fields line with
  | inl e => inl e
  | inr None => inr st
  | inr (Some a) => inr (add_atom st a)
  end.
Proof.
  unfold parse_atom_line, fields. unfold_monad.
  destruct (11 <=? _)%nat; [|reflexivity].
  repeat match goal with
         | |- context [match ?x with inl _ => _ | inr _ => _ end] =>
             lazymatch x with
             | context [match _ with inl _ => _ | inr _ => _ end] => fail
             | _ => destruct x; try reflexivity
             end
         end.
Qed.

Lemma getitem_error {A} (l : list A) (i : nat) (e : exn) :
  Py.getitem l i = inl e -> e = IndexError.
Proof. unfold Py.getitem. destruct (l !! i); [discriminate|]. intros [= <-]. reflexivity. Qed.

(** The conversions raise nothing but [ValueError] and [IndexError]. *)
Lemma fields_error (line : string) (e : exn) :
  fields line = inl e -> e = ValueError \/ e = IndexError.
Proof.
  unfold fields, str_to_int, str_to_float. unfold_monad.
  destruct (11 <=? _)%nat; [|discriminate].
  repeat match goal with
         | |- context [Py.getitem ?l ?i] =>
             let E := fresh "E" in
             destruct (Py.getitem l i) eqn:E;
             [apply getitem_error in E; intros [= <-]; auto|]
         | |- context [int_of_string ?s] =>
             destruct (int_of_string s); [|intros [= <-]; auto]
         | |- context [float_of_string ?s] =>
             destruct (float_of_string s); [|intros [= <-]; auto]
         | |- context [floats ?t] =>
             let E := fresh "E" in
             destruct (floats t) eqn:E;
             [apply floats_error in E; intros [= <-]; auto|]
         end.
  discriminate.
Qed.

(** An atom line while the declared count is not reached: no exception,
    the section stays open, and the state is the one obtained with no
    declared count. *)
Lemma atom_line_below_count (tt : option (list Z)) (st : State)
    (line : string) (f : list string) (e : Z) :
  is_marker_line line = false ->
  reading_atoms st = true ->
  atoms_expected st = Some e ->
  (Z.of_nat (S (atoms_read st)) < e)%Z ->
  exists st',
    body tt st line f = inr (st', f) /\
    body tt (unbounded st) line f = inr (unbounded st', f) /\
    reading_atoms st' = true /\ atoms_expected st' = Some e /\
    (atoms_read st' <= S (atoms_read st))%nat.
Proof.
  unfold is_marker_line. intros Hm Hr He Hlt.
  apply orb_false_elim in Hm as [Hm H4].
  apply orb_false_elim in Hm as [Hm H3].
  apply orb_false_elim in Hm as [H1 H2].
  unfold body. rewrite H1, H2, H3, H4. simpl reading_atoms. rewrite Hr.
  rewrite !parse_atom_line_fields.
  destruct (fields line) as [x|[a|]] eqn:E.
  - apply fields_error in E as [-> | ->]; exists st; simpl;
      repeat split; try reflexivity; try assumption; lia.
  - assert ((e <=? Z.of_nat (S (atoms_read st)))%Z = false) as Hle
      by (apply Z.leb_gt; lia).
    exists (add_atom st a). unfold_monad.
    assert (add_atom (unbounded st) a = unbounded (add_atom st a)) as ->.
    { unfold add_atom, unbounded. simpl. rewrite He, Hle. reflexivity. }
    repeat split; try reflexivity; simpl; try lia; [|exact He].
    rewrite He, Hle. exact Hr.
  - exists st. simpl. repeat split; try reflexivity; try assumption; lia.
Qed.

(** A stretch of atom lines shorter than what the declared count
    leaves room for. *)
Lemma rows_below_count (tt : option (list Z)) (rows : list string)
    (st : State) (e : Z) :
  no_marker_line rows = true ->
  reading_atoms st = true ->
  atoms_expected st = Some e ->
  (Z.of_nat (atoms_read st + length rows) < e)%Z ->
  exists st',
    for_lines tt (length rows) st rows = inr st' /\
    for_lines tt (length rows) (unbounded st) rows = inr (unbounded st') /\
    reading_atoms st' = true /\ atoms_expected st' = Some e.
Proof.
  revert st. induction rows as [|line rows IH]; intros st Hm Hr He Hlt.
  - exists st. simpl. auto.
  - simpl in Hm. apply andb_prop in Hm as [Hl Hm].
    apply negb_true_iff in Hl. simpl length in *.
    destruct (atom_line_below_count tt st line rows e Hl Hr He)
      as (st1 & E1 & E2 & Hr1 & He1 & Hn1); [lia|].
    destruct (IH st1 Hm Hr1 He1) as (st' & E1' & E2' & Hr' & He'); [lia|].
    exists st'. simpl. rewrite E1, E2. unfold_monad. auto.
Qed.

(** In [read_lammps_dump] a box that is returned has a lower and an
    upper bound on each axis: a line with fewer than two tokens raises
    [IndexError]. *)
Lemma read_bounds_pairs (k : nat) (f f' : list string) bb :
  read_bounds k f = inr (bb, f') ->
  length bb = k /\ Forall (fun b => length b = 2%nat) bb.
Proof.
  revert f f' bb. induction k as [|k IH]; intros f f' bb; simpl; unfold_monad.
  - intros [= <- _]. split; [reflexivity|constructor].
  - destruct f as [|l f1]; [discriminate|]. simpl.
    destruct (Py.getitem (Py.split l) 0) as [|b0]; [discriminate|].
    destruct (str_to_float b0) as [|lo]; [discriminate|].
    destruct (Py.getitem (Py.split l) 1) as [|b1]; [discriminate|].
    destruct (str_to_float b1) as [|hi]; [discriminate|].
    destruct (read_bounds k f1) as [|[rest f2]] eqn:E; [discriminate|].
    intros [= <- _]. destruct (IH _ _ _ E) as [El Hf].
    split; [simpl; congruence|]. constructor; [reflexivity|exact Hf].
Qed.

End DislocationsFacts.

(** *** [read_lammps_dump] on a dump made of blocks *)

Module DislocationsBlocks.
Import Dislocations DislocationsSpec.

Lemma read_bounds_suffix_length (k : nat) (f f' : list string) bb :
  read_bounds k f = inr (bb, f') -> (length f' <= length f)%nat.
Proof.
  revert f f' bb. induction k as [|k IH]; intros f f' bb; simpl; unfold_monad.
  - intros [= _ <-]. lia.
  - destruct f as [|l f1]; [discriminate|]. simpl.
    destruct (Py.getitem (Py.split l) 0) as [|b0]; [discriminate|].
    destruct (str_to_float b0) as [|lo]; [discriminate|].
    destruct (Py.getitem (Py.split l) 1) as [|b1]; [discriminate|].
    destruct (str_to_float b1) as [|hi]; [discriminate|].
    destruct (read_bounds k f1) as [|[rest f2]] eqn:E; [discriminate|].
    intros [= _ <-]. apply IH in E. lia.
Qed.

Lemma body_rest (tt : option (list Z)) (st st' : State) (line : string)
    (f f' : list string) :
  body tt st line f = inr (st', f') -> (length f' <= length f)%nat.
Proof.
  unfold body.
  destruct (Py.has_substring "ITEM: TIMESTEP" line).
  { unfold_monad. destruct f as [|v f1]; [discriminate|]. simpl.
    destruct (str_to_int v); [discriminate|]. intros [= _ <-]. simpl. lia. }
  destruct (Py.has_substring "ITEM: NUMBER OF ATOMS" line).
  { unfold_monad. destruct f as [|v f1]; [discriminate|]. simpl.
    destruct (str_to_int v); [discriminate|]. intros [= _ <-]. simpl. lia. }
  destruct (Py.has_substring "ITEM: BOX BOUNDS" line).
  { unfold_monad. destruct (read_bounds 3 f) as [|[bb f1]] eqn:E; [discriminate|].
    intros [= _ <-]. eapply read_bounds_suffix_length, E. }
  destruct (Py.has_substring "ITEM: ATOMS" line); [intros [= _ <-]; lia|].
  destruct (reading_atoms st); [|intros [= _ <-]; lia].
  unfold_monad. destruct (except_Value_Index st _); [discriminate|].
  intros [= _ <-]. lia.
Qed.

Lemma for_lines_more (tt : option (list Z)) (n m : nat) (st : State)
    (f : list string) :
  (length f <= n)%nat -> (length f <= m)%nat ->
  for_lines tt n st f = for_lines tt m st f.
Proof.
  revert m st f. induction n as [|n IH]; intros m st f Hn Hm.
  - destruct f; [|simpl in Hn; lia]. destruct m; reflexivity.
  - destruct f as [|line f]; [destruct m; reflexivity|].
    destruct m as [|m]; [simpl in Hm; lia|]. simpl in *. unfold_monad.
    destruct (body tt st line f) as [e|[st' f']] eqn:E; [reflexivity|].
    apply body_rest in E. apply IH; lia.
Qed.

Lemma dump_run_step (tt : option (list Z)) (st : State) (line : string)
    (f : list string) :
  run tt st (line :: f) =
  match body tt st line f with
  | inl e => inl e
  | inr (st', f') => run tt st' f'
  end.
Proof.
  unfold run. simpl. unfold_monad.
  destruct (body tt st line f) as [e|[st' f']] eqn:E; [reflexivity|].
  apply body_rest in E. apply for_lines_more; lia.
Qed.

Lemma frame_state_eq (st st' : State) :
  data st = data st' -> current_timestep st = current_timestep st' ->
  cur_positions st = cur_positions st' -> cur_types st = cur_types st' ->
  cur_csp st = cur_csp st' -> cur_box_bounds st = cur_box_bounds st' ->
  reading_atoms st = reading_atoms st' ->
  atoms_expected st = atoms_expected st' -> atoms_read st = atoms_read st' ->
  st = st'.
Proof. destruct st, st'; simpl; intros; subst; reflexivity. Qed.

Lemma with_atoms_nil (st : State) : with_atoms st [] = st.
Proof. apply frame_state_eq; simpl; rewrite ?app_nil_r; auto. Qed.

(** A line of the section while the declared count leaves room: it adds
    its atom if it converts, and nothing otherwise; the section stays
    open. *)
Lemma row_below_count (tt : option (list Z)) (st : State) (line : string)
    (f : list string) (e : Z) :
  is_marker_line line = false ->
  reading_atoms st = true ->
  atoms_expected st = Some e ->
  (Z.of_nat (S (atoms_read st)) < e)%Z ->
  body tt st line f = inr (with_atoms st (option_list (row_atom line)), f).
Proof.
  unfold is_marker_line. intros Hm Hr He Hlt.
  apply orb_false_elim in Hm as [Hm H4].
  apply orb_false_elim in Hm as [Hm H3].
  apply orb_false_elim in Hm as [H1 H2].
  unfold body. rewrite H1, H2, H3, H4, Hr.
  rewrite DislocationsFacts.parse_atom_line_fields. unfold row_atom.
  pose proof (with_atoms_nil st) as E0.
  destruct (fields line) as [x|[a|]] eqn:E.
  - apply DislocationsFacts.fields_error in E as [-> | ->]; simpl;
      rewrite E0; reflexivity.
  - simpl. unfold_monad. do 2 f_equal.
    apply frame_state_eq; simpl; try reflexivity; [|lia].
    rewrite He. assert ((e <=? Z.of_nat (S (atoms_read st)))%Z = false) as ->
      by (apply Z.leb_gt; lia).
    reflexivity.
  - simpl. rewrite E0. reflexivity.
Qed.

Lemma with_atoms_app (st : State) (a b : list (Z * list pyfloat * pyfloat)) :
  with_atoms (with_atoms st a) b = with_atoms st (a ++ b).
Proof.
  apply frame_state_eq; simpl; rewrite ?map_app, ?length_app, <- ?app_assoc;
    try reflexivity; lia.
Qed.

Lemma rows_below (tt : option (list Z)) (rows rest : list string)
    (st : State) (e : Z) :
  no_marker_line rows = true ->
  reading_atoms st = true ->
  atoms_expected st = Some e ->
  (Z.of_nat (atoms_read st + length rows) < e)%Z ->
  run tt st (rows ++ rest) = run tt (with_atoms st (omap row_atom rows)) rest.
Proof.
  revert st. induction rows as [|line rows IH]; intros st Hm Hr He Hlt.
  - cbn [omap list_omap app]. rewrite with_atoms_nil. reflexivity.
  - simpl in Hm. apply andb_prop in Hm as [Hl Hm].
    apply negb_true_iff in Hl. simpl length in Hlt.
    cbn [app]. rewrite dump_run_step.
    rewrite (row_below_count tt st line _ e Hl Hr He) by lia.
    rewrite IH; try assumption.
    + rewrite with_atoms_app. cbn [omap list_omap].
      destruct (row_atom line); reflexivity.
    + simpl. destruct (row_atom line); simpl; lia.
Qed.

Lemma read_bounds_pairs_parsed (k : nat) (l more : list string)
    (bb : list (list pyfloat)) :
  length l = k -> mapM parsed_pair l = Some bb ->
  read_bounds k (l ++ more) = inr (bb, more).
Proof.
  intros Hk H. apply mapM_Some in H. subst k.
  induction H as [|line b l bb Hb _ IH]; [reflexivity|].
  cbn [length app read_bounds next]. unfold_monad.
  revert Hb. unfold parsed_pair, Py.getitem, str_to_float.
  destruct (Py.split line) as [|b0 [|b1 toks]]; try discriminate.
  cbn [lookup list_lookup]. unfold_monad.
  destruct (float_of_string b0) as [lo|]; [|discriminate].
  destruct (float_of_string b1) as [hi|]; [|discriminate].
  intros [= <-]. rewrite IH. reflexivity.
Qed.

(** The reader over one block. *)
Lemma dump_block_step (tt : option (list Z)) (b : Block) (rest : list string)
    (st : State) :
  short_block b = true ->
  run tt st (render b ++ rest) = run tt (after_block tt st b) rest.
Proof.
  unfold short_block. intros H.
  apply andb_prop in H as [H Hrows]. apply andb_prop in H as [H Hatoms].
  apply andb_prop in H as [H Hbounds]. apply andb_prop in H as [Hts Hcount].
  destruct (int_of_string (blk_timestep b)) as [t|] eqn:Et; [|discriminate].
  destruct (int_of_string (blk_count b)) as [e|] eqn:Ee; [|discriminate].
  apply Z.ltb_lt in Hcount.
  unfold is_atoms_line in Hatoms.
  apply andb_prop in Hatoms as [Ha A4]. apply andb_prop in Ha as [Ha A3].
  apply andb_prop in Ha as [A1 A2]. apply negb_true_iff in A1, A2, A3.
  unfold render. cbn [app].
  (* TIMESTEP *)
  rewrite dump_run_step. unfold body at 1.
  change (Py.has_substring "ITEM: TIMESTEP" (ln "ITEM: TIMESTEP")) with true.
  cbv iota. cbn [next]. unfold_monad. cbv beta iota.
  unfold str_to_int at 1. rewrite Et. unfold_monad. cbv beta iota.
  (* NUMBER OF ATOMS *)
  rewrite dump_run_step. unfold body at 1.
  change (Py.has_substring "ITEM: TIMESTEP" (ln "ITEM: NUMBER OF ATOMS"))
    with false.
  change (Py.has_substring "ITEM: NUMBER OF ATOMS" (ln "ITEM: NUMBER OF ATOMS"))
    with true.
  cbv iota. cbn [next]. unfold_monad. cbv beta iota.
  unfold str_to_int at 1. rewrite Ee. unfold_monad. cbv beta iota.
  (* BOX BOUNDS *)
  match goal with
  | |- run tt ?s1 _ = _ => set (st1 := s1)
  end.
  assert (exists st2,
            run tt st1 ((match blk_bounds b with
                         | Some l => ln "ITEM: BOX BOUNDS pp pp pp" :: l
                         | None => []
                         end ++ blk_atoms b :: blk_rows b) ++ rest)
            = run tt st2 (blk_atoms b :: blk_rows b ++ rest) /\
            data st2 = save tt st /\ current_timestep st2 = Some t /\
            cur_positions st2 = [] /\ cur_types st2 = [] /\ cur_csp st2 = [] /\
            cur_box_bounds st2 = blk_box (cur_box_bounds st) b /\
            reading_atoms st2 = false /\ atoms_expected st2 = Some e /\
            atoms_read st2 = 0%nat)
    as (st2 & -> & D2 & T2 & P2 & Y2 & C2 & B2 & R2 & E2 & N2).
  { unfold blk_box. destruct (blk_bounds b) as [l|].
    - apply andb_prop in Hbounds as [Hl Hp]. apply Nat.eqb_eq in Hl.
      destruct (mapM parsed_pair l) as [bb|] eqn:Ep; [|discriminate Hp].
      rewrite <- app_assoc. cbn [app]. rewrite dump_run_step. unfold body at 1.
      change (Py.has_substring "ITEM: TIMESTEP" (ln "ITEM: BOX BOUNDS pp pp pp"))
        with false.
      change (Py.has_substring "ITEM: NUMBER OF ATOMS"
                (ln "ITEM: BOX BOUNDS pp pp pp")) with false.
      change (Py.has_substring "ITEM: BOX BOUNDS"
                (ln "ITEM: BOX BOUNDS pp pp pp")) with true.
      cbv iota.
      rewrite (read_bounds_pairs_parsed 3 l _ bb Hl Ep).
      unfold_monad. cbv beta iota.
      eexists. split; [reflexivity|]. subst st1. simpl. auto 10.
    - exists st1. split; [reflexivity|]. subst st1. simpl. auto 10. }
  (* ATOMS *)
  rewrite dump_run_step. unfold body at 1. rewrite A1, A2, A3, A4.
  unfold_monad. cbv beta iota.
  match goal with
  | |- run tt ?s3 _ = _ =>
      rewrite (rows_below tt (blk_rows b) rest s3 e Hrows);
        [|reflexivity|simpl; exact E2|simpl; rewrite N2; simpl; exact Hcount]
  end.
  f_equal. unfold after_block. rewrite Et, Ee. cbn [default].
  apply frame_state_eq; simpl; rewrite ?P2, ?Y2, ?C2, ?N2; auto.
Qed.

Lemma save_after_block (tt : option (list Z)) (st : State) (b : Block) :
  save tt (after_block tt st b) =
  let box := blk_box (cur_box_bounds st) b in
  let atoms := blk_atoms_read b in
  let t := default 0 (int_of_string (blk_timestep b)) in
  if truthy atoms && wanted tt t
  then <[t := frame_of atoms box]> (save tt st)
  else save tt st.
Proof.
  unfold save at 1, after_block, wanted, frame_of. cbn.
  destruct (blk_atoms_read b); reflexivity.
Qed.

Lemma dump_blocks_step (tt : option (list Z)) (bs : list Block) (st : State) :
  forallb short_block bs = true ->
  exists st',
    run tt st (concat (map render bs)) = inr st' /\
    save tt st' = frames_from tt (cur_box_bounds st) (save tt st) bs.
Proof.
  revert st. induction bs as [|b bs IH]; intros st H.
  - exists st. split; reflexivity.
  - cbn [forallb] in H. apply andb_prop in H as [Hb H].
    cbn [map concat]. rewrite (dump_block_step tt b _ st Hb).
    destruct (IH (after_block tt st b) H) as (st' & E & Hs).
    exists st'. split; [exact E|]. rewrite Hs, save_after_block. reflexivity.
Qed.

(** On a dump made of blocks whose declared counts exceed the lines
    present, [read_lammps_dump] raises nothing and returns the frames of
    all the atoms present. *)
Lemma read_short_blocks (tt : option (list Z)) (bs : list Block) :
  forallb short_block bs = true ->
  read_lammps_dump (concat (map render bs)) tt = inr (frames_from tt None ∅ bs).
Proof.
  intros H. destruct (dump_blocks_step tt bs init_state H) as (st' & E & Hs).
  unfold read_lammps_dump. fold (run tt init_state (concat (map render bs))).
  rewrite E. unfold_monad. rewrite Hs. reflexivity.
Qed.

End DislocationsBlocks.



(** ** The layout of the written file *)

Lemma point_then_six_app (ip fp : string) :
  all_chars Py.is_digit ip = true ->
  point_then_six (ip ++ "." ++ fp) =
  (String.length fp =? 6)%nat && all_chars Py.is_digit fp.
Proof.
  induction ip as [|c ip IH]; simpl; [reflexivity|].
  intros [Hc Hs]%andb_prop. rewrite Hc. apply IH, Hs.
Qed.

Lemma six_decimals_digit (c : ascii) (s : string) :
  Py.is_digit c = true ->
  six_decimals (String c s) = Py.is_digit c && point_then_six s.
Proof.
  destruct c as [[] [] [] [] [] [] [] []]; try reflexivity; discriminate.
Qed.

(** A finite float is written with exactly six digits after the point. *)
Lemma format_6f_six_decimals (neg : bool) (mag : Q) :
  six_decimals (format_6f (Finite neg mag)) = true.
Proof.
  unfold format_6f.
  set (n := round_half_even (mag * inject_Z 1000000)).
  destruct (nat_digits_cons (n / 1000000)) as (c & s & E).
  pose proof (nat_digits_digits (n / 1000000)) as Hd. rewrite E in *.
  simpl in Hd. apply andb_prop in Hd as [Hc Hs].
  assert (Py.is_digit c && point_then_six (s ++ "." ++ fixed_digits 6 (n mod 1000000))
          = true) as Hgoal.
  { rewrite Hc, point_then_six_app by exact Hs.
    rewrite fixed_digits_length, fixed_digits_digits. reflexivity. }
  destruct neg.
  - exact Hgoal.
  - change ("" ++ String c s ++ "." ++ fixed_digits 6 (n mod 1000000))%string
      with (String c (s ++ "." ++ fixed_digits 6 (n mod 1000000)))%string.
    rewrite six_decimals_digit by exact Hc. exact Hgoal.
Qed.

Lemma format_6f_cons (x : pyfloat) : exists c s, format_6f x = String c s.
Proof.
  destruct x as [[] mag|[]|]; simpl; eauto.
  destruct (nat_digits_cons
              (round_half_even (mag * inject_Z 1000000) / 1000000))
    as (c & s & ->). simpl. eauto.
Qed.

Lemma str_of_int_cons (n : Z) : exists c s, str_of_int n = String c s.
Proof.
  unfold str_of_int. destruct (n <? 0); [eauto|apply nat_digits_cons].
Qed.

(** A word followed by a blank character, then the rest. *)
Lemma split_word (a rest : string) (c : ascii) :
  (exists d t, a = String d t) ->
  all_chars plain a = true -> Py.is_space c = true ->
  Py.split (a ++ String c rest) = a :: Py.split rest.
Proof.
  intros (d & t & ->) Ha Hc.
  rewrite split_token by
    (exact (all_chars_impl _ _ _ plain_not_space Ha) || exact Hc).
  simpl. rewrite Hc. reflexivity.
Qed.

Ltac norm_append :=
  repeat (progress (cbn [String.append]; rewrite ?append_assoc)).

Lemma bounds_line_split (b : list pyfloat) (l : string) :
  bounds_line b = inr l ->
  exists lo hi, b !! 0%nat = Some lo /\ b !! 1%nat = Some hi /\
    Py.split l = [format_6f lo; format_6f hi].
Proof.
  unfold bounds_line, Py.getitem. unfold_monad.
  destruct (b !! 0%nat) as [lo|]; [|discriminate].
  destruct (b !! 1%nat) as [hi|]; [|discriminate].
  intros [= <-]. exists lo, hi. split; [reflexivity|]. split; [reflexivity|].
  unfold ln. norm_append.
  rewrite !split_word by
    (apply format_6f_cons || apply format_6f_plain || reflexivity).
  reflexivity.
Qed.

Lemma atom_line_split (atom_id : Z) (pos : list pyfloat) (l : string) :
  atom_line atom_id pos = inr l ->
  exists x y z, pos !! 0%nat = Some x /\ pos !! 1%nat = Some y /\
    pos !! 2%nat = Some z /\
    Py.split l = [str_of_int atom_id; "1"; format_6f x; format_6f y; format_6f z].
Proof.
  unfold atom_line, Py.getitem. unfold_monad.
  destruct (pos !! 0%nat) as [x|]; [|discriminate].
  destruct (pos !! 1%nat) as [y|]; [|discriminate].
  destruct (pos !! 2%nat) as [z|]; [|discriminate].
  intros [= <-]. exists x, y, z. repeat (split; [reflexivity|]).
  unfold ln. norm_append.
  rewrite split_word by
    (apply str_of_int_cons || apply str_of_int_plain || reflexivity).
  change (String "1" (String " " ?r)) with ("1" ++ String " " r)%string.
  rewrite split_word by (eauto || reflexivity).
  rewrite !split_word by
    (apply format_6f_cons || apply format_6f_plain || reflexivity).
  reflexivity.
Qed.

Lemma write_each_inv {A} (w : A -> result string) (l : list A) (out : list string) :
  write_each w l = inr out -> Forall2 (fun a s => w a = inr s) l out.
Proof.
  revert out. induction l as [|a l IH]; intros out; simpl; unfold_monad.
  - intros [= <-]. constructor.
  - destruct (w a) as [|s] eqn:E; [discriminate|].
    destruct (write_each w l) as [|rest]; [discriminate|].
    intros [= <-]. constructor; [exact E|]. apply IH. reflexivity.
Qed.

Lemma write_snapshot_layout (s : Snapshot) (out : list string) :
  write_snapshot s = inr out -> snapshot_layout s out.
Proof.
  unfold write_snapshot. unfold_monad.
  destruct (write_bounds (box_bounds s)) as [|bl] eqn:Eb; [discriminate|].
  destruct (write_each _ (zip _ _)) as [|al] eqn:Ea; [discriminate|].
  intros [= <-]. exists bl, al. split; [reflexivity|]. split.
  - unfold bounds_layout. unfold write_bounds in Eb.
    destruct (box_bounds s) as [[|b bs]|];
      try (injection Eb as <-; reflexivity).
    apply write_each_inv in Eb.
    eapply Forall2_impl; [exact Eb|]. intros ? ?. apply bounds_line_split.
  - unfold atoms_layout. apply write_each_inv in Ea.
    eapply Forall2_impl; [exact Ea|]. intros [i p] l. apply atom_line_split.
Qed.

(** The output is the concatenation, in input order, of one block per
    snapshot. *)
Lemma write_trajectory_blocks (data : list Snapshot) (out : list string) :
  write_trajectory data = inr out ->
  exists blocks, out = concat blocks /\ Forall2 snapshot_layout data blocks.
Proof.
  revert out. induction data as [|s data IH]; intros out; simpl; unfold_monad.
  - intros [= <-]. exists []. split; [reflexivity|constructor].
  - destruct (write_snapshot s) as [|w] eqn:Ew; [discriminate|].
    destruct (write_trajectory data) as [|rest]; [discriminate|].
    intros [= <-]. destruct (IH rest eq_refl) as (blocks & -> & Hb).
    exists (w :: blocks). split; [reflexivity|].
    constructor; [apply write_snapshot_layout, Ew|exact Hb].
Qed.

(** C6, as amended: whenever [write_trajectory] completes, the output is
    the concatenation, in input order, of one block per snapshot; in a
    block every value of a bounds line taken from the snapshot and every
    coordinate is written by the [.6f] format, the particle lines follow
    the order of [zip(atom_ids, positions)] with the fields [id 1 x y z],
    and absent or empty bounds give the three fixed lines ["0.0 100.0"];
    the [.6f] format of a finite float has exactly six digits after the
    point. *)
Theorem write_trajectory_layout (data : list Snapshot) (out : list string) :
  write_trajectory data = inr out ->
  (exists blocks, out = concat blocks /\ Forall2 snapshot_layout data blocks) /\
  (forall neg mag, six_decimals (format_6f (Finite neg mag)) = true).
Proof.
  intros H. split; [|exact format_6f_six_decimals].
  apply write_trajectory_blocks, H.
Qed.

Lemma write_trajectory_layout_witness :
  (exists blocks,
     [ ln "ITEM: TIMESTEP"; ln "100"; ln "ITEM: NUMBER OF ATOMS"; ln "1";
       ln "ITEM: BOX BOUNDS pp pp pp";
       ln "0.000000 10.500000"; ln "0.000000 10.500000"; ln "0.000000 10.500000";
       ln "ITEM: ATOMS id type x y z"; ln "2 1 1.000000 2.300000 2.000000" ]
     = concat blocks /\
     Forall2 snapshot_layout
       [ {| timestep := 100; positions := [[F "1"; F "2.3"; F "2.0"]];
            box_bounds := Some [[F "0.0"; F "10.5"]; [F "0.0"; F "10.5"];
                                [F "0.0"; F "10.5"]];
            atom_ids := [2] |} ] blocks) /\
  (forall neg mag, six_decimals (format_6f (Finite neg mag)) = true).
Proof.
  apply (write_trajectory_layout
           [ {| timestep := 100; positions := [[F "1"; F "2.3"; F "2.0"]];
                box_bounds := Some [[F "0.0"; F "10.5"]; [F "0.0"; F "10.5"];
                                    [F "0.0"; F "10.5"]];
                atom_ids := [2] |} ]).
  vm_compute. reflexivity.
Defined.

(** C6 (the claim fails on the code): for a snapshot without bounds the
    box lines are the fixed text ["0.0 100.0"], one digit after the
    point in each field. *)
Lemma default_bounds_one_decimal :
  write_trajectory [ {| timestep := 0; positions := [[F "1"; F "2"; F "3"]];
                        box_bounds := None; atom_ids := [7] |} ] =
  inr [ ln "ITEM: TIMESTEP"; ln "0"; ln "ITEM: NUMBER OF ATOMS"; ln "1";
        ln "ITEM: BOX BOUNDS pp pp pp";
        ln "0.0 100.0"; ln "0.0 100.0"; ln "0.0 100.0";
        ln "ITEM: ATOMS id type x y z"; ln "7 1 1.000000 2.000000 3.000000" ] /\
  Py.split (ln "0.0 100.0") = ["0.0"; "100.0"] /\
  six_decimals "0.0" = false /\ six_decimals "100.0" = false.
Proof. vm_compute. auto. Qed.

(** ** The round trip *)

Lemma flush_proper (st : State) : state_ok st -> Forall proper (flush st).
Proof.
  intros (Hd & Hl & Hb). unfold flush.
  destruct (current_timestep st) as [t|]; [|exact Hd].
  destruct (current_data st) as [|p ps] eqn:E; [exact Hd|].
  simpl. apply Forall_app. split; [exact Hd|].
  constructor; [|constructor]. unfold proper. simpl.
  rewrite Hl. split; [discriminate|]. split; [reflexivity|exact Hb].
Qed.

Lemma parse_data_line_ok (st st' : State) (line : string) :
  state_ok st ->
  except_ValueError st (parse_data_line st line) = inr st' -> state_ok st'.
Proof.
  intros Hst. unfold except_ValueError, parse_data_line. unfold_monad.
  try_case (floats (Py.split line)) as values.
  destruct (4 <=? length _)%nat; [|intros [= <-]; auto].
  destruct (cols st) as [c|] eqn:Ec; [|discriminate].
  try_case (Py.getitem values (id_idx c)) as v.
  try_case (int_of_float v) as i.
  try_case (Py.getitem values (x_idx c)) as x.
  try_case (Py.getitem values (y_idx c)) as y.
  try_case (Py.getitem values (z_idx c)) as z.
  intros [= <-]. destruct Hst as (Hd & Hl & Hb).
  unfold state_ok. simpl. rewrite !length_app, Hl. auto.
Qed.

Lemma body_ok (st st' : State) (raw : string) (f f' : list string) :
  state_ok st -> body st raw f = inr (st', f') -> state_ok st'.
Proof.
  intros Hst. rewrite body_classify. destruct (classify raw).
  - destruct f as [|v f1]; [discriminate|].
    destruct (int_of_string v); [|discriminate].
    intros [= <- _]. unfold state_ok. simpl.
    split; [apply flush_proper, Hst|]. split; [reflexivity|apply Hst].
  - destruct (read_bounds 3 f) as [|[bb f1]] eqn:E; [discriminate|].
    intros [= <- _]. apply read_bounds_length in E as [E _].
    destruct Hst as (Hd & Hl & _). unfold state_ok. simpl. auto.
  - destruct f as [|h f1]; [discriminate|]. intros [= <- _]. exact Hst.
  - intros [= <- _]. exact Hst.
  - destruct (current_timestep st).
    + destruct (except_ValueError _ _) as [|st1] eqn:E; [discriminate|].
      intros [= <- _]. eapply parse_data_line_ok; eauto.
    + intros [= <- _]. exact Hst.
Qed.

Lemma for_lines_ok (n : nat) (st st' : State) (f : list string) :
  state_ok st -> for_lines n st f = inr st' -> state_ok st'.
Proof.
  revert st f. induction n as [|n IH]; intros st f Hst H.
  - destruct f; simpl in H; unfold_monad; injection H as <-; exact Hst.
  - destruct f as [|raw f]; simpl in H; unfold_monad.
    + injection H as <-. exact Hst.
    + destruct (body st raw f) as [|[st1 f1]] eqn:E; [discriminate|].
      eapply IH; [|exact H]. eapply body_ok; eauto.
Qed.

(** Every snapshot returned has at least one particle, as many ids as
    positions, and no bounds or three of them. *)
Lemma read_dump_voro_proper (f : list string) (d : list Snapshot) :
  read_dump_voro f = inr d -> Forall proper d.
Proof.
  unfold read_dump_voro. unfold_monad.
  destruct (for_lines (length f) init_state f) as [|st] eqn:E; [discriminate|].
  intros [= <-]. apply flush_proper. eapply for_lines_ok; [|exact E].
  unfold state_ok. simpl. auto.
Qed.

Lemma is_line_ln (s : string) : all_chars not_LF s = true -> is_line (ln s).
Proof. intros H. exists s. auto. Qed.

Lemma plain_line (s : string) : all_chars plain s = true -> all_chars not_LF s = true.
Proof. apply all_chars_impl, plain_not_LF. Qed.

Lemma bounds_line_is_line (b : list pyfloat) (l : string) :
  bounds_line b = inr l -> is_line l.
Proof.
  unfold bounds_line. unfold_monad.
  destruct (Py.getitem b 0) as [|lo]; [discriminate|].
  destruct (Py.getitem b 1) as [|hi]; [discriminate|].
  intros [= <-]. apply is_line_ln.
  repeat first [rewrite all_chars_app | progress cbn [all_chars]].
  rewrite !(plain_line _ (format_6f_plain _)). reflexivity.
Qed.

Lemma atom_line_is_line (i : Z) (pos : list pyfloat) (l : string) :
  atom_line i pos = inr l -> is_line l.
Proof.
  unfold atom_line. unfold_monad.
  destruct (Py.getitem pos 0) as [|x]; [discriminate|].
  destruct (Py.getitem pos 1) as [|y]; [discriminate|].
  destruct (Py.getitem pos 2) as [|z]; [discriminate|].
  intros [= <-]. apply is_line_ln.
  repeat first [rewrite all_chars_app | progress cbn [all_chars]].
  rewrite !(plain_line _ (format_6f_plain _)).
  rewrite (plain_line _ (str_of_int_plain _)). reflexivity.
Qed.

Lemma write_each_lines {A} (w : A -> result string) (l : list A) (out : list string) :
  (forall a s, w a = inr s -> is_line s) ->
  write_each w l = inr out -> Forall is_line out.
Proof.
  intros Hw H. apply write_each_inv in H.
  induction H; constructor; eauto.
Qed.

Lemma write_snapshot_lines (s : Snapshot) (out : list string) :
  write_snapshot s = inr out -> Forall is_line out.
Proof.
  unfold write_snapshot. unfold_monad.
  destruct (write_bounds (box_bounds s)) as [|bl] eqn:Eb; [discriminate|].
  destruct (write_each _ (zip _ _)) as [|al] eqn:Ea; [discriminate|].
  intros [= <-].
  assert (Forall is_line bl) as Hbl.
  { unfold write_bounds in Eb. destruct (box_bounds s) as [[|b bs]|].
    - injection Eb as <-. repeat constructor; apply is_line_ln; reflexivity.
    - eapply write_each_lines; [|exact Eb]. apply bounds_line_is_line.
    - injection Eb as <-. repeat constructor; apply is_line_ln; reflexivity. }
  assert (Forall is_line al) as Hal.
  { eapply write_each_lines; [|exact Ea]. intros [i p]. apply atom_line_is_line. }
  repeat (apply Forall_cons; split;
          [apply is_line_ln; try reflexivity;
           apply plain_line, str_of_int_plain|]).
  apply Forall_app. split; [exact Hbl|].
  apply Forall_cons. split; [apply is_line_ln; reflexivity|exact Hal].
Qed.

(** Each string written is one line of the file. *)
Lemma write_trajectory_lines (data : list Snapshot) (out : list string) :
  write_trajectory data = inr out -> Forall is_line out.
Proof.
  revert out. induction data as [|s data IH]; intros out; simpl; unfold_monad.
  - intros [= <-]. constructor.
  - destruct (write_snapshot s) as [|w] eqn:Ew; [discriminate|].
    destruct (write_trajectory data) as [|rest]; [discriminate|].
    intros [= <-]. apply Forall_app. split.
    + eapply write_snapshot_lines, Ew.
    + apply IH. reflexivity.
Qed.

Lemma take_lines_enough (n : nat) (f : list string) :
  (n <= length f)%nat -> take_lines n f = inr (take n f).
Proof.
  revert f. induction n as [|n IH]; intros f H; [reflexivity|].
  destruct f as [|l f]; [simpl in H; lia|]. simpl. unfold_monad.
  rewrite IH by (simpl in H; lia). reflexivity.
Qed.

(** The block of a proper snapshot starts with the TIMESTEP marker and
    has at least ten lines. *)
Lemma block_head (s : Snapshot) (w : list string) :
  proper s -> snapshot_layout s w ->
  exists rest, w = ln "ITEM: TIMESTEP" :: rest /\ (9 <= length rest)%nat.
Proof.
  intros (Hne & Hlen & Hbb) (bl & al & -> & Hbl & Hal).
  eexists. split; [reflexivity|].
  assert (length bl = 3%nat) as Eb.
  { unfold bounds_layout in Hbl. destruct (box_bounds s) as [[|b bs]|].
    - subst bl. reflexivity.
    - apply Forall2_length in Hbl. congruence.
    - subst bl. reflexivity. }
  assert (length al = length (positions s)) as Ea.
  { apply Forall2_length in Hal. rewrite <- Hal, length_zip. lia. }
  destruct (positions s) as [|p ps]; [congruence|].
  simpl. rewrite !length_app, Eb. simpl. rewrite Ea. simpl. lia.
Qed.

(** When the reader returns a snapshot and the writer completes, the
    output file starts with the TIMESTEP marker line and has ten lines;
    [verify_output] then succeeds for an input of at least ten lines
    that starts with the same marker. *)
Lemma round_trip_header (input : list string) (d : list Snapshot)
    (ws : list string) (l0 : string) :
  read_dump_voro input = inr d -> d <> [] ->
  write_trajectory d = inr ws ->
  (10 <= length input)%nat ->
  input !! 0%nat = Some l0 -> Py.strip l0 = "ITEM: TIMESTEP" ->
  readlines (file_text ws) !! 0%nat = Some (ln "ITEM: TIMESTEP") /\
  main input = inr (file_text ws, true).
Proof.
  intros Hr Hne Hw Hlen H0 Hs.
  pose proof (read_dump_voro_proper _ _ Hr) as Hp.
  pose proof (write_trajectory_lines _ _ Hw) as Hl.
  apply readlines_file_text in Hl.
  destruct (write_trajectory_blocks _ _ Hw) as (blocks & E & Hb).
  destruct d as [|s d]; [congruence|].
  apply Forall_cons in Hp as [Hs0 _].
  apply Forall2_cons_inv_l in Hb as (w & blocks' & Hw0 & _ & ->).
  destruct (block_head _ _ Hs0 Hw0) as (rest & -> & Hrest).
  simpl in E. subst ws. rewrite Hl. split; [reflexivity|].
  unfold main. rewrite Hr. unfold_monad. rewrite Hw.
  fold (file_text (ln "ITEM: TIMESTEP" :: rest ++ concat blocks')).
  rewrite Hl. unfold verify_output. unfold_monad.
  rewrite (take_lines_enough 10 input Hlen).
  rewrite take_lines_enough by (simpl; rewrite length_app; lia).
  unfold Py.getitem.
  rewrite lookup_take_lt by lia. rewrite H0. unfold_monad.
  rewrite lookup_take_lt by lia. simpl lookup. rewrite Hs. reflexivity.
Qed.

(** C8 (the claim fails on the code): a dump of one snapshot with one
    particle, ten lines.  The particle line is read as the header of the
    ATOMS section, the reader returns no snapshot, the writer writes
    nothing, and [verify_output] stops on the empty output file. *)
Theorem one_atom_round_trip_stops :
  read_dump_voro one_atom = inr [] /\
  write_trajectory [] = inr [] /\
  verify_output one_atom (readlines (file_text [])) = inl StopIteration /\
  main one_atom = inl StopIteration.
Proof. vm_compute. auto. Qed.

(** ** The run log without header *)

Module ExtractFacts.
Import Extract ExtractSpec.

(** Before the header is found, a line that is not a header changes
    neither the rows nor what is printed. *)
Lemma body_no_header (d key : string) (st : State) (raw : string) :
  header_line_found st = false -> is_header key raw = false ->
  exists st', body d key st raw = inr st' /\
    header_line_found st' = false /\ printed st' = printed st /\
    stress_strain_data st' = stress_strain_data st.
Proof.
  unfold is_header, body. intros Hf Hh. rewrite Hf. simpl negb.
  destruct (match_Step (Py.strip raw)); simpl in *.
  - rewrite Hh. eexists. split; [reflexivity|]. simpl. auto.
  - exists st. auto.
Qed.

Lemma for_lines_no_header (d key : string) (f : list string) (st : State) :
  header_line_found st = false -> no_header key f = true ->
  exists st', for_lines d key st f = (st', None) /\
    header_line_found st' = false /\ printed st' = printed st /\
    stress_strain_data st' = stress_strain_data st.
Proof.
  revert st. induction f as [|raw f IH]; intros st Hf Hn.
  - exists st. auto.
  - simpl in Hn. apply andb_prop in Hn as [Hraw Hn].
    apply negb_true_iff in Hraw.
    destruct (body_no_header d key st raw Hf Hraw) as (st1 & E & Hf1 & Hp1 & Hd1).
    destruct (IH st1 Hf1 Hn) as (st' & E' & Hf' & Hp' & Hd').
    exists st'. simpl. rewrite E, E'. repeat split; congruence.
Qed.

(** C9, as amended: when no line of the log is a thermo header naming
    Step, Pzz, Lx, Ly and Lz, [extract_stress_strain_data] prints the
    two lines of the error and returns [None], with no row; the script
    then prints that the extraction failed, writes no file, and ends
    with exit status 0. *)
Theorem missing_header_reported (f : list string) :
  no_header "Pzz" f = true ->
  extract_stress_strain_data "lammps.log" (Some f) "z"
    = inr (header_hint, None) /\
  script (Some f) =
    {| stdout := header_hint ++ ["Failed to extract stress-strain data."];
       output_file := None;
       exit_status := 0 |}.
Proof.
  intros H.
  destruct (for_lines_no_header "z" "Pzz" f init_state eq_refl H)
    as (st & E & Hf & Hp & _).
  assert (extract_stress_strain_data "lammps.log" (Some f) "z"
          = inr (header_hint, None)) as Hx.
  { unfold extract_stress_strain_data.
    change (stress_component "z") with (@inr exn string "Pzz").
    unfold_monad. cbv beta iota. rewrite E, Hf, Hp. reflexivity. }
  split; [exact Hx|]. unfold script. rewrite Hx. reflexivity.
Qed.

Lemma missing_header_reported_witness :
  extract_stress_strain_data "lammps.log" (Some log_without_header) "z"
    = inr (header_hint, None) /\
  script (Some log_without_header) =
    {| stdout := header_hint ++ ["Failed to extract stress-strain data."];
       output_file := None;
       exit_status := 0 |}.
Proof. apply (missing_header_reported log_without_header). reflexivity. Defined.

(** C9 (the claim fails on the code): on a log without header the
    script ends with exit status 0. *)
Lemma missing_header_exit_status_zero :
  no_header "Pzz" log_without_header = true /\
  exit_status (script (Some log_without_header)) = 0.
Proof. vm_compute. auto. Qed.

End ExtractFacts.

(** * Further properties of [convert_to_trajectory.py] *)

(** ** Composition of inputs *)

Lemma read_bounds_app (k : nat) (f f' g : list string) bb :
  read_bounds k f = inr (bb, f') ->
  read_bounds k (f ++ g) = inr (bb, f' ++ g).
Proof.
  revert f f' bb. induction k as [|k IH]; intros f f' bb; simpl; unfold_monad.
  - intros [= <- <-]. reflexivity.
  - destruct f as [|l f1]; [discriminate|]. simpl.
    destruct (floats (Py.split l)) as [|b]; [discriminate|].
    destruct (read_bounds k f1) as [|[rest f2]] eqn:E; [discriminate|].
    intros [= <- <-]. rewrite (IH _ _ _ E). reflexivity.
Qed.

(** An iteration that completes does the same when lines follow. *)
Lemma body_app (st st' : State) (raw : string) (f f' g : list string) :
  body st raw f = inr (st', f') ->
  body st raw (f ++ g) = inr (st', f' ++ g).
Proof.
  rewrite !body_classify. destruct (classify raw).
  - destruct f as [|v f1]; [discriminate|]. simpl.
    destruct (int_of_string v); [|discriminate].
    intros [= <- <-]. reflexivity.
  - destruct (read_bounds 3 f) as [|[bb f1]] eqn:E; [discriminate|].
    intros [= <- <-]. rewrite (read_bounds_app _ _ _ g _ E). reflexivity.
  - destruct f as [|h f1]; [discriminate|]. intros [= <- <-]. reflexivity.
  - intros [= <- <-]. reflexivity.
  - destruct (current_timestep st).
    + destruct (except_ValueError _ _); [discriminate|].
      intros [= <- <-]. reflexivity.
    + intros [= <- <-]. reflexivity.
Qed.

(** A loop that completes on [f] continues on what follows [f]. *)
Lemma for_lines_app (n m : nat) (st st' : State) (f g : list string) :
  (length f <= n)%nat -> (length g <= m)%nat ->
  for_lines n st f = inr st' ->
  for_lines (n + m) st (f ++ g) = for_lines m st' g.
Proof.
  revert st f. induction n as [|n IH]; intros st f Hf Hg H.
  - destruct f; [|simpl in Hf; lia]. simpl in H. unfold_monad.
    injection H as <-. reflexivity.
  - destruct f as [|raw f].
    + simpl in H. unfold_monad. injection H as <-.
      apply for_lines_fuel; simpl; lia.
    + simpl in H. unfold_monad.
      destruct (body st raw f) as [|[st1 f1]] eqn:E; [discriminate|].
      simpl. rewrite (body_app _ _ _ _ _ g E). unfold_monad.
      apply IH; [|exact Hg|exact H].
      apply body_length in E. simpl in Hf. lia.
Qed.

Lemma read_dump_voro_app (f g : list string) (st : State) :
  for_lines (length f) init_state f = inr st ->
  read_dump_voro (f ++ g) =
  (st' ← for_lines (length g) st g; mret (flush st')).
Proof.
  intros H. unfold read_dump_voro. rewrite length_app.
  rewrite (for_lines_app _ _ _ _ _ _ (le_n _) (le_n _) H). reflexivity.
Qed.

(** ** Shape of the snapshots *)

Lemma flush_coords (st : State) :
  coords_ok st ->
  Forall (fun s => Forall (fun p => length p = 3%nat) (positions s)) (flush st).
Proof.
  intros [Hd Hc]. unfold flush.
  destruct (current_timestep st); [|exact Hd].
  destruct (truthy (current_data st)); [|exact Hd].
  apply Forall_app. split; [exact Hd|]. constructor; [exact Hc|constructor].
Qed.

Lemma parse_data_line_coords (st st' : State) (line : string) :
  coords_ok st ->
  except_ValueError st (parse_data_line st line) = inr st' -> coords_ok st'.
Proof.
  intros Hst. unfold except_ValueError, parse_data_line. unfold_monad.
  try_case (floats (Py.split line)) as values.
  destruct (4 <=? length _)%nat; [|intros [= <-]; auto].
  destruct (cols st) as [c|] eqn:Ec; [|discriminate].
  try_case (Py.getitem values (id_idx c)) as v.
  try_case (int_of_float v) as i.
  try_case (Py.getitem values (x_idx c)) as x.
  try_case (Py.getitem values (y_idx c)) as y.
  try_case (Py.getitem values (z_idx c)) as z.
  intros [= <-]. destruct Hst as [Hd Hc]. split; [exact Hd|]. simpl.
  apply Forall_app. split; [exact Hc|]. repeat constructor.
Qed.

Lemma body_coords (st st' : State) (raw : string) (f f' : list string) :
  coords_ok st -> body st raw f = inr (st', f') -> coords_ok st'.
Proof.
  intros Hst. rewrite body_classify. destruct (classify raw).
  - destruct f as [|v f1]; [discriminate|].
    destruct (int_of_string v); [|discriminate].
    intros [= <- _]. split; [exact (flush_coords _ Hst)|]. simpl. constructor.
  - destruct (read_bounds 3 f) as [|[bb f1]]; [discriminate|].
    intros [= <- _]. exact Hst.
  - destruct f as [|h f1]; [discriminate|]. intros [= <- _]. exact Hst.
  - intros [= <- _]. exact Hst.
  - destruct (current_timestep st).
    + destruct (except_ValueError _ _) as [|st1] eqn:E; [discriminate|].
      intros [= <- _]. eapply parse_data_line_coords; eauto.
    + intros [= <- _]. exact Hst.
Qed.

Lemma for_lines_coords (n : nat) (st st' : State) (f : list string) :
  coords_ok st -> for_lines n st f = inr st' -> coords_ok st'.
Proof.
  revert st f. induction n as [|n IH]; intros st f Hst H.
  - destruct f; simpl in H; unfold_monad; injection H as <-; exact Hst.
  - destruct f as [|raw f]; simpl in H; unfold_monad.
    + injection H as <-. exact Hst.
    + destruct (body st raw f) as [|[st1 f1]] eqn:E; [discriminate|].
      eapply IH; [|exact H]. eapply body_coords; eauto.
Qed.

Lemma read_dump_voro_coords (f : list string) (d : list Snapshot) :
  read_dump_voro f = inr d ->
  Forall (fun s => Forall (fun p => length p = 3%nat) (positions s)) d.
Proof.
  intros H. unfold read_dump_voro in H. unfold_monad.
  destruct (for_lines (length f) init_state f) as [|st] eqn:E; [discriminate|].
  injection H as <-. apply flush_coords.
  eapply for_lines_coords; [|exact E]. split; constructor.
Qed.

(** Every snapshot that [read_dump_voro] returns has at least one
    particle, as many ids as positions, three coordinates in every
    position, and either no box or a box of three entries. *)
Theorem read_dump_voro_well_formed (f : list string) (d : list Snapshot) :
  read_dump_voro f = inr d -> Forall well_formed d.
Proof.
  intros H. unfold well_formed. apply Forall_and.
  split; [exact (read_dump_voro_proper _ _ H)|exact (read_dump_voro_coords _ _ H)].
Qed.

Lemma read_dump_voro_well_formed_witness : Forall well_formed unsorted_result.
Proof.
  apply (read_dump_voro_well_formed unsorted). vm_compute. reflexivity.
Defined.

(** ** Lines before the first snapshot *)

Lemma preamble_line_skipped (st : State) (raw : string) (f : list string) :
  current_timestep st = None -> is_preamble_line raw = true ->
  body st raw f = inr (st, f).
Proof.
  unfold is_preamble_line. intros Ht. rewrite body_classify.
  destruct (classify raw); try discriminate; [reflexivity|].
  rewrite Ht. reflexivity.
Qed.

Lemma for_lines_preamble (pre f : list string) (n : nat) (st : State) :
  current_timestep st = None -> forallb is_preamble_line pre = true ->
  for_lines (length pre + n) st (pre ++ f) = for_lines n st f.
Proof.
  intros Ht. induction pre as [|raw pre IH]; intros Hp; [reflexivity|].
  simpl in Hp. apply andb_prop in Hp as [Hr Hp]. simpl.
  rewrite (preamble_line_skipped _ _ _ Ht Hr). unfold_monad. apply IH, Hp.
Qed.

(** Whatever precedes the first TIMESTEP marker, as long as it contains
    no BOX BOUNDS and no ATOMS marker line, is ignored: the result is
    that of the file without these lines. *)
Theorem preamble_ignored (pre f : list string) :
  forallb is_preamble_line pre = true ->
  read_dump_voro (pre ++ f) = read_dump_voro f.
Proof.
  intros Hp. unfold read_dump_voro. rewrite length_app.
  rewrite (for_lines_preamble pre f _ init_state eq_refl Hp). reflexivity.
Qed.

Lemma preamble_ignored_witness :
  read_dump_voro (map ln ["LAMMPS dump"; ""; "ITEM: UNITS"; "1 2 3 4 5"] ++ scenario)
  = read_dump_voro scenario.
Proof.
  apply (preamble_ignored
           (map ln ["LAMMPS dump"; ""; "ITEM: UNITS"; "1 2 3 4 5"]) scenario).
  reflexivity.
Defined.

(** ** Exceptions that the data lines let through *)

Lemma read_bounds_keeps_markers (k : nat) (f f' : list string) bb :
  read_bounds k f = inr (bb, f') ->
  existsb is_timestep_marker f = existsb is_timestep_marker f'.
Proof.
  revert f f' bb. induction k as [|k IH]; intros f f' bb; simpl; unfold_monad.
  - intros [= _ <-]. reflexivity.
  - destruct f as [|l f1]; [discriminate|]. simpl.
    destruct (floats (Py.split l)) as [|b] eqn:E; [discriminate|].
    destruct (read_bounds k f1) as [|[rest f2]] eqn:E2; [discriminate|].
    intros [= _ <-]. rewrite <- (IH _ _ _ E2).
    assert (is_timestep_marker l = false) as ->; [|reflexivity].
    unfold is_timestep_marker. destruct (classify l) eqn:K; try reflexivity.
    assert (is_marker l = true) as Hm by (apply classify_marker; congruence).
    apply marker_floats in Hm. congruence.
Qed.

Lemma forallb_suffix {A} (p : A -> bool) (l l' : list A) :
  l' `suffix_of` l -> forallb p l = true -> forallb p l' = true.
Proof.
  intros [k ->]. rewrite forallb_app. intros H.
  apply andb_prop in H as [_ H]. exact H.
Qed.

(** An iteration on a line that is not an ATOMS marker binds no column
    index, and keeps the timestep or sets it. *)
Lemma body_before_atoms (st st' : State) (raw : string) (f f' : list string) :
  body st raw f = inr (st', f') ->
  is_atoms_marker raw = false ->
  timestep_due st (raw :: f) ->
  cols st' = cols st /\ timestep_due st' f'.
Proof.
  unfold is_atoms_marker, timestep_due. rewrite body_classify.
  cbn [existsb]. unfold is_timestep_marker at 1.
  destruct (classify raw) eqn:K; intros H Ha Hd; try discriminate.
  - destruct f as [|v f1]; [discriminate|].
    destruct (int_of_string v) as [t|]; [|discriminate].
    injection H as <- <-. split; [reflexivity|]. left. eexists. reflexivity.
  - destruct (read_bounds 3 f) as [|[bb f1]] eqn:E; [discriminate|].
    injection H as <- <-. split; [reflexivity|].
    rewrite <- (read_bounds_keeps_markers _ _ _ _ E). exact Hd.
  - injection H as <- <-. split; [reflexivity|]. exact Hd.
  - destruct (current_timestep st) as [t|] eqn:Et.
    + destruct (except_ValueError _ _) as [|st1] eqn:E; [discriminate|].
      injection H as <- <-.
      destruct (parse_data_line_data _ _ _ E) as (_ & Ht & _ & Hc).
      split; [exact Hc|]. left. rewrite Ht, Et. eexists. reflexivity.
    + injection H as <- <-. split; [reflexivity|]. rewrite Et. exact Hd.
Qed.

Lemma for_lines_before_atoms (n : nat) :
  forall (st st' : State) (f : list string),
  (length f <= n)%nat ->
  for_lines n st f = inr st' ->
  no_atoms_marker f = true ->
  timestep_due st f ->
  cols st' = cols st /\ is_Some (current_timestep st').
Proof.
  unfold no_atoms_marker.
  induction n as [|n IH]; intros st st' f Hn H Ha Hd.
  - destruct f; [|simpl in Hn; lia]. injection H as <-.
    split; [reflexivity|]. destruct Hd as [Hd|Hd]; [exact Hd|discriminate].
  - destruct f as [|raw f].
    { injection H as <-. split; [reflexivity|].
      destruct Hd as [Hd|Hd]; [exact Hd|discriminate]. }
    simpl in H. unfold_monad.
    destruct (body st raw f) as [|[st1 f1]] eqn:E; [discriminate|].
    cbn [forallb] in Ha. apply andb_prop in Ha as [Hr Ha].
    apply negb_true_iff in Hr.
    destruct (body_before_atoms _ _ _ _ _ E Hr Hd) as [Hc Hd1].
    assert (length f1 <= n)%nat as Hn1
      by (apply body_length in E; simpl in Hn; lia).
    assert (forallb (fun l => negb (is_atoms_marker l)) f1 = true) as Ha1
      by (eapply forallb_suffix; [eapply body_suffix, E|exact Ha]).
    destruct (IH _ _ _ Hn1 H Ha1 Hd1) as [Hc' Ht'].
    split; [congruence|exact Ht'].
Qed.

(** A data line with four numbers or more that comes after a
    TIMESTEP marker and before any ATOMS marker stops the reader with
    [UnboundLocalError]: the column indices are not bound yet.  The
    lines before it are any that the reader accepts on their own, with a
    TIMESTEP marker and no ATOMS marker among them. *)
Theorem data_line_before_atoms_marker
    (before rest : list string) (row : string) (d : list Snapshot)
    (vs : list pyfloat) :
  read_dump_voro before = inr d ->
  existsb is_timestep_marker before = true ->
  no_atoms_marker before = true ->
  classify row = KData ->
  floats (Py.split (Py.strip row)) = inr vs ->
  (4 <= length vs)%nat ->
  read_dump_voro (before ++ row :: rest) = inl UnboundLocalError.
Proof.
  intros Hb Ht Ha Krow Hvs Hlen.
  unfold read_dump_voro in Hb. unfold_monad.
  destruct (for_lines (length before) init_state before) as [|st] eqn:E;
    [discriminate|].
  rewrite (read_dump_voro_app _ _ _ E).
  destruct (for_lines_before_atoms _ _ _ _ (le_n _) E Ha (or_intror Ht))
    as [Hc [t Hst]].
  cbn [length for_lines]. rewrite body_classify, Krow, Hst.
  unfold parse_data_line. unfold_monad. rewrite Hvs.
  apply Nat.leb_le in Hlen. rewrite Hlen, Hc. reflexivity.
Qed.

Lemma data_line_before_atoms_marker_witness :
  read_dump_voro (header_only ++ map ln ["1 1 1.0 1.0 1.0"; "ITEM: ATOMS id"])
  = inl UnboundLocalError.
Proof.
  eapply (data_line_before_atoms_marker header_only [ln "ITEM: ATOMS id"]
            (ln "1 1 1.0 1.0 1.0"));
    [vm_compute; reflexivity|reflexivity|reflexivity|reflexivity
    |vm_compute; reflexivity|simpl; lia].
Defined.

(** In the id column an infinite value stops the reader with
    [OverflowError], which the handler does not catch; a NaN raises the
    [ValueError] that the handler catches, and the line is skipped. *)
Theorem non_finite_id (st : State) (raw : string) (f : list string)
    (t : Z) (c : Columns) (vs : list pyfloat) (x : pyfloat) :
  classify raw = KData ->
  current_timestep st = Some t ->
  cols st = Some c ->
  floats (Py.split (Py.strip raw)) = inr vs ->
  (4 <= length vs)%nat ->
  vs !! id_idx c = Some x ->
  match x with
  | Infinity _ => body st raw f = inl OverflowError
  | NaN => body st raw f = inr (st, f)
  | Finite _ _ => True
  end.
Proof.
  intros K Ht Hc Hvs Hlen Hx. rewrite body_classify, K, Ht.
  unfold parse_data_line, Py.getitem. unfold_monad.
  apply Nat.leb_le in Hlen. rewrite Hvs, Hlen, Hc, Hx.
  destruct x; reflexivity.
Qed.

Lemma non_finite_id_witness :
  body with_default_columns (ln "inf 1 2.0 3.0") [] = inl OverflowError /\
  body with_default_columns (ln "nan 1 2.0 3.0") [] = inr (with_default_columns, []).
Proof.
  split.
  - apply (non_finite_id with_default_columns (ln "inf 1 2.0 3.0") [] 0
             (resolve_columns []) [Infinity false; F "1"; F "2.0"; F "3.0"]
             (Infinity false)); try reflexivity; simpl; lia.
  - apply (non_finite_id with_default_columns (ln "nan 1 2.0 3.0") [] 0
             (resolve_columns []) [NaN; F "1"; F "2.0"; F "3.0"] NaN);
      try reflexivity; simpl; lia.
Defined.

(** ** A marker at the end of the input *)

(** When a file that the reader accepts is followed by one more line,
    and that line is a TIMESTEP, BOX BOUNDS or ATOMS marker, the reader
    stops with [StopIteration]: the snapshots of the file are not
    returned. *)
Theorem trailing_marker_stops (f : list string) (d : list Snapshot) (raw : string) :
  read_dump_voro f = inr d ->
  reads_ahead raw = true ->
  read_dump_voro (f ++ [raw]) = inl StopIteration.
Proof.
  unfold read_dump_voro at 1. unfold_monad.
  destruct (for_lines (length f) init_state f) as [|st] eqn:E; [discriminate|].
  intros _ Hr. rewrite (read_dump_voro_app _ _ _ E). simpl.
  rewrite body_classify. unfold reads_ahead in Hr.
  destruct (classify raw); try discriminate; reflexivity.
Qed.

Lemma trailing_marker_stops_witness :
  read_dump_voro (scenario ++ [ln "ITEM: ATOMS id type x y z"]) = inl StopIteration.
Proof.
  apply (trailing_marker_stops scenario
           (default [] (match read_dump_voro scenario with
                        | inr d => Some d | _ => None end))
           (ln "ITEM: ATOMS id type x y z")).
  - vm_compute. reflexivity.
  - reflexivity.
Defined.

(** ** Completed snapshots *)

Lemma body_data_app (st st' : State) (raw : string) (f f' : list string) :
  body st raw f = inr (st', f') ->
  exists new, data st' = data st ++ new /\
    (classify raw = KTimestep -> data st' = flush st).
Proof.
  rewrite body_classify. destruct (classify raw) eqn:K.
  - destruct f as [|v f1]; [discriminate|].
    destruct (int_of_string v); [|discriminate].
    intros [= <- _]. destruct (flush_bounds st) as (new & E & _).
    exists new. simpl. auto.
  - destruct (read_bounds 3 f) as [|[bb f1]]; [discriminate|].
    intros [= <- _]. exists []. rewrite app_nil_r. split; [reflexivity|discriminate].
  - destruct f as [|h f1]; [discriminate|]. intros [= <- _].
    exists []. rewrite app_nil_r. split; [reflexivity|discriminate].
  - intros [= <- _]. exists []. rewrite app_nil_r. split; [reflexivity|discriminate].
  - destruct (current_timestep st).
    + destruct (except_ValueError _ _) as [|st1] eqn:E; [discriminate|].
      intros [= <- _]. apply parse_data_line_data in E as (Ed & _).
      exists []. rewrite app_nil_r. split; [exact Ed|discriminate].
    + intros [= <- _]. exists []. rewrite app_nil_r. split; [reflexivity|discriminate].
Qed.

Lemma for_lines_data_app (n : nat) (st st' : State) (f : list string) :
  for_lines n st f = inr st' -> exists new, flush st' = data st ++ new.
Proof.
  revert st f. induction n as [|n IH]; intros st f H.
  - assert (st' = st) as ->
      by (destruct f; simpl in H; unfold_monad; congruence).
    destruct (flush_bounds st) as (new & E & _). eauto.
  - destruct f as [|raw f]; simpl in H; unfold_monad.
    + injection H as <-. destruct (flush_bounds st) as (new & E & _). eauto.
    + destruct (body st raw f) as [|[st1 f1]] eqn:E; [discriminate|].
      destruct (body_data_app _ _ _ _ _ E) as (new1 & E1 & _).
      destruct (IH _ _ H) as (new2 & E2).
      exists (new1 ++ new2). rewrite E2, E1, app_assoc. reflexivity.
Qed.

(** Snapshots once returned stay: when a file that the reader accepts
    is continued by a TIMESTEP marker and further lines, and the reader
    accepts the longer file too, the snapshots of the shorter file are
    the first snapshots of the longer one, unchanged. *)
Theorem completed_snapshots_kept (f g : list string) (tm : string)
    (d d' : list Snapshot) :
  read_dump_voro f = inr d ->
  classify tm = KTimestep ->
  read_dump_voro (f ++ tm :: g) = inr d' ->
  d `prefix_of` d'.
Proof.
  unfold read_dump_voro at 1. unfold_monad.
  destruct (for_lines (length f) init_state f) as [|st] eqn:E; [discriminate|].
  intros [= <-] K. rewrite (read_dump_voro_app _ _ _ E). simpl. unfold_monad.
  destruct (body st tm g) as [|[st1 g1]] eqn:Eb; [discriminate|].
  destruct (for_lines (length g) st1 g1) as [|st'] eqn:El; [discriminate|].
  intros [= <-].
  destruct (body_data_app _ _ _ _ _ Eb) as (_ & _ & Hd).
  destruct (for_lines_data_app _ _ _ _ El) as (new & ->).
  rewrite (Hd K). apply prefix_app_r. reflexivity.
Qed.

Lemma completed_snapshots_kept_witness :
  default [] (match read_dump_voro (take 11 scenario) with
              | inr d => Some d | _ => None end)
  `prefix_of`
  default [] (match read_dump_voro scenario with
              | inr d => Some d | _ => None end).
Proof.
  apply (completed_snapshots_kept (take 11 scenario) (drop 12 scenario)
           (ln "ITEM: TIMESTEP")); vm_compute; reflexivity.
Defined.

(** ** When the writer completes *)

Lemma write_each_error {A} (w : A -> result string) (l : list A) (e : exn) :
  (forall a e', w a = inl e' -> e' = IndexError) ->
  write_each w l = inl e -> e = IndexError.
Proof.
  intros Hw. induction l as [|a l IH]; simpl; unfold_monad; [discriminate|].
  destruct (w a) as [e'|s] eqn:E.
  - intros [= <-]. eapply Hw, E.
  - destruct (write_each w l); [|discriminate]. intros [= <-]. apply IH. reflexivity.
Qed.

Lemma getitem_index_error {A} (l : list A) (i : nat) (e : exn) :
  Py.getitem l i = inl e -> e = IndexError.
Proof.
  unfold Py.getitem. destruct (l !! i); [discriminate|]. intros [= <-]. reflexivity.
Qed.

Lemma bounds_line_error (b : list pyfloat) (e : exn) :
  bounds_line b = inl e -> e = IndexError.
Proof.
  unfold bounds_line. unfold_monad.
  destruct (Py.getitem b 0) eqn:E0; [intros [= <-]; eapply getitem_index_error, E0|].
  destruct (Py.getitem b 1) eqn:E1; [intros [= <-]; eapply getitem_index_error, E1|].
  discriminate.
Qed.

Lemma atom_line_error (i : Z) (p : list pyfloat) (e : exn) :
  atom_line i p = inl e -> e = IndexError.
Proof.
  unfold atom_line. unfold_monad.
  destruct (Py.getitem p 0) eqn:E0; [intros [= <-]; eapply getitem_index_error, E0|].
  destruct (Py.getitem p 1) eqn:E1; [intros [= <-]; eapply getitem_index_error, E1|].
  destruct (Py.getitem p 2) eqn:E2; [intros [= <-]; eapply getitem_index_error, E2|].
  discriminate.
Qed.

Lemma write_snapshot_error (s : Snapshot) (e : exn) :
  write_snapshot s = inl e -> e = IndexError.
Proof.
  unfold write_snapshot. unfold_monad.
  destruct (write_bounds (box_bounds s)) as [e1|bl] eqn:Eb.
  - intros [= <-]. unfold write_bounds in Eb.
    destruct (box_bounds s) as [[|b bs]|]; try discriminate.
    eapply write_each_error; [|exact Eb]. intros ? ?. apply bounds_line_error.
  - destruct (write_each _ (zip _ _)) as [e2|al] eqn:Ea; [|discriminate].
    intros [= <-]. eapply write_each_error; [|exact Ea].
    intros [i p] ?. apply atom_line_error.
Qed.

Lemma write_each_ok {A} (w : A -> result string) (l : list A) :
  Forall (fun a => exists s, w a = inr s) l -> exists out, write_each w l = inr out.
Proof.
  induction 1 as [|a l (s & Hs) _ (out & IH)]; simpl; unfold_monad; [eauto|].
  rewrite Hs, IH. eauto.
Qed.

Lemma write_snapshot_ok (s : Snapshot) :
  Forall (fun p => length p = 3%nat) (positions s) ->
  bounds_have_pairs s = true ->
  exists w, write_snapshot s = inr w.
Proof.
  intros Hc Hb. unfold write_snapshot. unfold_monad.
  assert (exists bl, write_bounds (box_bounds s) = inr bl) as (bl & ->).
  { unfold bounds_have_pairs in Hb. unfold write_bounds.
    destruct (box_bounds s) as [[|b bs]|]; eauto.
    apply write_each_ok. apply Forall_forall.
    intros x Hx%list_elem_of_In.
    apply (proj1 (List.forallb_forall _ _) Hb) in Hx.
    apply Nat.leb_le in Hx. unfold bounds_line, Py.getitem. unfold_monad.
    destruct x as [|lo [|hi x]]; simpl in Hx; try lia. simpl. eauto. }
  assert (exists al, write_each (fun '(atom_id, pos) => atom_line atom_id pos)
                       (zip (atom_ids s) (positions s)) = inr al) as (al & ->).
  { apply write_each_ok. apply Forall_forall. intros [i p] Hin.
    apply elem_of_zip_r in Hin. rewrite Forall_forall in Hc.
    specialize (Hc _ Hin). unfold atom_line, Py.getitem. unfold_monad.
    destruct p as [|x [|y [|z [|? ?]]]]; simpl in Hc; try lia. simpl. eauto. }
  eauto.
Qed.

(** [write_trajectory] raises nothing but [IndexError]; on what
    [read_dump_voro] returns it completes as soon as every box entry of
    every snapshot has two values. *)
Theorem writer_completes_on_reader_output (f : list string) (d : list Snapshot) :
  read_dump_voro f = inr d ->
  (forall e, write_trajectory d = inl e -> e = IndexError) /\
  (forallb bounds_have_pairs d = true -> exists ws, write_trajectory d = inr ws).
Proof.
  intros H. apply read_dump_voro_coords in H. split.
  - clear H. induction d as [|s d IH]; simpl; unfold_monad; [discriminate|].
    intros e. destruct (write_snapshot s) as [e1|w] eqn:E.
    + intros [= <-]. eapply write_snapshot_error, E.
    + destruct (write_trajectory d); [|discriminate].
      intros [= <-]. apply IH. reflexivity.
  - induction H as [|s d Hs _ IH]; simpl; unfold_monad; [eauto|].
    intros [Hb Hd]%andb_prop.
    destruct (write_snapshot_ok s Hs Hb) as (w & ->).
    destruct (IH Hd) as (ws & ->). eauto.
Qed.

Lemma writer_completes_on_reader_output_witness :
  (forall e, write_trajectory unsorted_result = inl e -> e = IndexError) /\
  (forallb bounds_have_pairs unsorted_result = true ->
   exists ws, write_trajectory unsorted_result = inr ws).
Proof.
  apply (writer_completes_on_reader_output unsorted). vm_compute. reflexivity.
Defined.

(** ** Declared and written number of atoms *)

Lemma layout_counts (s : Snapshot) (w : list string) :
  proper s -> snapshot_layout s w -> block_counts s w.
Proof.
  intros (Hne & Hlen & Hbb) (bl & al & -> & Hbl & Hal).
  assert (length bl = 3%nat) as Eb.
  { unfold bounds_layout in Hbl. destruct (box_bounds s) as [[|b bs]|].
    - subst bl. reflexivity.
    - apply Forall2_length in Hbl. congruence.
    - subst bl. reflexivity. }
  assert (length al = length (positions s)) as Ea.
  { apply Forall2_length in Hal. rewrite <- Hal, length_zip. lia. }
  split; [|reflexivity].
  simpl. rewrite !length_app, Eb. simpl. rewrite Ea. lia.
Qed.

(** For the snapshots that [read_dump_voro] returns, the file written by
    [write_trajectory] is made of one block per snapshot, of nine lines
    plus one per particle, and the number on its NUMBER OF ATOMS line is
    the number of particle lines that follow. *)
Theorem written_counts_agree (f : list string) (d : list Snapshot)
    (ws : list string) :
  read_dump_voro f = inr d ->
  write_trajectory d = inr ws ->
  exists blocks, ws = concat blocks /\ Forall2 block_counts d blocks.
Proof.
  intros Hr Hw. apply read_dump_voro_proper in Hr.
  destruct (write_trajectory_blocks _ _ Hw) as (blocks & -> & Hb).
  exists blocks. split; [reflexivity|].
  clear Hw. induction Hb as [|s w d blocks Hsw _ IH]; [constructor|].
  apply Forall_cons in Hr as [Hs Hd].
  constructor; [apply layout_counts; assumption|apply IH, Hd].
Qed.

Lemma written_counts_agree_witness :
  exists ws blocks,
    write_trajectory unsorted_result = inr ws /\
    ws = concat blocks /\ Forall2 block_counts unsorted_result blocks.
Proof.
  eexists.
  assert (write_trajectory unsorted_result = inr _) as Hw
    by (vm_compute; reflexivity).
  destruct (written_counts_agree unsorted unsorted_result _
              ltac:(vm_compute; reflexivity) Hw) as (blocks & E & Hb).
  exists blocks. split; [exact Hw|]. split; assumption.
Defined.

(** ** The file read back line by line *)

(** The file that [write_trajectory] writes, read back line by line,
    gives the written strings one by one: every [f.write] of the writer
    is exactly one line. *)
Theorem written_file_reads_back (d : list Snapshot) (ws : list string) :
  write_trajectory d = inr ws -> readlines (file_text ws) = ws.
Proof.
  intros H. apply readlines_file_text. eapply write_trajectory_lines, H.
Qed.

Lemma written_file_reads_back_witness :
  readlines (file_text
    (default [] (match write_trajectory unsorted_result with
                 | inr ws => Some ws | _ => None end))) =
  default [] (match write_trajectory unsorted_result with
              | inr ws => Some ws | _ => None end).
Proof.
  apply (written_file_reads_back unsorted_result). vm_compute. reflexivity.
Defined.

(** ** What [verify_output] checks *)

Lemma take_lines_short (n : nat) (f : list string) :
  (length f < n)%nat -> take_lines n f = inl StopIteration.
Proof.
  revert f. induction n as [|n IH]; intros f H; [lia|].
  destruct f as [|l f]; [reflexivity|]. simpl. unfold_monad.
  rewrite IH by (simpl in H; lia). reflexivity.
Qed.

(** [verify_output] stops with [StopIteration] when one of the files has
    fewer than ten lines, and otherwise returns whether the first lines
    of the two files agree up to surrounding blanks; nothing after the
    first line has any influence. *)
Theorem verify_output_checks_first_line (input_file output_file : list string) :
  verify_output input_file output_file = verify_outcome input_file output_file.
Proof.
  unfold verify_output, verify_outcome. unfold_monad.
  destruct (Nat.ltb_spec (length input_file) 10) as [Hi|Hi].
  - rewrite take_lines_short by exact Hi.
    destruct input_file, output_file; reflexivity.
  - rewrite (take_lines_enough _ _ Hi).
    destruct (Nat.ltb_spec (length output_file) 10) as [Ho|Ho].
    + rewrite take_lines_short by exact Ho.
      destruct input_file, output_file; reflexivity.
    + rewrite (take_lines_enough _ _ Ho).
      destruct input_file as [|i0 i]; [simpl in Hi; lia|].
      destruct output_file as [|o0 o]; [simpl in Ho; lia|].
      simpl. destruct (String.eqb (Py.strip i0) (Py.strip o0)); reflexivity.
Qed.


(** * Reading back what the writer wrote *)

Section ReadBack.

Local Open Scope string_scope.

Lemma digit_not_underscore (c : ascii) :
  Py.is_digit c = true -> Ascii.eqb c "_" = false.
Proof. destruct c as [[] [] [] [] [] [] [] []]; vm_compute; congruence. Qed.

Lemma take_digits_step (c : ascii) (s : string) :
  Py.is_digit c = true ->
  match s with String a _ => Ascii.eqb a "_" = false | EmptyString => True end ->
  take_digits (String c s) =
  let '(ds, r) := take_digits s in (String c ds, r).
Proof.
  intros Hc Hs. destruct s as [|a s]; [simpl; rewrite Hc; reflexivity|].
  cbn [take_digits]. rewrite Hc.
  destruct a as [[] [] [] [] [] [] [] []]; try discriminate Hs; reflexivity.
Qed.

Lemma take_digits_all (ds r : string) :
  all_chars Py.is_digit ds = true -> stops r = true ->
  take_digits (ds ++ r) = (ds, r).
Proof.
  intros Hd Hr. induction ds as [|c ds IH].
  - destruct r as [|a r]; [reflexivity|]. simpl in *.
    apply andb_prop in Hr as [Ha _]. apply negb_true_iff in Ha.
    rewrite Ha. reflexivity.
  - simpl in Hd. apply andb_prop in Hd as [Hc Hd].
    cbn [String.append]. rewrite take_digits_step; [rewrite (IH Hd); reflexivity|exact Hc|].
    destruct ds as [|d ds].
    + destruct r as [|a r]; [exact I|]. simpl in *.
      apply andb_prop in Hr as [_ Ha]. apply negb_true_iff in Ha. exact Ha.
    + simpl in Hd. apply andb_prop in Hd as [Hd' _].
      cbn [String.append]. apply digit_not_underscore, Hd'.
Qed.

Lemma take_digits_digits (ds : string) :
  all_chars Py.is_digit ds = true -> take_digits ds = (ds, "").
Proof.
  intros H. rewrite <- (append_nil_r ds) at 1. apply take_digits_all; auto.
Qed.

(** *** The value of a decimal numeral *)

Lemma digits_val_acc_uint (d : Decimal.uint) (a : Z) :
  digits_val_acc a (NilEmpty.string_of_uint d) =
  a * 10 ^ Z.of_N (DecimalPos.Unsigned.usize d) + Z.of_N (DecimalPos.Unsigned.of_lu (Decimal.rev d)).
Proof.
  revert a.
  induction d as [|d IH|d IH|d IH|d IH|d IH|d IH|d IH|d IH|d IH|d IH]; intros a;
    [simpl; lia| ..];
    cbn [NilEmpty.string_of_uint digits_val_acc DecimalPos.Unsigned.usize];
    rewrite IH; unfold Decimal.rev at 2; cbn [Decimal.revapp];
    rewrite DecimalPos.Unsigned.of_lu_revapp; fold (Decimal.rev d);
    rewrite N2Z.inj_succ, Z.pow_succ_r by lia;
    rewrite N2Z.inj_add, N2Z.inj_mul, N2Z.inj_pow;
    set (v := DecimalPos.Unsigned.of_lu (Decimal.rev d));
    set (P := Z.of_N 10 ^ Z.of_N (DecimalPos.Unsigned.usize d));
    vm_compute (DecimalPos.Unsigned.of_lu _); vm_compute (Py.digit_val _);
    change (10 ^ Z.of_N (DecimalPos.Unsigned.usize d)) with P; simpl Z.of_N; ring.
Qed.

Lemma digits_val_uint (d : Decimal.uint) :
  digits_val (NilZero.string_of_uint d) = Z.of_N (N.of_uint d).
Proof.
  unfold N.of_uint. rewrite DecimalPos.Unsigned.of_uint_alt.
  unfold digits_val, NilZero.string_of_uint.
  destruct d; try (rewrite digits_val_acc_uint; lia). reflexivity.
Qed.

Lemma digits_val_nat_digits (n : Z) : 0 <= n -> digits_val (nat_digits n) = n.
Proof.
  intros H. unfold nat_digits. rewrite digits_val_uint.
  rewrite DecimalN.Unsigned.of_to. lia.
Qed.

(** *** The digits of a numeral *)

Lemma digits_uint (ds : string) :
  all_chars Py.is_digit ds = true ->
  exists d, NilEmpty.string_of_uint d = ds.
Proof.
  induction ds as [|c ds IH]; [exists Decimal.Nil; reflexivity|].
  simpl. intros [Hc Hd]%andb_prop. destruct (IH Hd) as (d & <-).
  destruct c as [[] [] [] [] [] [] [] []]; try discriminate Hc;
    first [ exists (Decimal.D0 d); reflexivity
          | exists (Decimal.D1 d); reflexivity
          | exists (Decimal.D2 d); reflexivity
          | exists (Decimal.D3 d); reflexivity
          | exists (Decimal.D4 d); reflexivity
          | exists (Decimal.D5 d); reflexivity
          | exists (Decimal.D6 d); reflexivity
          | exists (Decimal.D7 d); reflexivity
          | exists (Decimal.D8 d); reflexivity
          | exists (Decimal.D9 d); reflexivity ].
Qed.

Lemma length_uint (d : Decimal.uint) :
  String.length (NilEmpty.string_of_uint d) = Decimal.nb_digits d.
Proof. induction d; simpl; congruence. Qed.

Lemma length_nilzero (d : Decimal.uint) :
  d <> Decimal.Nil ->
  String.length (NilZero.string_of_uint d) = Decimal.nb_digits d.
Proof.
  intros H. unfold NilZero.string_of_uint.
  destruct d; try congruence; apply (length_uint (_ d)).
Qed.

(** The numeral of the value of a run of digits is not longer than the
    run: leading zeros go. *)
Lemma nat_digits_short (ds : string) :
  all_chars Py.is_digit ds = true -> ds <> "" ->
  (String.length (nat_digits (digits_val ds)) <= String.length ds)%nat.
Proof.
  intros H Hne. destruct (digits_uint ds H) as (d & <-).
  assert (d <> Decimal.Nil) as Hd by (intros ->; apply Hne; reflexivity).
  assert (digits_val (NilEmpty.string_of_uint d) = Z.of_N (N.of_uint d)) as ->.
  { rewrite <- digits_val_uint. unfold NilZero.string_of_uint.
    destruct d; congruence. }
  unfold nat_digits. rewrite N2Z.id, DecimalN.Unsigned.to_of.
  rewrite length_uint, length_nilzero.
  - apply nb_digits_unorm, Hd.
  - unfold Decimal.unorm. destruct (Decimal.nzhead d); discriminate.
Qed.

Lemma take_digits_are_digits_upto (n : nat) (s : string) :
  (String.length s <= n)%nat ->
  all_chars Py.is_digit (take_digits s).1 = true.
Proof.
  revert s. induction n as [|n IH]; intros s Hn.
  - destruct s; [reflexivity|simpl in Hn; lia].
  - destruct s as [|c s]; [reflexivity|]. simpl in Hn.
    cbn [take_digits]. destruct (Py.is_digit c) eqn:Hc; [|reflexivity].
    assert (all_chars Py.is_digit
              (let '(ds, r) := take_digits s in (String c ds, r)).1 = true)
      as Hdefault.
    { pose proof (IH s ltac:(lia)) as H.
      destruct (take_digits s) as [ds r]. simpl in *. rewrite Hc. exact H. }
    destruct s as [|a s']; [exact Hdefault|].
    destruct a as [[] [] [] [] [] [] [] []]; try exact Hdefault.
    destruct s' as [|d s'']; [exact Hdefault|].
    destruct (Py.is_digit d); [|simpl; rewrite Hc; reflexivity].
    pose proof (IH (String d s'') ltac:(simpl in *; lia)) as H.
    destruct (take_digits (String d s'')) as [ds r]. simpl in *.
    rewrite Hc. exact H.
Qed.

Lemma take_digits_are_digits (s : string) :
  all_chars Py.is_digit (take_digits s).1 = true.
Proof. apply (take_digits_are_digits_upto (String.length s)). lia. Qed.

Lemma digits_val_acc_nonneg (s : string) (a : Z) :
  all_chars Py.is_digit s = true -> 0 <= a -> 0 <= digits_val_acc a s.
Proof.
  revert a. induction s as [|c s IH]; intros a Hs Ha; [exact Ha|].
  simpl in Hs. apply andb_prop in Hs as [Hc Hs]. simpl. apply IH; [exact Hs|].
  assert (0 <= Py.digit_val c); [|lia].
  clear -Hc. destruct c as [[] [] [] [] [] [] [] []]; vm_compute in *; congruence.
Qed.

(** What [int(str)] returns is within the limit of [int(str)]. *)
Lemma int_within_limit (v : string) (t : Z) :
  int_of_string v = Some t -> within_limit t = true.
Proof.
  unfold int_of_string. destruct (take_sign (c_strip v)) as [neg u].
  pose proof (take_digits_are_digits u) as Hd.
  destruct (take_digits u) as [ds r]. simpl in Hd.
  destruct ds as [|c ds]; [discriminate|]. cbn [is_empty orb].
  destruct (negb (is_empty r)); [discriminate|].
  destruct (Nat.ltb_spec max_str_digits (String.length (String c ds)))
    as [Hl|Hl]; [discriminate|].
  intros [= <-]. unfold within_limit. apply Nat.leb_le.
  pose proof (digits_val_acc_nonneg (String c ds) 0 Hd (Z.le_refl 0)) as H0.
  fold (digits_val (String c ds)) in H0.
  assert (Z.abs (if neg then - digits_val (String c ds)
                 else digits_val (String c ds)) = digits_val (String c ds))
    as -> by (destruct neg; lia).
  etrans; [apply nat_digits_short; [exact Hd|discriminate]|exact Hl].
Qed.

(** *** [int(str(n))] *)

Lemma c_space_is_space (c : ascii) :
  Py.is_space c = false -> is_c_space c = false.
Proof. destruct c as [[] [] [] [] [] [] [] []]; vm_compute; congruence. Qed.

Lemma lstrip_head (c : ascii) (s : string) :
  Py.is_space c = false -> Py.lstrip (String c s) = String c s.
Proof. intros H. simpl. rewrite H. reflexivity. Qed.

Lemma rstrip_ln (s : string) :
  all_chars not_space s = true -> Py.rstrip (ln s) = s.
Proof.
  unfold ln. induction s as [|c s IH]; [reflexivity|].
  simpl all_chars. intros [Hc Hs]%andb_prop.
  unfold not_space in Hc. apply negb_true_iff in Hc.
  cbn [String.append]. rewrite rstrip_cons by exact Hc. rewrite (IH Hs).
  reflexivity.
Qed.

Lemma strip_ln (s : string) :
  all_chars not_space s = true -> Py.strip (ln s) = s.
Proof.
  intros H. unfold Py.strip. destruct s as [|c s]; [reflexivity|].
  pose proof H as H'. simpl in H'. apply andb_prop in H' as [Hc _].
  unfold not_space in Hc. apply negb_true_iff in Hc.
  unfold ln. cbn [String.append]. rewrite lstrip_head by exact Hc.
  apply (rstrip_ln (String c s) H).
Qed.

Lemma rstrip_word (s : string) :
  all_chars not_space s = true -> Py.rstrip s = s.
Proof.
  induction s as [|c s IH]; [reflexivity|].
  simpl all_chars. intros [Hc Hs]%andb_prop.
  unfold not_space in Hc. apply negb_true_iff in Hc.
  rewrite rstrip_cons by exact Hc. rewrite (IH Hs). reflexivity.
Qed.

Lemma strip_word (s : string) :
  all_chars not_space s = true -> Py.strip s = s.
Proof.
  intros H. unfold Py.strip. destruct s as [|c s]; [reflexivity|].
  pose proof H as H'. simpl in H'. apply andb_prop in H' as [Hc _].
  unfold not_space in Hc. apply negb_true_iff in Hc.
  rewrite lstrip_head by exact Hc. apply rstrip_word, H.
Qed.

Lemma c_rstrip_ln (s : string) :
  all_chars not_space s = true -> c_rstrip (ln s) = s.
Proof.
  unfold ln. induction s as [|c s IH]; [reflexivity|].
  simpl all_chars. intros [Hc Hs]%andb_prop.
  unfold not_space in Hc. apply negb_true_iff, c_space_is_space in Hc.
  cbn [String.append]. rewrite c_rstrip_cons by exact Hc. rewrite (IH Hs).
  reflexivity.
Qed.

Lemma c_strip_ln (s : string) :
  all_chars not_space s = true -> c_strip (ln s) = s.
Proof.
  intros H. unfold c_strip. destruct s as [|c s]; [reflexivity|].
  pose proof H as H'. simpl in H'. apply andb_prop in H' as [Hc _].
  unfold not_space in Hc. apply negb_true_iff, c_space_is_space in Hc.
  unfold ln. cbn [String.append c_lstrip]. rewrite Hc.
  apply (c_rstrip_ln (String c s) H).
Qed.

Lemma c_rstrip_word (s : string) :
  all_chars not_space s = true -> c_rstrip s = s.
Proof.
  induction s as [|c s IH]; [reflexivity|].
  simpl all_chars. intros [Hc Hs]%andb_prop.
  unfold not_space in Hc. apply negb_true_iff, c_space_is_space in Hc.
  rewrite c_rstrip_cons by exact Hc. rewrite (IH Hs). reflexivity.
Qed.

Lemma c_strip_word (s : string) :
  all_chars not_space s = true -> c_strip s = s.
Proof.
  intros H. unfold c_strip. destruct s as [|c s]; [reflexivity|].
  pose proof H as H'. simpl in H'. apply andb_prop in H' as [Hc _].
  unfold not_space in Hc. apply negb_true_iff, c_space_is_space in Hc.
  cbn [c_lstrip]. rewrite Hc. apply c_rstrip_word, H.
Qed.

Lemma take_sign_digit (c : ascii) (s : string) :
  Py.is_digit c = true -> take_sign (String c s) = (false, String c s).
Proof. destruct c as [[] [] [] [] [] [] [] []]; vm_compute; congruence. Qed.

Lemma int_of_digits (neg : bool) (ds : string) :
  all_chars Py.is_digit ds = true -> ds <> "" ->
  (String.length ds <= max_str_digits)%nat ->
  (let '(ds', r) := take_digits ds in
   if is_empty ds' || negb (is_empty r) then None
   else if (max_str_digits <? String.length ds')%nat then None
   else Some (if neg then - digits_val ds' else digits_val ds')) =
  Some (if neg then - digits_val ds else digits_val ds).
Proof.
  intros H Hne Hl. rewrite take_digits_digits by exact H.
  apply Nat.ltb_ge in Hl. rewrite Hl.
  destruct ds; [congruence|reflexivity].
Qed.

Lemma nat_digits_ne (n : Z) : nat_digits n <> "".
Proof. destruct (nat_digits_cons n) as (c & s & ->). discriminate. Qed.

Lemma int_of_str_of_int (n : Z) :
  within_limit n = true -> int_of_string (str_of_int n) = Some n.
Proof.
  unfold within_limit. intros Hl%Nat.leb_le. unfold int_of_string.
  rewrite c_strip_word
    by (exact (all_chars_impl _ _ _ plain_not_space (str_of_int_plain n))).
  unfold str_of_int. destruct (Z.ltb_spec n 0) as [Hn|Hn].
  - cbn [take_sign]. replace (Z.abs n) with (- n) in Hl by lia.
    rewrite (int_of_digits true)
      by (apply nat_digits_digits || apply nat_digits_ne || exact Hl).
    rewrite digits_val_nat_digits by lia. f_equal. lia.
  - replace (Z.abs n) with n in Hl by lia.
    destruct (nat_digits_cons n) as (c & s & E).
    pose proof (nat_digits_digits n) as Hd. rewrite E in Hd.
    pose proof Hd as Hd'. simpl in Hd'. apply andb_prop in Hd' as [Hc _].
    pose proof (digits_val_nat_digits n Hn) as Hv.
    rewrite E in *. rewrite take_sign_digit by exact Hc.
    rewrite (int_of_digits false) by (exact Hd || discriminate || exact Hl).
    rewrite Hv. reflexivity.
Qed.

Lemma int_of_line (n : Z) :
  within_limit n = true -> int_of_string (ln (str_of_int n)) = Some n.
Proof.
  intros Hl. pose proof (int_of_str_of_int n Hl) as H.
  unfold int_of_string in *.
  rewrite c_strip_ln
    by (exact (all_chars_impl _ _ _ plain_not_space (str_of_int_plain n))).
  rewrite c_strip_word in H
    by (exact (all_chars_impl _ _ _ plain_not_space (str_of_int_plain n))).
  exact H.
Qed.

Lemma count_line_written (n : nat) :
  is_count_line (ln (str_of_int (Z.of_nat n))) = true.
Proof.
  unfold is_count_line.
  rewrite strip_ln
    by (exact (all_chars_impl _ _ _ plain_not_space (str_of_int_plain _))).
  unfold str_of_int. destruct (Z.ltb_spec (Z.of_nat n) 0) as [Hn|Hn]; [lia|].
  destruct (nat_digits_cons (Z.of_nat n)) as (c & s & E).
  pose proof (nat_digits_digits (Z.of_nat n)) as Hd. rewrite E in *. exact Hd.
Qed.

(** *** [float] of a written number *)

Lemma binary64_not_nan (neg : bool) (q : Q) : binary64 neg q <> NaN.
Proof.
  unfold binary64. destruct (Qnum q <=? 0)%Z; [discriminate|].
  match goal with |- (if ?b then _ else _) <> _ => destruct b end; discriminate.
Qed.

Lemma lower_digit_head (c : ascii) (s : string) :
  Py.is_digit c = true ->
  let l := Py.lower_str (String c s) in
  (String.eqb l "inf" || String.eqb l "infinity") = false /\
  String.eqb l "nan" = false.
Proof. destruct c as [[] [] [] [] [] [] [] []]; vm_compute; try congruence; auto. Qed.
 
(** A numeral: an optional minus, digits, then nothing or a point and
    digits. *)
Lemma float_of_numeral (neg : bool) (c : ascii) (t fp u : string) :
  all_chars Py.is_digit (String c t) = true ->
  all_chars Py.is_digit fp = true ->
  u = String c t \/ u = String c t ++ String "." fp ->
  exists q,
    float_of_string ((if neg then "-" else "") ++ u) = Some (binary64 neg q).
Proof.
  intros Hi Hf Hu.
  assert (Py.is_digit c = true) as Hc.
  { simpl in Hi. apply andb_prop in Hi as [Hc _]. exact Hc. }
  assert (all_chars not_space ((if neg then "-" else "") ++ u) = true) as Hsp.
  { rewrite all_chars_app. apply andb_true_intro. split.
    - destruct neg; reflexivity.
    - destruct Hu as [-> | ->].
      + exact (all_chars_impl _ _ _ digit_not_space Hi).
      + rewrite all_chars_app.
        rewrite (all_chars_impl _ _ _ digit_not_space Hi).
        simpl. exact (all_chars_impl _ _ _ digit_not_space Hf). }
  unfold float_of_string. rewrite c_strip_word by exact Hsp. clear Hsp.
  assert (take_sign ((if neg then "-" else "") ++ u) = (neg, u)) as ->.
  { destruct neg; [reflexivity|].
    destruct Hu as [-> | ->]; cbn [String.append]; apply take_sign_digit, Hc. }
  assert (exists s, u = String c s) as (s & Es).
  { destruct Hu as [-> | ->]; cbn [String.append]; eauto. }
  destruct (lower_digit_head c s Hc) as [H1 H2]. cbv zeta in H1, H2.
  rewrite <- Es in H1, H2. cbv zeta. rewrite H1, H2. clear H1 H2 Es s.
  destruct Hu as [-> | ->].
  - rewrite take_digits_digits by exact Hi. simpl. eauto.
  - rewrite take_digits_all by (exact Hi || reflexivity).
    rewrite take_digits_digits by exact Hf. simpl. eauto.
Qed.

Lemma float_of_str_of_int (n : Z) :
  exists v, float_of_string (str_of_int n) = Some v /\ v <> NaN.
Proof.
  unfold str_of_int. destruct (n <? 0)%Z.
  - destruct (nat_digits_cons (- n)) as (c & t & E).
    pose proof (nat_digits_digits (- n)) as Hd. rewrite E in *.
    destruct (float_of_numeral true c t "" _ Hd eq_refl (or_introl eq_refl))
      as (q & Hq).
    eexists. split; [exact Hq|apply binary64_not_nan].
  - destruct (nat_digits_cons n) as (c & t & E).
    pose proof (nat_digits_digits n) as Hd. rewrite E in *.
    destruct (float_of_numeral false c t "" _ Hd eq_refl (or_introl eq_refl))
      as (q & Hq).
    eexists. split; [exact Hq|apply binary64_not_nan].
Qed.

Lemma float_of_format_6f (x : pyfloat) :
  exists v, float_of_string (format_6f x) = Some v.
Proof.
  destruct x as [neg mag|[]|]; try (eexists; reflexivity).
  unfold format_6f.
  set (n := round_half_even (mag * inject_Z 1000000)).
  destruct (nat_digits_cons (n / 1000000)) as (c & t & E).
  pose proof (nat_digits_digits (n / 1000000)) as Hd. rewrite E in *.
  destruct (float_of_numeral neg c t (fixed_digits 6 (n mod 1000000)) _ Hd
              (fixed_digits_digits _ _) (or_intror eq_refl)) as (q & Hq).
  eauto.
Qed.

(** *** The tokens of a written particle line *)

Lemma plain_not_name (s : string) :
  all_chars plain s = true ->
  String.eqb "id" s = false /\ String.eqb "x" s = false /\
  String.eqb "y" s = false /\ String.eqb "z" s = false.
Proof.
  destruct s as [|c s]; [auto|]. simpl all_chars. intros [Hc Hs]%andb_prop.
  assert (Ascii.eqb "x" c = false /\ Ascii.eqb "y" c = false /\
          Ascii.eqb "z" c = false) as (Hx & Hy & Hz).
  { clear Hs. destruct c as [[] [] [] [] [] [] [] []]; vm_compute in *;
      auto; congruence. }
  cbn [String.eqb]. rewrite Hx, Hy, Hz. repeat split; try reflexivity.
  destruct (Ascii.eqb "i" c); [|reflexivity].
  destruct s as [|d s]; [reflexivity|]. simpl in Hs.
  apply andb_prop in Hs as [Hd _]. cbn [String.eqb].
  assert (Ascii.eqb "d" d = false) as ->; [|reflexivity].
  destruct d as [[] [] [] [] [] [] [] []]; vm_compute in *; auto; congruence.
Qed.

Lemma column_default (name : string) (dflt : nat) (toks : list string) :
  Forall (fun t => String.eqb name t = false) toks ->
  column name dflt toks = dflt.
Proof.
  intros H. unfold column.
  assert (Py.contains name toks = false) as ->; [|reflexivity].
  unfold Py.contains. induction H as [|t toks Ht _ IH]; [reflexivity|].
  simpl. rewrite Ht, IH. reflexivity.
Qed.

Lemma resolve_columns_plain (toks : list string) :
  Forall (fun t => all_chars plain t = true) toks ->
  resolve_columns toks = resolve_columns [].
Proof.
  intros H. unfold resolve_columns.
  rewrite (column_default "id" 0 toks), (column_default "x" 1 toks),
    (column_default "y" 2 toks), (column_default "z" 3 toks);
    [reflexivity|..];
    (eapply Forall_impl; [exact H|]); intros t Ht;
    apply plain_not_name in Ht; tauto.
Qed.

Lemma atom_tokens_plain (i : Z) (x y z : pyfloat) :
  Forall (fun t => all_chars plain t = true)
    [str_of_int i; "1"; format_6f x; format_6f y; format_6f z].
Proof.
  repeat constructor; auto using str_of_int_plain, format_6f_plain.
Qed.

Lemma atom_tokens_floats (i : Z) (x y z : pyfloat) :
  exists v0 v1 v2 v3 v4,
    floats [str_of_int i; "1"; format_6f x; format_6f y; format_6f z]
      = inr [v0; v1; v2; v3; v4] /\ v0 <> NaN.
Proof.
  destruct (float_of_str_of_int i) as (v0 & E0 & Hv0).
  destruct (float_of_format_6f x) as (v2 & E2).
  destruct (float_of_format_6f y) as (v3 & E3).
  destruct (float_of_format_6f z) as (v4 & E4).
  exists v0, (F "1"), v2, v3, v4. split; [|exact Hv0].
  cbn [floats]. rewrite E0, E2, E3, E4. reflexivity.
Qed.

(** *** Blank characters around the tokens *)

Lemma rstrip_blank (s : string) : Py.rstrip s = "" -> Py.split s = [].
Proof.
  induction s as [|c s IH]; [reflexivity|]. simpl.
  destruct (Py.rstrip s) eqn:E; [|discriminate].
  destruct (Py.is_space c); [|discriminate]. intros _. apply IH. reflexivity.
Qed.

Lemma rstrip_head (s : string) (a : ascii) (r : string) :
  Py.rstrip s = String a r -> exists s', s = String a s'.
Proof.
  destruct s as [|c s]; [discriminate|]. simpl.
  destruct (Py.rstrip s).
  - destruct (Py.is_space c); [discriminate|]. intros [= -> _]. eauto.
  - intros [= -> _]. eauto.
Qed.

Lemma split_two (c a : ascii) (s : string) :
  Py.split (String c (String a s)) =
  if Py.is_space c then Py.split (String a s)
  else if Py.is_space a then String c "" :: Py.split (String a s)
  else match Py.split (String a s) with
       | t :: ts => String c t :: ts
       | [] => [String c ""]
       end.
Proof. reflexivity. Qed.

Lemma split_rstrip (s : string) : Py.split (Py.rstrip s) = Py.split s.
Proof.
  induction s as [|c s IH]; [reflexivity|].
  cbn [Py.rstrip]. destruct (Py.rstrip s) as [|a r] eqn:E.
  - pose proof (rstrip_blank s E) as Hs.
    destruct (Py.is_space c) eqn:Hc.
    + simpl. rewrite Hc. symmetry. exact Hs.
    + simpl. rewrite Hc. destruct s as [|d s]; [reflexivity|].
      destruct (Py.is_space d) eqn:Hd.
      * rewrite Hs. reflexivity.
      * destruct (split_cons d s Hd) as (t & ts & Ht). congruence.
  - destruct (rstrip_head s a r E) as (s' & ->).
    rewrite !split_two, IH. reflexivity.
Qed.

Lemma split_strip (s : string) : Py.split (Py.strip s) = Py.split s.
Proof. unfold Py.strip. rewrite split_rstrip. apply split_lstrip. Qed.

Lemma lstrip_not_space (s : string) (c : ascii) (r : string) :
  Py.lstrip s = String c r -> Py.is_space c = false.
Proof.
  induction s as [|a s IH]; [discriminate|]. simpl.
  destruct (Py.is_space a) eqn:E; [exact IH|]. intros [= <- _]. exact E.
Qed.

(** The stripped line starts with the first character of its first
    token. *)
Lemma strip_first_token (s : string) (c : ascii) (t : string)
    (ts : list string) :
  Py.split s = String c t :: ts -> exists r, Py.strip s = String c r.
Proof.
  intros H. rewrite <- split_strip in H. unfold Py.strip in *.
  destruct (Py.lstrip s) as [|a q] eqn:E; [discriminate|].
  apply lstrip_not_space in E.
  rewrite rstrip_cons in * by exact E.
  destruct (split_cons a (Py.rstrip q) E) as (t' & ts' & Ht).
  rewrite Ht in H. injection H as -> _ _. eauto.
Qed.

Lemma str_of_int_head (n : Z) :
  exists c s, str_of_int n = String c s /\ Ascii.eqb "I" c = false.
Proof.
  unfold str_of_int. destruct (n <? 0)%Z; [eauto|].
  destruct (nat_digits_cons n) as (c & s & E).
  pose proof (nat_digits_digits n) as Hd. rewrite E in *.
  simpl in Hd. apply andb_prop in Hd as [Hc _].
  exists c, s. split; [reflexivity|].
  destruct c as [[] [] [] [] [] [] [] []]; vm_compute in *; auto; congruence.
Qed.

Lemma classify_data (raw : string) (c : ascii) (r : string) :
  Py.strip raw = String c r -> Ascii.eqb "I" c = false -> classify raw = KData.
Proof.
  intros E Hc. unfold classify, Py.startswith. rewrite E.
  cbn [String.prefix].
  destruct (ascii_dec "I" c) as [<-|]; [discriminate Hc|reflexivity].
Qed.

End ReadBack.

(** *** The timesteps that the reader returns *)

Lemma flush_within (st : State) :
  timesteps_within st ->
  Forall (fun s => within_limit (timestep s) = true) (flush st).
Proof.
  intros [Hd Ht]. unfold flush.
  destruct (current_timestep st) as [t|]; [|exact Hd].
  destruct (truthy (current_data st)); [|exact Hd].
  apply Forall_app. split; [exact Hd|]. constructor; [|constructor].
  simpl. apply Ht. reflexivity.
Qed.

Lemma body_within (st st' : State) (raw : string) (f f' : list string) :
  timesteps_within st -> body st raw f = inr (st', f') -> timesteps_within st'.
Proof.
  intros Hw. rewrite body_classify. destruct (classify raw).
  - destruct f as [|v f1]; [discriminate|].
    destruct (int_of_string v) as [t|] eqn:Ev; [|discriminate].
    intros [= <- _]. split; [exact (flush_within st Hw)|].
    simpl. intros t' [= <-]. eapply int_within_limit, Ev.
  - destruct (read_bounds 3 f) as [|[bb f1]]; [discriminate|].
    intros [= <- _]. exact Hw.
  - destruct f as [|h f1]; [discriminate|]. intros [= <- _]. exact Hw.
  - intros [= <- _]. exact Hw.
  - destruct (current_timestep st) eqn:Et; [|intros [= <- _]; exact Hw].
    destruct (except_ValueError _ _) as [|st1] eqn:E; [discriminate|].
    intros [= <- _]. apply parse_data_line_data in E as (Ed & Ec & _).
    destruct Hw as [Hd Ht]. split; [rewrite Ed; exact Hd|].
    rewrite Ec. exact Ht.
Qed.

Lemma for_lines_within (n : nat) (st st' : State) (f : list string) :
  timesteps_within st -> for_lines n st f = inr st' -> timesteps_within st'.
Proof.
  revert st f. induction n as [|n IH]; intros st [|raw f] Hw; simpl;
    unfold_monad; try (intros [= <-]; exact Hw).
  destruct (body st raw f) as [|[st1 f1]] eqn:E; [discriminate|].
  apply IH. eapply body_within; eauto.
Qed.

Lemma read_dump_voro_within (f : list string) (d : list Snapshot) :
  read_dump_voro f = inr d ->
  Forall (fun s => within_limit (timestep s) = true) d.
Proof.
  unfold read_dump_voro. unfold_monad.
  destruct (for_lines (length f) init_state f) as [|st] eqn:E; [discriminate|].
  intros [= <-]. apply flush_within. eapply for_lines_within; [|exact E].
  split; [constructor|discriminate].
Qed.

(** *** The loop on the written lines *)

Lemma run_cons (st : State) (raw : string) (f : list string) :
  run st (raw :: f) =
  match body st raw f with
  | inl e => inl e
  | inr (st', f') => run st' f'
  end.
Proof.
  unfold run. simpl. unfold_monad.
  destruct (body st raw f) as [e|[st' f']] eqn:E; [reflexivity|].
  apply body_length in E. apply for_lines_fuel; lia.
Qed.

(** One written particle line, once the columns are the defaults: the
    loop stops on an id that does not fit a float, or goes on with one
    more record. *)
Lemma row_run (st : State) (l : string) (p : Z * list pyfloat)
    (rest : list string) (t : Z) :
  (exists x y z, p.2 !! 0%nat = Some x /\ p.2 !! 1%nat = Some y /\
     p.2 !! 2%nat = Some z /\
     Py.split l = [str_of_int p.1; "1"; format_6f x; format_6f y; format_6f z]) ->
  current_timestep st = Some t ->
  cols st = Some (resolve_columns []) ->
  (exists e, run st (l :: rest) = inl e) \/
  (exists st', run st (l :: rest) = run st' rest /\
     data st' = data st /\ current_timestep st' = Some t /\
     cols st' = cols st /\
     length (current_data st') = S (length (current_data st)) /\
     length (cur_atom_ids st') = S (length (cur_atom_ids st))).
Proof.
  intros (x & y & z & _ & _ & _ & Hl) Ht Hc.
  destruct (str_of_int_head p.1) as (c & s & Ec & Hc').
  assert (classify l = KData) as K.
  { rewrite Ec in Hl. destruct (strip_first_token _ _ _ _ Hl) as (r & Er).
    eapply classify_data; eauto. }
  rewrite run_cons, body_classify, K, Ht.
  unfold parse_data_line. rewrite split_strip, Hl.
  destruct (atom_tokens_floats p.1 x y z) as (v0 & v1 & v2 & v3 & v4 & -> & Hv).
  unfold_monad. cbn [length Nat.leb]. rewrite Hc.
  change (id_idx (resolve_columns [])) with 0%nat.
  change (x_idx (resolve_columns [])) with 1%nat.
  change (y_idx (resolve_columns [])) with 2%nat.
  change (z_idx (resolve_columns [])) with 3%nat.
  cbn [Py.getitem lookup list_lookup]. unfold_monad.
  destruct v0 as [neg mag|neg|]; [| |congruence].
  - right. cbn [int_of_float]. unfold_monad. cbn [except_ValueError].
    eexists. split; [reflexivity|]. cbn.
    rewrite !length_app. simpl. repeat split; auto; lia.
  - left. cbn [int_of_float]. unfold raise. cbn [except_ValueError].
    eexists. reflexivity.
Qed.

Lemma rows_run (al : list string) (ps : list (Z * list pyfloat))
    (rest : list string) (st : State) (t : Z) :
  Forall2 (fun (p : Z * list pyfloat) l =>
             exists x y z, p.2 !! 0%nat = Some x /\ p.2 !! 1%nat = Some y /\
               p.2 !! 2%nat = Some z /\
               Py.split l =
                 [str_of_int p.1; "1"; format_6f x; format_6f y; format_6f z])
          ps al ->
  current_timestep st = Some t ->
  cols st = Some (resolve_columns []) ->
  (exists e, run st (al ++ rest) = inl e) \/
  (exists st', run st (al ++ rest) = run st' rest /\
     data st' = data st /\ current_timestep st' = Some t /\
     length (current_data st') = (length (current_data st) + length al)%nat /\
     length (cur_atom_ids st') = (length (cur_atom_ids st) + length al)%nat).
Proof.
  intros H. revert st. induction H as [|p l ps al Hp _ IH]; intros st Ht Hc.
  - right. exists st. simpl. repeat split; auto; lia.
  - cbn [app].
    destruct (row_run st l p (al ++ rest) t Hp Ht Hc)
      as [(e & E)|(st1 & E & Hd & Ht1 & Hc1 & Hl1 & Hi1)];
      [left; eauto|].
    rewrite Hc in Hc1.
    destruct (IH st1 Ht1 Hc1) as [(e & E')|(st' & E' & Hd' & Ht' & Hl' & Hi')].
    + left. exists e. congruence.
    + right. exists st'. rewrite E, E'. simpl.
      repeat split; try congruence; lia.
Qed.

Lemma read_bounds_exact (k : nat) (bl more : list string) :
  length bl = k ->
  (exists e, read_bounds k (bl ++ more) = inl e) \/
  (exists bb, read_bounds k (bl ++ more) = inr (bb, more)).
Proof.
  revert bl. induction k as [|k IH]; intros bl Hk.
  - destruct bl; [|discriminate]. right. exists []. reflexivity.
  - destruct bl as [|l bl]; [discriminate|]. injection Hk as Hk.
    cbn [app read_bounds next]. unfold_monad.
    destruct (floats (Py.split l)) as [e|b]; [left; eauto|].
    destruct (IH bl Hk) as [(e & ->)|(bb & ->)]; [left; eauto|right; eauto].
Qed.

(** The block written for one snapshot, read again: the loop stops, or
    goes on after the block with the snapshots flushed, the timestep of
    the block, and one record less than the block has particle lines. *)
Lemma block_run (s : Snapshot) (w rest : list string) (st : State) :
  within_limit (timestep s) = true ->
  proper s -> snapshot_layout s w ->
  (exists e, run st (w ++ rest) = inl e) \/
  (exists st', run st (w ++ rest) = run st' rest /\
     data st' = flush st /\ current_timestep st' = Some (timestep s) /\
     S (length (current_data st')) = length (positions s) /\
     length (cur_atom_ids st') = length (current_data st')).
Proof.
  intros Hlim (Hne & Hlen & Hbb) (bl & al & -> & Hbl & Hal).
  assert (length bl = 3%nat) as Eb.
  { unfold bounds_layout in Hbl. destruct (box_bounds s) as [[|b bs]|].
    - subst bl. reflexivity.
    - apply Forall2_length in Hbl. congruence.
    - subst bl. reflexivity. }
  unfold atoms_layout in Hal.
  assert (length al = length (positions s)) as Ea.
  { apply Forall2_length in Hal. rewrite <- Hal, length_zip. lia. }
  destruct (zip (atom_ids s) (positions s)) as [|p ps] eqn:Ez.
  { apply Forall2_length in Hal. simpl in Hal.
    destruct (positions s); [congruence|]. simpl in Ea. lia. }
  apply Forall2_cons_inv_l in Hal as (a1 & al' & (x & y & z & _ & _ & _ & Ha1) & Hal & ->).
  rewrite <- !app_assoc. cbn [app].
  (* TIMESTEP *)
  rewrite run_cons, body_classify.
  change (classify (ln "ITEM: TIMESTEP")) with KTimestep. cbv iota.
  rewrite int_of_line by exact Hlim.
  (* NUMBER OF ATOMS and the count *)
  rewrite run_cons, body_classify.
  change (classify (ln "ITEM: NUMBER OF ATOMS")) with KOther. cbv iota.
  rewrite run_cons, count_line_skipped by apply count_line_written.
  (* BOX BOUNDS *)
  rewrite run_cons, body_classify.
  change (classify (ln "ITEM: BOX BOUNDS pp pp pp")) with KBounds. cbv iota.
  destruct (read_bounds_exact 3 bl
              (ln "ITEM: ATOMS id type x y z" :: a1 :: al' ++ rest) Eb)
    as [(e & ->)|(bb & ->)]; [left; eauto|].
  (* ATOMS *)
  rewrite run_cons, body_classify.
  change (classify (ln "ITEM: ATOMS id type x y z")) with KAtoms. cbv iota.
  rewrite split_strip, Ha1.
  rewrite (resolve_columns_plain _ (atom_tokens_plain p.1 x y z)).
  match goal with
  | |- context [run ?st4 (al' ++ rest)] =>
      destruct (rows_run al' ps rest st4 (timestep s) Hal eq_refl eq_refl)
        as [(e & E)|(st' & E & Hd & Ht & Hl & Hi)]
  end; [left; eauto|].
  right. exists st'. split; [exact E|].
  simpl in Hd, Hl, Hi. simpl in Ea.
  repeat split; try assumption; lia.
Qed.

Lemma flush_after_block (st : State) (s : Snapshot) :
  S (length (current_data st)) = length (positions s) ->
  current_timestep st = Some (timestep s) ->
  length (cur_atom_ids st) = length (current_data st) ->
  exists new,
    flush st = data st ++ new /\
    Forall2 loses_one (if has_two s then [s] else []) new.
Proof.
  intros Hl Ht Hi. unfold flush, has_two. rewrite Ht.
  destruct (Nat.leb_spec 2 (length (positions s))) as [H2|H2];
    destruct (current_data st) as [|r rs] eqn:E; simpl in Hl; try lia.
  - eexists. split; [reflexivity|].
    constructor; [|constructor]. unfold loses_one. simpl. auto.
  - exists []. rewrite app_nil_r. split; [reflexivity|constructor].
Qed.

Lemma blocks_run (d : list Snapshot) (blocks : list (list string))
    (st : State) :
  Forall (fun s => within_limit (timestep s) = true) d ->
  Forall proper d -> Forall2 snapshot_layout d blocks ->
  (exists e, run st (concat blocks) = inl e) \/
  (exists st' new, run st (concat blocks) = inr st' /\
     flush st' = flush st ++ new /\
     Forall2 loses_one (filter (fun s => has_two s = true) d) new).
Proof.
  intros Hl Hp H. revert st.
  induction H as [|s w d blocks Hsw _ IH]; intros st.
  - right. exists st, []. rewrite app_nil_r. repeat split. constructor.
  - apply Forall_cons in Hp as [Hs Hd]. apply Forall_cons in Hl as [Hls Hld].
    cbn [concat].
    destruct (block_run s w (concat blocks) st Hls Hs Hsw)
      as [(e & E)|(st1 & E & Hd1 & Ht1 & Hl1 & Hi1)]; [left; eauto|].
    destruct (IH Hld Hd st1) as [(e & E')|(st' & new & E' & Hf & Hn)].
    + left. exists e. congruence.
    + right. destruct (flush_after_block st1 s Hl1 Ht1 Hi1) as (n1 & Hf1 & Hn1).
      exists st', (n1 ++ new). split; [congruence|]. split.
      * rewrite Hf, Hf1, Hd1, app_assoc. reflexivity.
      * rewrite filter_cons. unfold has_two in *.
        destruct (decide ((2 <=? length (positions s))%nat = true)) as [Hb|Hb].
        -- rewrite Hb in Hn1. exact (Forall2_app Hn1 Hn).
        -- apply not_true_is_false in Hb. rewrite Hb in Hn1.
           apply Forall2_nil_inv_l in Hn1 as ->. exact Hn.
Qed.

(** The file that [write_trajectory] wrote for the snapshots returned by
    [read_dump_voro], read by [read_dump_voro] again: when the second
    reading completes, it returns the snapshots that had at least two
    particles, in order and with their timesteps, each with one particle
    less (the first particle line of every block is taken for the column
    header). *)
Theorem second_reading_loses_a_particle (f : list string)
    (d d' : list Snapshot) (ws : list string) :
  read_dump_voro f = inr d ->
  write_trajectory d = inr ws ->
  read_dump_voro (readlines (file_text ws)) = inr d' ->
  Forall2 loses_one (filter (fun s => has_two s = true) d) d'.
Proof.
  intros Hr Hw. rewrite (readlines_file_text _ (write_trajectory_lines _ _ Hw)).
  pose proof (read_dump_voro_within _ _ Hr) as Hl.
  apply read_dump_voro_proper in Hr.
  destruct (write_trajectory_blocks _ _ Hw) as (blocks & -> & Hb).
  unfold read_dump_voro. fold (run init_state (concat blocks)).
  destruct (blocks_run d blocks init_state Hl Hr Hb)
    as [(e & ->)|(st' & new & -> & Hf & Hn)]; [discriminate|].
  unfold_monad. intros [= <-]. rewrite Hf. exact Hn.
Qed.

Lemma second_reading_loses_a_particle_witness :
  Forall2 loses_one
    (filter (fun s => has_two s = true)
       (default [] (match read_dump_voro three_rows with
                    | inr d => Some d | inl _ => None end)))
    (default []
       (match read_dump_voro three_rows with
        | inr d =>
            match write_trajectory d with
            | inr ws =>
                match read_dump_voro (readlines (file_text ws)) with
                | inr d' => Some d'
                | inl _ => None
                end
            | inl _ => None
            end
        | inl _ => None
        end)).
Proof.
  apply (second_reading_loses_a_particle three_rows _ _
           (default []
              (match read_dump_voro three_rows with
               | inr d =>
                   match write_trajectory d with
                   | inr ws => Some ws | inl _ => None end
               | inl _ => None
               end)));
    vm_compute; reflexivity.
Defined.

(** ** The whole conversion *)

(** [main], once the reader and the writer have completed: it stops with
    [StopIteration] in [verify_output] when no snapshot was read (the
    output file is empty) or when the input has fewer than ten lines;
    otherwise the check returns whether the first line of the input is
    the TIMESTEP marker, up to surrounding blanks. *)
Theorem main_stops_or_checks_first_line (input_file : list string)
    (d : list Snapshot) (ws : list string) :
  read_dump_voro input_file = inr d ->
  write_trajectory d = inr ws ->
  main input_file = main_outcome input_file d ws.
Proof.
  intros Hr Hw. unfold main. rewrite Hr. unfold_monad. rewrite Hw.
  rewrite (readlines_file_text _ (write_trajectory_lines _ _ Hw)).
  pose proof (read_dump_voro_proper _ _ Hr) as Hp.
  destruct (write_trajectory_blocks _ _ Hw) as (blocks & E & Hb).
  unfold verify_output, main_outcome. unfold_monad.
  destruct d as [|s d].
  - apply Forall2_nil_inv_l in Hb as ->. simpl in E. subst ws.
    destruct (Nat.ltb_spec (length input_file) 10) as [Hi|Hi].
    + rewrite take_lines_short by exact Hi. reflexivity.
    + rewrite (take_lines_enough 10 input_file Hi). reflexivity.
  - apply Forall_cons in Hp as [Hs0 _].
    apply Forall2_cons_inv_l in Hb as (w & blocks' & Hw0 & _ & ->).
    destruct (block_head _ _ Hs0 Hw0) as (rest & -> & Hrest).
    simpl in E. subst ws.
    destruct (Nat.ltb_spec (length input_file) 10) as [Hi|Hi].
    + rewrite take_lines_short by exact Hi. reflexivity.
    + rewrite (take_lines_enough 10 input_file Hi).
      rewrite take_lines_enough by (simpl; rewrite length_app; lia).
      destruct input_file as [|l0 input']; [simpl in Hi; lia|].
      simpl.
      change (Py.strip (ln "ITEM: TIMESTEP")) with "ITEM: TIMESTEP"%string.
      destruct (String.eqb (Py.strip l0) "ITEM: TIMESTEP"); reflexivity.
Qed.

Lemma main_stops_or_checks_first_line_witness :
  main scenario =
  main_outcome scenario
    (default [] (match read_dump_voro scenario with
                 | inr d => Some d | inl _ => None end))
    (default []
       (match read_dump_voro scenario with
        | inr d =>
            match write_trajectory d with
            | inr ws => Some ws | inl _ => None end
        | inl _ => None
        end)).
Proof.
  apply main_stops_or_checks_first_line; vm_compute; reflexivity.
Defined.

(** * The reader on a dump made of blocks *)

Lemma floats_float_list (toks : list string) :
  floats toks =
  match float_list toks with
  | Some vs => inr vs
  | None => inl ValueError
  end.
Proof.
  unfold float_list. induction toks as [|t toks IH]; [reflexivity|].
  cbn. destruct (float_of_string t) as [v|]; [|reflexivity].
  unfold_monad. rewrite IH. cbn.
  destruct (mapM float_of_string toks); reflexivity.
Qed.

Lemma read_bounds_parsed (k : nat) (l more : list string)
    (bb : list (list pyfloat)) :
  length l = k -> parsed_bounds l = Some bb ->
  read_bounds k (l ++ more) = inr (bb, more).
Proof.
  unfold parsed_bounds. revert l bb.
  induction k as [|k IH]; intros l bb Hk H.
  - destruct l; [|discriminate]. cbn in H. injection H as <-. reflexivity.
  - destruct l as [|line l]; [discriminate|]. injection Hk as Hk.
    cbn in H. cbn [app read_bounds next]. unfold_monad.
    rewrite floats_float_list.
    destruct (float_list (Py.split line)) as [b|]; [|discriminate].
    cbn in H. destruct (mapM _ l) as [bs|] eqn:E; [|discriminate].
    cbn in H. injection H as <-. rewrite (IH l bs Hk E). reflexivity.
Qed.

(** A data line, once the timestep and the columns are bound. *)
Lemma row_step (st : State) (raw : string) (f : list string) (t : Z)
    (c : Columns) (o : option (Z * list pyfloat)) :
  classify raw = KData ->
  current_timestep st = Some t ->
  cols st = Some c ->
  row_outcome c raw = Some o ->
  body st raw f = inr (with_record st o, f).
Proof.
  intros K Ht Hc Ho. rewrite body_classify, K, Ht.
  unfold parse_data_line, row_outcome in *. unfold_monad.
  rewrite floats_float_list.
  destruct (float_list (Py.split (Py.strip raw))) as [vs|];
    [|injection Ho as <-; reflexivity].
  destruct (4 <=? length vs)%nat; [|injection Ho as <-; reflexivity].
  rewrite Hc. unfold Py.getitem.
  destruct (vs !! id_idx c) as [[neg mag|neg|]|]; try discriminate.
  - destruct (vs !! x_idx c) as [x|]; [|discriminate].
    destruct (vs !! y_idx c) as [y|]; [|discriminate].
    destruct (vs !! z_idx c) as [z|]; [|discriminate].
    injection Ho as <-. unfold_monad. cbn. rewrite Hc. reflexivity.
  - injection Ho as <-. reflexivity.
Qed.

Lemma with_record_fields (st : State) (o : option (Z * list pyfloat)) :
  data (with_record st o) = data st /\
  current_timestep (with_record st o) = current_timestep st /\
  cur_box_bounds (with_record st o) = cur_box_bounds st /\
  cols (with_record st o) = cols st /\
  current_data (with_record st o)
    = current_data st ++ map snd (option_list o) /\
  cur_atom_ids (with_record st o)
    = cur_atom_ids st ++ map fst (option_list o).
Proof.
  destruct o as [[i p]|]; simpl; rewrite ?app_nil_r; auto 10.
Qed.

(** The data lines of a block. *)
Lemma rows_step (c : Columns) (rows rest : list string) (st : State) (t : Z) :
  forallb (fun raw =>
             match classify raw with KData => true | _ => false end &&
             match row_outcome c raw with Some _ => true | None => false end)
          rows = true ->
  current_timestep st = Some t ->
  cols st = Some c ->
  exists st',
    run st (rows ++ rest) = run st' rest /\
    data st' = data st /\ current_timestep st' = Some t /\
    cur_box_bounds st' = cur_box_bounds st /\ cols st' = Some c /\
    current_data st' = current_data st ++
      map snd (omap (fun raw => default None (row_outcome c raw)) rows) /\
    cur_atom_ids st' = cur_atom_ids st ++
      map fst (omap (fun raw => default None (row_outcome c raw)) rows).
Proof.
  revert st. induction rows as [|raw rows IH]; intros st H Ht Hc.
  - exists st. cbn. rewrite !app_nil_r. auto 10.
  - cbn [forallb] in H. apply andb_prop in H as [Hraw H].
    apply andb_prop in Hraw as [K Ho].
    destruct (classify raw) eqn:Ek; try discriminate K.
    destruct (row_outcome c raw) as [o|] eqn:Eo; [|discriminate Ho].
    cbn [app]. rewrite run_cons.
    rewrite (row_step st raw (rows ++ rest) t c o Ek Ht Hc Eo).
    destruct (with_record_fields st o) as (Hd & Ht' & Hb & Hc' & Hcd & Hid).
    destruct (IH (with_record st o) H) as (st' & E & Hd1 & Ht1 & Hb1 & Hc1 & Hcd1 & Hid1);
      [congruence|congruence|].
    exists st'. split; [exact E|].
    cbn [omap list_omap]. rewrite Eo. cbn [default].
    rewrite Hd1, Hb1, Hcd1, Hid1, Hd, Hb, Hcd, Hid.
    repeat split; try assumption;
      destruct o as [[i p]|]; cbn; rewrite <- ?app_assoc, ?app_nil_r; reflexivity.
Qed.

Lemma state_eq (st st' : State) :
  data st = data st' -> current_timestep st = current_timestep st' ->
  current_data st = current_data st' ->
  cur_box_bounds st = cur_box_bounds st' ->
  cur_atom_ids st = cur_atom_ids st' -> cols st = cols st' ->
  st = st'.
Proof. destruct st, st'; simpl; intros; subst; reflexivity. Qed.

(** The reader over one block. *)
Lemma block_step (b : Block) (rest : list string) (st : State) :
  block_ok b = true ->
  run st (render b ++ rest) = run (after_block st b) rest.
Proof.
  unfold block_ok. intros H.
  apply andb_prop in H as [H Hrows]. apply andb_prop in H as [H Hatoms].
  apply andb_prop in H as [H Hbounds]. apply andb_prop in H as [Hts Hcount].
  unfold render, after_block, blk_box.
  destruct (int_of_string (blk_timestep b)) as [t|] eqn:Et; [|discriminate].
  cbn [default]. cbn [app].
  rewrite run_cons, body_classify.
  change (classify (ln "ITEM: TIMESTEP")) with KTimestep. cbv iota.
  rewrite Et.
  (* NUMBER OF ATOMS *)
  assert (forall st0 more,
            run st0 (match blk_count b with
                     | Some c => [ln "ITEM: NUMBER OF ATOMS"; c]
                     | None => []
                     end ++ more) = run st0 more) as Hc.
  { intros st0 more. destruct (blk_count b) as [c|]; [|reflexivity].
    cbn [app]. rewrite run_cons, body_classify.
    change (classify (ln "ITEM: NUMBER OF ATOMS")) with KOther. cbv iota.
    rewrite run_cons, count_line_skipped by exact Hcount. reflexivity. }
  rewrite <- !app_assoc. rewrite Hc. clear Hc. cbn [app]. unfold id.
  (* BOX BOUNDS *)
  set (st1 := with_timestep st t).
  assert (exists st2,
            run st1 (match blk_bounds b with
                     | Some (m, l) => m :: l
                     | None => []
                     end ++ blk_atoms b :: blk_header b :: blk_rows b ++ rest)
            = run st2 (blk_atoms b :: blk_header b :: blk_rows b ++ rest) /\
            st2 = {| data := flush st; current_timestep := Some t;
                     current_data := []; 
                     cur_box_bounds :=
                       match blk_bounds b with
                       | Some (_, l) => parsed_bounds l
                       | None => cur_box_bounds st
                       end;
                     cur_atom_ids := []; cols := cols st |})
    as (st2 & -> & E2).
  { destruct (blk_bounds b) as [[m l]|]; [|exists st1; split; reflexivity].
    apply andb_prop in Hbounds as [Hb Hp]. apply andb_prop in Hb as [Km Hl].
    destruct (classify m) eqn:Ek; try discriminate Km.
    apply Nat.eqb_eq in Hl.
    destruct (parsed_bounds l) as [bb|] eqn:Ep; [|discriminate Hp].
    cbn [app]. rewrite run_cons, body_classify, Ek.
    rewrite (read_bounds_parsed 3 l _ bb Hl Ep).
    eexists. split; reflexivity. }
  (* ATOMS *)
  destruct (classify (blk_atoms b)) eqn:Ka; try discriminate Hatoms.
  rewrite run_cons, body_classify, Ka.
  fold (blk_columns b).
  destruct (rows_step (blk_columns b) (blk_rows b) rest
              (with_columns st2 (blk_columns b)) t Hrows)
    as (st' & -> & Hd & Ht & Hb & Hcl & Hcd & Hid);
    [subst st2; reflexivity|reflexivity|].
  f_equal. apply state_eq; cbn; subst st2; cbn in *; assumption.
Qed.

Lemma truthy_map {A B} (g : A -> B) (l : list A) :
  truthy (map g l) = truthy l.
Proof. destruct l; reflexivity. Qed.

Lemma blocks_step (bs : list Block) (st : State) :
  forallb block_ok bs = true ->
  exists st',
    run st (concat (map render bs)) = inr st' /\
    flush st' = flush st ++ snapshots_from (cur_box_bounds st) bs.
Proof.
  revert st. induction bs as [|b bs IH]; intros st H.
  - exists st. split; [reflexivity|]. cbn. rewrite app_nil_r. reflexivity.
  - cbn [forallb] in H. apply andb_prop in H as [Hb H].
    cbn [map concat]. rewrite (block_step b _ st Hb).
    destruct (IH (after_block st b) H) as (st' & E & Hf).
    exists st'. split; [exact E|]. rewrite Hf.
    cbn [snapshots_from]. rewrite app_assoc. f_equal.
    unfold flush at 1, after_block. cbn. rewrite truthy_map.
    destruct (truthy (blk_records b)); [reflexivity|rewrite app_nil_r; reflexivity].
Qed.



(** ** Snapshots that the reader loses *)

(** On a dump made of blocks the timesteps returned are those of the
    blocks that have a record, in the order of the blocks, duplicates
    kept. *)
Lemma snapshots_from_timesteps (carried : option (list (list pyfloat)))
    (bs : list Block) :
  map timestep (snapshots_from carried bs) = map blk_time (List.filter has_record bs).
Proof.
  revert carried. induction bs as [|b bs IH]; intros carried; [reflexivity|].
  cbn [snapshots_from List.filter]. rewrite map_app, IH.
  unfold has_record at 2. destruct (truthy (blk_records b)); reflexivity.
Qed.

Lemma timesteps_of_blocks (bs : list Block) :
  forallb block_ok bs = true ->
  returned_timesteps (concat (map render bs))
    = inr (map blk_time (List.filter has_record bs)).
Proof.
  intros H. destruct (blocks_step bs init_state H) as (st' & E & Hf).
  unfold returned_timesteps, read_dump_voro.
  fold (run init_state (concat (map render bs))).
  rewrite E. unfold_monad. rewrite Hf. cbn [app flush init_state].
  f_equal. apply snapshots_from_timesteps.
Qed.

(** C7 (the claim fails on the code): a well-formed snapshot with a
    single particle is not returned, since its only particle line is
    taken as the header of the ATOMS section.  Two such snapshots,
    declared at 0 and 100, give the empty sequence; one between two
    snapshots of two particles, declared at 100, is absent from the
    sequence returned, which holds 0 and 200. *)
Theorem single_particle_snapshots_lost :
  declared_timesteps two_single_particles = [0; 100] /\
  returned_timesteps two_single_particles = inr [] /\
  declared_timesteps single_particle_between = [0; 100; 200] /\
  returned_timesteps single_particle_between = inr [0; 200].
Proof. vm_compute. auto. Qed.

(** * Further properties of [extract_stress_strain_data.py] *)

Module ExtractMore.
Import Extract ExtractSpec.

Lemma direction_cases (d key : string) :
  stress_component d = inr key -> d = "x" \/ d = "y" \/ d = "z".
Proof.
  unfold stress_component.
  destruct (String.eqb_spec d "x"); [auto|].
  destruct (String.eqb_spec d "y"); [auto|].
  destruct (String.eqb_spec d "z"); [auto|]. discriminate.
Qed.

(** ** The script never fails *)

(** Whatever the log, and also when it is missing, the script ends with
    exit status 0; it writes its table, the header line and one line per
    row, exactly when the extraction returned at least one row. *)
Theorem script_never_fails (contents : option (list string)) :
  exit_status (script contents) = 0 /\
  exists out data,
    extract_stress_strain_data "lammps.log" contents "z" = inr (out, data) /\
    output_file (script contents) =
      match data with
      | Some (r :: rows) => Some (table_header :: map row_line (r :: rows))
      | _ => None
      end.
Proof.
  unfold script.
  destruct (extract_stress_strain_data "lammps.log" contents "z")
    as [e|[out data]] eqn:E.
  - exfalso. unfold extract_stress_strain_data in E.
    change (stress_component "z") with (@inr exn string "Pzz") in E.
    unfold_monad. cbv beta iota in E.
    destruct contents as [f|]; [|discriminate].
    destruct (for_lines "z" "Pzz" init_state f) as [st [e'|]]; [discriminate|].
    destruct (negb (header_line_found st)); discriminate.
  - destruct data as [[|r rows]|]; simpl; split; try reflexivity;
      eexists _, _; (split; [reflexivity|]); reflexivity.
Qed.

(** ** The first row *)

Lemma strain_of_none (L : pyfloat) {A} (g : A -> pyfloat) :
  strain_of L (g <$> None) = inl TypeError.
Proof. reflexivity. Qed.

Lemma parse_row_reference (d key : string) (st st' : State)
    (values : list string) :
  d = "x" \/ d = "y" \/ d = "z" ->
  starts_at_reference st ->
  parse_row d key st values = inr st' ->
  starts_at_reference st'.
Proof.
  intros Hd J. unfold parse_row. unfold_monad.
  destruct (field st values "Step") as [|s0]; [discriminate|].
  destruct (str_to_int s0) as [|step]; [discriminate|].
  destruct (field st values key) as [|s1]; [discriminate|].
  destruct (str_to_float s1) as [|stress_value]; [discriminate|].
  destruct (field st values "Lx") as [|s2]; [discriminate|].
  destruct (str_to_float s2) as [|Lx]; [discriminate|].
  destruct (field st values "Ly") as [|s3]; [discriminate|].
  destruct (str_to_float s3) as [|Ly]; [discriminate|].
  destruct (field st values "Lz") as [|s4]; [discriminate|].
  destruct (str_to_float s4) as [|Lz]; [discriminate|].
  unfold starts_at_reference in *.
  destruct (Z.eqb_spec step 0) as [->|Hstep].
  - intros [= <-]. simpl. destruct (stress_strain_data st); [reflexivity|exact J].
  - destruct (stress_strain_data st) as [|r rows] eqn:Ed.
    + rewrite J.
      destruct Hd as [->|[->| ->]]; simpl; discriminate.
    + match goal with
      | |- match ?m with inl _ => _ | inr _ => _ end = _ -> _ =>
          destruct m as [|[init' strain]]; [discriminate|]
      end.
      intros [= <-]. simpl. exact J.
Qed.

Lemma body_reference (d key : string) (st st' : State) (raw : string) :
  d = "x" \/ d = "y" \/ d = "z" ->
  starts_at_reference st ->
  body d key st raw = inr st' ->
  starts_at_reference st'.
Proof.
  intros Hd J. unfold body.
  destruct (negb (header_line_found st) && match_Step (Py.strip raw)).
  - destruct (forallb _ _); intros [= <-]; exact J.
  - destruct (header_line_found st && _); [|intros [= <-]; exact J].
    destruct (parse_row d key st (Py.split (Py.strip raw))) as [e|st1] eqn:E.
    + destruct e; simpl; try discriminate; intros [= <-]; exact J.
    + simpl. intros [= <-]. eapply parse_row_reference; eauto.
Qed.

Lemma for_lines_reference (d key : string) (f : list string) (st : State) :
  d = "x" \/ d = "y" \/ d = "z" ->
  starts_at_reference st ->
  starts_at_reference (for_lines d key st f).1.
Proof.
  intros Hd. revert st. induction f as [|raw f IH]; intros st J; [exact J|].
  simpl. destruct (body d key st raw) as [e|st1] eqn:E; [exact J|].
  apply IH. eapply body_reference; eauto.
Qed.

(** A table that [extract_stress_strain_data] returns starts at the
    reference state: its first row has step 0 and strain 0.0.  (A row
    with another step that comes before any row of step 0 ends the
    extraction with [None].) *)
Theorem first_row_is_reference (log_file : string) (f : list string)
    (loading_direction : string) (out : list string) (r : Row)
    (rows : list Row) :
  extract_stress_strain_data log_file (Some f) loading_direction
    = inr (out, Some (r :: rows)) ->
  r.1 = (0, Finite false 0).
Proof.
  unfold extract_stress_strain_data. unfold_monad.
  destruct (stress_component loading_direction) as [|key] eqn:Ek; [discriminate|].
  apply direction_cases in Ek.
  pose proof (for_lines_reference loading_direction key f init_state Ek eq_refl) as J.
  destruct (for_lines loading_direction key init_state f) as [st [e|]];
    [discriminate|].
  destruct (negb (header_line_found st)); [discriminate|].
  intros [= _ E]. unfold starts_at_reference in J. simpl in J.
  rewrite E in J. exact J.
Qed.

Lemma first_row_is_reference_witness :
  exists out r rows,
    extract_stress_strain_data "lammps.log" (Some log_with_table) "z"
      = inr (out, Some (r :: rows)) /\
    r.1 = (0, Finite false 0).
Proof.
  eexists _, _, _.
  assert (extract_stress_strain_data "lammps.log" (Some log_with_table) "z"
          = inr (_, Some (_ :: _))) as H by (vm_compute; reflexivity).
  split; [exact H|].
  exact (first_row_is_reference _ _ _ _ _ _ H).
Defined.

(** ** A repeated header *)

Lemma log_lines_app (d key : string) (f g : list string) (st : State) :
  for_lines d key st (f ++ g) =
  match for_lines d key st f with
  | (st', None) => for_lines d key st' g
  | r => r
  end.
Proof.
  revert st. induction f as [|raw f IH]; intros st; [reflexivity|].
  simpl. destruct (body d key st raw); [reflexivity|apply IH].
Qed.

Lemma index_contains (x : string) (l : list string) :
  Py.contains x l = true -> exists i, Py.index x l = Some i /\ l !! i = Some x.
Proof.
  unfold Py.contains. induction l as [|y l IH]; simpl; [discriminate|].
  destruct (String.eqb_spec x y) as [->|Hne].
  - intros _. exists 0%nat. auto.
  - simpl. intros H. destruct (IH H) as (i & -> & Hi).
    exists (S i). auto.
Qed.

Lemma store_indices_lookup (hdr keys : list string) (m : gmap string nat)
    (k : string) :
  store_indices hdr keys m !! k =
  match Py.index k hdr with
  | Some i => if Py.contains k keys then Some i else m !! k
  | None => m !! k
  end.
Proof.
  unfold store_indices. revert m. induction keys as [|key keys IH]; intros m.
  - simpl. destruct (Py.index k hdr); reflexivity.
  - simpl foldl. rewrite IH. unfold Py.contains. simpl existsb.
    fold (Py.contains k keys).
    destruct (String.eqb_spec k key) as [<-|Hne].
    + destruct (Py.index k hdr) as [i|]; [|reflexivity].
      simpl. rewrite lookup_insert_eq. destruct (Py.contains k keys); reflexivity.
    + assert (match Py.index key hdr with
              | Some i => <[key:=i]> m
              | None => m
              end !! k = m !! k) as ->.
      { destruct (Py.index key hdr); [|reflexivity].
        apply lookup_insert_ne. congruence. }
      reflexivity.
Qed.

Lemma header_accepted (d key : string) (st : State) (hdr : string) :
  header_line_found st = false -> is_header key hdr = true ->
  exists st1, body d key st hdr = inr st1 /\
    header_known (Py.split (Py.strip hdr)) st1.
Proof.
  unfold is_header, body. intros Hf [Hm Hk]%andb_prop.
  rewrite Hf, Hm, Hk. cbn [negb andb]. eexists. split; [reflexivity|].
  split; [reflexivity|]. split; [reflexivity|].
  cbn [forallb] in Hk. apply andb_prop in Hk as [Hs _].
  destruct (index_contains _ _ Hs) as (i & Ei & Hi).
  exists i. split; [|exact Hi]. cbn [header_indices].
  rewrite !store_indices_lookup, Ei. reflexivity.
Qed.

Lemma parse_row_header (d key : string) (st st' : State) (values : list string) :
  parse_row d key st values = inr st' ->
  header_line_found st' = header_line_found st /\ header st' = header st /\
  header_indices st' = header_indices st.
Proof.
  unfold parse_row. unfold_monad.
  repeat match goal with
         | |- match ?m with inl _ => _ | inr _ => _ end = _ -> _ =>
             destruct m as [|?]; [discriminate|]
         | |- (let '(_, _) := ?p in _) = _ -> _ => destruct p
         end.
  intros [= <-]. auto.
Qed.

Lemma body_header_known (d key : string) (hdr : list string) (st st' : State)
    (raw : string) :
  header_known hdr st -> body d key st raw = inr st' -> header_known hdr st'.
Proof.
  intros (Hf & Hh & Hi). unfold body. rewrite Hf. simpl.
  destruct (_ =? _)%nat; [|intros [= <-]; split; auto].
  destruct (parse_row d key st (Py.split (Py.strip raw))) as [e|st1] eqn:E.
  - destruct e; simpl; try discriminate; intros [= <-]; split; auto.
  - simpl. intros [= <-]. apply parse_row_header in E as (E1 & E2 & E3).
    unfold header_known. rewrite E1, E2, E3. auto.
Qed.

Lemma for_lines_header_known (d key : string) (hdr : list string)
    (f : list string) (st : State) :
  header_known hdr st -> header_known hdr (for_lines d key st f).1.
Proof.
  revert st. induction f as [|raw f IH]; intros st K; [exact K|].
  simpl. destruct (body d key st raw) as [e|st1] eqn:E; [exact K|].
  apply IH. eapply body_header_known; eauto.
Qed.

Lemma body_repeated_header (d key : string) (st : State) (raw : string) :
  header_known (Py.split (Py.strip raw)) st -> body d key st raw = inr st.
Proof.
  intros (Hf & Hh & i & Hi & Hs). unfold body. rewrite Hf, Hh, Nat.eqb_refl.
  simpl. unfold parse_row, field. rewrite Hi. unfold Py.getitem. rewrite Hs.
  reflexivity.
Qed.

(** Once the header of the thermo table is accepted, a later line with
    the same columns, such as the header that LAMMPS prints again for a
    second run, is passed over: the result is the one of the log without
    that line. *)
Theorem repeated_header_ignored (log_file d key : string)
    (pre mid rest : list string) (hdr raw : string) :
  stress_component d = inr key ->
  no_header key pre = true ->
  is_header key hdr = true ->
  Py.split (Py.strip raw) = Py.split (Py.strip hdr) ->
  extract_stress_strain_data log_file
      (Some (pre ++ hdr :: mid ++ raw :: rest)) d =
  extract_stress_strain_data log_file (Some (pre ++ hdr :: mid ++ rest)) d.
Proof.
  intros Hk Hpre Hhdr Hraw. unfold extract_stress_strain_data.
  rewrite Hk. unfold_monad.
  enough (for_lines d key init_state (pre ++ hdr :: mid ++ raw :: rest) =
          for_lines d key init_state (pre ++ hdr :: mid ++ rest)) as ->
    by reflexivity.
  rewrite !log_lines_app.
  destruct (ExtractFacts.for_lines_no_header d key pre init_state eq_refl Hpre)
    as (st0 & -> & Hf0 & _).
  simpl. destruct (header_accepted d key st0 hdr Hf0 Hhdr) as (st1 & -> & K).
  rewrite !log_lines_app.
  pose proof (for_lines_header_known d key _ mid st1 K) as K2.
  destruct (for_lines d key st1 mid) as [st2 [e|]]; [reflexivity|].
  simpl in K2. simpl. rewrite <- Hraw in K2.
  rewrite (body_repeated_header d key st2 raw K2). reflexivity.
Qed.

Lemma repeated_header_ignored_witness :
  extract_stress_strain_data "lammps.log" (Some log_with_table) "z" =
  extract_stress_strain_data "lammps.log"
    (Some (take 4 log_with_table ++ drop 5 log_with_table)) "z".
Proof.
  apply (repeated_header_ignored "lammps.log" "z" "Pzz"
           (take 1 log_with_table) (take 2 (drop 2 log_with_table))
           (drop 5 log_with_table) (ln "Step Temp Pzz Lx Ly Lz")
           (ln "Step Temp Pzz Lx Ly Lz")); reflexivity.
Defined.

(** ** An unknown loading direction *)

(** With a loading direction other than x, y and z,
    [extract_stress_strain_data] raises [KeyError] before it opens the
    log, whereas [write_stress_strain_data] catches the same error and
    writes no file. *)
Theorem unknown_direction (log_file out_file d : string)
    (contents : option (list string)) (data : option (list Row)) :
  d <> "x" -> d <> "y" -> d <> "z" ->
  extract_stress_strain_data log_file contents d = inl KeyError /\
  (write_stress_strain_data data out_file d).2 = None.
Proof.
  intros Hx Hy Hz.
  assert (stress_component d = inl KeyError) as E.
  { unfold stress_component.
    apply String.eqb_neq in Hx, Hy, Hz. rewrite Hx, Hy, Hz. reflexivity. }
  unfold extract_stress_strain_data, write_stress_strain_data. rewrite E.
  split; [reflexivity|]. destruct data as [[|r rows]|]; reflexivity.
Qed.

Lemma unknown_direction_witness :
  extract_stress_strain_data "lammps.log" (Some log_with_table) "w"
    = inl KeyError /\
  (write_stress_strain_data (Some [(0, Finite false 0, Finite false 1)])
     "stress_strain_data.txt" "w").2 = None.
Proof. apply unknown_direction; discriminate. Defined.

End ExtractMore.


(** * Further properties of [read_lammps_dump] *)

Module DislocationsMore.
Import Dislocations DislocationsSpec.

Ltac split_marker H :=
  unfold is_marker_line in H;
  let H1 := fresh "H1" in let H2 := fresh "H2" in
  let H3 := fresh "H3" in let H4 := fresh "H4" in
  apply orb_false_elim in H as [H H4];
  apply orb_false_elim in H as [H H3];
  apply orb_false_elim in H as [H1 H2].

(** ** The target timesteps only filter *)

Lemma save_restrict (ts : list Z) (st : State) :
  save (Some ts) (restrict ts st) =
  filter (fun kv => kv.1 ∈ ts) (save None st).
Proof.
  unfold save, restrict. simpl.
  destruct (current_timestep st) as [t|]; [|reflexivity].
  destruct (0 <? atoms_read st)%nat; [|reflexivity].
  destruct (bool_decide_reflect (t ∈ ts)) as [Hin|Hnin].
  - symmetry. apply map_filter_insert_True. exact Hin.
  - symmetry. apply map_filter_insert_not. intros y. exact Hnin.
Qed.

Lemma body_restrict (ts : list Z) (st : State) (line : string)
    (f : list string) :
  body (Some ts) (restrict ts st) line f =
  match body None st line f with
  | inl e => inl e
  | inr (st', f') => inr (restrict ts st', f')
  end.
Proof.
  unfold body.
  destruct (Py.has_substring "ITEM: TIMESTEP" line).
  { rewrite save_restrict. unfold_monad.
    destruct (next f) as [|[v f1]]; [reflexivity|].
    destruct (str_to_int v); reflexivity. }
  destruct (Py.has_substring "ITEM: NUMBER OF ATOMS" line).
  { unfold_monad. destruct (next f) as [|[v f1]]; [reflexivity|].
    destruct (str_to_int v); reflexivity. }
  destruct (Py.has_substring "ITEM: BOX BOUNDS" line).
  { unfold_monad. destruct (read_bounds 3 f) as [|[bb f1]]; reflexivity. }
  destruct (Py.has_substring "ITEM: ATOMS" line); [reflexivity|].
  change (reading_atoms (restrict ts st)) with (reading_atoms st).
  destruct (reading_atoms st); [|reflexivity].
  rewrite !DislocationsFacts.parse_atom_line_fields.
  destruct (fields line) as [[]|[a|]]; reflexivity.
Qed.

Lemma for_lines_restrict (ts : list Z) (n : nat) (st : State)
    (f : list string) :
  for_lines (Some ts) n (restrict ts st) f =
  match for_lines None n st f with
  | inl e => inl e
  | inr st' => inr (restrict ts st')
  end.
Proof.
  revert st f. induction n as [|n IH]; intros st [|line f]; try reflexivity.
  simpl. unfold_monad. rewrite body_restrict.
  destruct (body None st line f) as [|[st1 f1]]; [reflexivity|].
  apply IH.
Qed.

(** Reading with a list of target timesteps gives the dict read without
    one, cut down to the keys of the list; the errors are the same. *)
Theorem target_timesteps_filter (f : list string) (ts : list Z) :
  read_lammps_dump f (Some ts) =
  match read_lammps_dump f None with
  | inl e => inl e
  | inr m => inr (filter (fun kv => kv.1 ∈ ts) m)
  end.
Proof.
  unfold read_lammps_dump. unfold_monad.
  assert (init_state = restrict ts init_state) as E.
  { unfold restrict, init_state. simpl. rewrite map_filter_empty. reflexivity. }
  rewrite E at 1. rewrite for_lines_restrict.
  destruct (for_lines None (length f) init_state f) as [|st]; [reflexivity|].
  rewrite save_restrict. reflexivity.
Qed.

(** ** The frames *)

Lemma np_array_len (l : list Z) : np_len (np_array_of_ints l) = length l.
Proof.
  unfold np_len, np_array_of_ints. destruct l as [|z l]; [reflexivity|].
  destruct (forallb fits_int64 (z :: l)); [apply length_map|].
  destruct (forallb fits_uint64 (z :: l)); [apply length_map|].
  destruct (forallb _ (z :: l)); simpl; rewrite !length_map; reflexivity.
Qed.

Lemma save_ok (tt : option (list Z)) (st : State) :
  lists_agree st -> map_Forall (fun _ fr => frame_ok fr) (save tt st).
Proof.
  intros (Hd & Hp & Ht & Hc & H3 & Hb). unfold save.
  destruct (current_timestep st) as [t|]; [|exact Hd].
  destruct (Nat.ltb_spec 0 (atoms_read st)) as [Hn|Hn]; [|exact Hd].
  destruct (match tt with Some ts => bool_decide (t ∈ ts) | None => true end);
    [|exact Hd].
  apply map_Forall_insert_2; [|exact Hd].
  unfold frame_ok. cbn [positions types csp box_bounds].
  rewrite np_array_len. repeat split; try assumption; lia.
Qed.

Lemma fields_coords (line : string) (a : Z * list pyfloat * pyfloat) :
  fields line = inr (Some a) -> length a.1.2 = 3%nat.
Proof.
  unfold fields. unfold_monad.
  destruct (Nat.leb_spec 11 (length (Py.split line))) as [Hlen|Hlen];
    [|discriminate].
  destruct (Py.getitem (Py.split line) 0) as [|p0]; [discriminate|].
  destruct (str_to_int p0); [discriminate|].
  destruct (Py.getitem (Py.split line) 1) as [|p1]; [discriminate|].
  destruct (str_to_int p1); [discriminate|].
  destruct (floats (take 3 (drop 2 (Py.split line)))) as [|xyz] eqn:Ex;
    [discriminate|].
  destruct (Py.getitem (Py.split line) 10) as [|p10]; [discriminate|].
  destruct (str_to_float p10); [discriminate|].
  intros [= <-]. simpl. apply floats_length in Ex.
  rewrite length_take, length_drop in Ex. lia.
Qed.

Lemma body_agree (tt : option (list Z)) (st st' : State) (line : string)
    (f f' : list string) :
  lists_agree st -> body tt st line f = inr (st', f') -> lists_agree st'.
Proof.
  intros Hok. pose proof Hok as (Hd & Hp & Ht & Hc & H3 & Hb). unfold body.
  destruct (Py.has_substring "ITEM: TIMESTEP" line).
  { unfold_monad. destruct (next f) as [|[v f1]]; [discriminate|].
    destruct (str_to_int v); [discriminate|]. intros [= <- _].
    unfold lists_agree. simpl. split; [apply save_ok, Hok|].
    repeat split; auto. }
  destruct (Py.has_substring "ITEM: NUMBER OF ATOMS" line).
  { unfold_monad. destruct (next f) as [|[v f1]]; [discriminate|].
    destruct (str_to_int v); [discriminate|]. intros [= <- _]. exact Hok. }
  destruct (Py.has_substring "ITEM: BOX BOUNDS" line).
  { unfold_monad. destruct (read_bounds 3 f) as [|[bb f1]] eqn:E; [discriminate|].
    intros [= <- _]. apply DislocationsFacts.read_bounds_pairs in E.
    unfold lists_agree. simpl. split; [exact Hd|].
    repeat split; auto; apply E. }
  destruct (Py.has_substring "ITEM: ATOMS" line).
  { intros [= <- _]. exact Hok. }
  destruct (reading_atoms st); [|intros [= <- _]; exact Hok].
  rewrite DislocationsFacts.parse_atom_line_fields.
  destruct (fields line) as [e|[a|]] eqn:E.
  - apply DislocationsFacts.fields_error in E as [-> | ->]; simpl;
      intros [= <- _]; exact Hok.
  - simpl. intros [= <- _]. apply fields_coords in E.
    unfold lists_agree. simpl. rewrite !length_app. simpl.
    split; [exact Hd|]. repeat split; try lia; try assumption.
    apply Forall_app. split; [assumption|]. constructor; [exact E|constructor].
  - simpl. intros [= <- _]. exact Hok.
Qed.

Lemma for_lines_agree (tt : option (list Z)) (n : nat) (st st' : State)
    (f : list string) :
  lists_agree st -> for_lines tt n st f = inr st' -> lists_agree st'.
Proof.
  revert st f. induction n as [|n IH]; intros st [|line f] Hok; simpl;
    try (intros [= <-]; exact Hok).
  unfold_monad. destruct (body tt st line f) as [|[st1 f1]] eqn:E; [discriminate|].
  apply IH. eapply body_agree; eauto.
Qed.

(** Every frame that [read_lammps_dump] returns has at least one atom,
    as many types and csp values as positions, three coordinates per
    position and, if it has a box, a box of three pairs of bounds. *)
Theorem read_lammps_dump_frames (f : list string) (tt : option (list Z))
    (m : gmap Z Frame) :
  read_lammps_dump f tt = inr m -> map_Forall (fun _ fr => frame_ok fr) m.
Proof.
  unfold read_lammps_dump. unfold_monad.
  destruct (for_lines tt (length f) init_state f) as [|st] eqn:E; [discriminate|].
  intros [= <-]. apply save_ok. eapply for_lines_agree; [|exact E].
  unfold lists_agree, init_state. simpl.
  split; [apply map_Forall_empty|]. repeat split; auto.
Qed.

Lemma read_lammps_dump_frames_witness :
  map_Forall (fun _ fr => frame_ok fr)
    (default ∅ (match read_lammps_dump csp_dump None with
                | inr m => Some m | _ => None end)).
Proof.
  apply (read_lammps_dump_frames csp_dump None). vm_compute. reflexivity.
Defined.

(** ** Lines outside an ATOMS section *)

Lemma line_ignored (tt : option (list Z)) (st : State) (line : string)
    (f : list string) :
  is_marker_line line = false -> reading_atoms st = false ->
  body tt st line f = inr (st, f).
Proof.
  intros Hm Hr. split_marker Hm. unfold body.
  rewrite H1, H2, H3, H4, Hr. reflexivity.
Qed.

Lemma rows_ignored (tt : option (list Z)) (n : nat) (rows : list string)
    (st : State) :
  no_marker_line rows = true -> reading_atoms st = false ->
  for_lines tt n st rows = inr st.
Proof.
  revert rows. induction n as [|n IH]; intros [|line rows] Hm Hr; try reflexivity.
  simpl in Hm. apply andb_prop in Hm as [Hl Hm]. apply negb_true_iff in Hl.
  simpl. rewrite (line_ignored tt st line rows Hl Hr). unfold_monad.
  apply IH; assumption.
Qed.

(** A file with no marker line gives the empty dict, and no error,
    whatever its lines hold. *)
Theorem no_marker_no_frame (f : list string) (tt : option (list Z)) :
  no_marker_line f = true -> read_lammps_dump f tt = inr ∅.
Proof.
  intros H. unfold read_lammps_dump.
  rewrite (rows_ignored tt (length f) f init_state H eq_refl). reflexivity.
Qed.

Lemma no_marker_no_frame_witness :
  read_lammps_dump two_csp_rows None = inr ∅.
Proof. apply (no_marker_no_frame two_csp_rows None). reflexivity. Defined.

(** ** The declared number of atoms *)

Lemma rows_read (tt : option (list Z)) (e : Z) (rows : list string)
    (atoms : list (Z * list pyfloat * pyfloat)) (n : nat) (st : State) :
  Forall2 (fun l a => fields l = inr (Some a)) rows atoms ->
  no_marker_line rows = true ->
  reading_atoms st = true -> atoms_expected st = Some e ->
  (length rows <= n)%nat ->
  let kept := take (Z.to_nat (Z.max 1 (e - Z.of_nat (atoms_read st)))) atoms in
  exists st',
    for_lines tt n st rows = inr st' /\
    data st' = data st /\ current_timestep st' = current_timestep st /\
    cur_box_bounds st' = cur_box_bounds st /\
    cur_positions st' = cur_positions st ++ map (fun a => a.1.2) kept /\
    cur_types st' = cur_types st ++ map (fun a => a.1.1) kept /\
    cur_csp st' = cur_csp st ++ map (fun a => a.2) kept /\
    atoms_read st' = (atoms_read st + length kept)%nat.
Proof.
  intros Hf. revert n st.
  induction Hf as [|line a rows atoms Hl _ IH]; intros n st Hm Hr He Hn kept.
  - exists st. subst kept. rewrite take_nil. simpl. rewrite !app_nil_r.
    destruct n; repeat split; auto.
  - simpl in Hm. apply andb_prop in Hm as [Hml Hm].
    apply negb_true_iff in Hml. pose proof Hml as Hml'. split_marker Hml.
    destruct n as [|n]; [simpl in Hn; lia|]. simpl in Hn.
    simpl for_lines. unfold body. rewrite H1, H2, H3, H4, Hr.
    rewrite DislocationsFacts.parse_atom_line_fields, Hl. unfold_monad.
    cbn [except_Value_Index].
    destruct (Z.leb_spec e (Z.of_nat (S (atoms_read st)))) as [Hle|Hgt].
    + assert (reading_atoms (add_atom st a) = false) as Hr'.
      { simpl. rewrite He. apply Z.leb_le in Hle. rewrite Hle. reflexivity. }
      rewrite (rows_ignored tt n rows _ Hm Hr').
      assert (kept = [a]) as ->.
      { subst kept.
        replace (Z.max 1 (e - Z.of_nat (atoms_read st))) with 1%Z by lia.
        simpl. rewrite take_0. reflexivity. }
      eexists. split; [reflexivity|]. simpl. repeat split; auto. lia.
    + assert (reading_atoms (add_atom st a) = true) as Hr'.
      { simpl. rewrite He. apply Z.leb_gt in Hgt. rewrite Hgt. exact Hr. }
      destruct (IH n (add_atom st a) Hm Hr' He ltac:(lia))
        as (st' & E & Hd & Ht & Hb & Hp & Hty & Hc & Hrd).
      exists st'. split; [exact E|].
      assert (kept = a :: take (Z.to_nat (Z.max 1
                (e - Z.of_nat (atoms_read (add_atom st a))))) atoms) as ->.
      { subst kept. simpl atoms_read.
        replace (Z.to_nat (Z.max 1 (e - Z.of_nat (atoms_read st))))
          with (S (Z.to_nat (Z.max 1 (e - Z.of_nat (S (atoms_read st))))))
          by lia.
        reflexivity. }
      rewrite Hd, Ht, Hb, Hp, Hty, Hc, Hrd. simpl.
      rewrite <- !app_assoc. simpl. repeat split; auto; lia.
Qed.

Lemma for_lines_step (tt : option (list Z)) (n : nat) (st : State)
    (line : string) (f : list string) :
  for_lines tt (S n) st (line :: f) =
  match body tt st line f with
  | inl e => inl e
  | inr (st', f') => for_lines tt n st' f'
  end.
Proof. reflexivity. Qed.

(** After the lines of a timestep and of a declared number [e] of atoms,
    only the first [e] atom lines of the section are kept, whatever
    follows them; with [e] below one, the first atom line is still kept.
    The atom lines are lines that convert, with no marker among them. *)
Theorem declared_count_truncates (tline nline hdr : string)
    (rows : list string) (atoms : list (Z * list pyfloat * pyfloat))
    (t e : Z) :
  int_of_string tline = Some t ->
  int_of_string nline = Some e ->
  is_atoms_line hdr = true ->
  no_marker_line rows = true ->
  converted rows = Some atoms ->
  read_lammps_dump
    (ln "ITEM: TIMESTEP" :: tline :: ln "ITEM: NUMBER OF ATOMS" :: nline
       :: hdr :: rows) None
  = inr (one_frame t (take (Z.to_nat (Z.max 1 e)) atoms)).
Proof.
  intros Ht He Hh Hm Hf. unfold is_atoms_line in Hh.
  apply mapM_Some in Hf.
  assert (Forall2 (fun l a => fields l = inr (Some a)) rows atoms) as Hf'.
  { eapply Forall2_impl; [exact Hf|]. intros l a.
    cbv beta. destruct (fields l) as [|[a'|]]; congruence. }
  clear Hf. rename Hf' into Hf.
  apply andb_prop in Hh as [Hh H4]. apply andb_prop in Hh as [Hh H3].
  apply andb_prop in Hh as [H1 H2].
  apply negb_true_iff in H1, H2, H3.
  unfold read_lammps_dump. cbn [length].
  assert (Py.has_substring "ITEM: TIMESTEP" (ln "ITEM: TIMESTEP") = true) as E1
    by reflexivity.
  assert (Py.has_substring "ITEM: TIMESTEP" (ln "ITEM: NUMBER OF ATOMS") = false)
    as E2 by reflexivity.
  assert (Py.has_substring "ITEM: NUMBER OF ATOMS" (ln "ITEM: NUMBER OF ATOMS")
          = true) as E3 by reflexivity.
  rewrite for_lines_step. unfold body at 1. rewrite E1. cbn [next].
  unfold_monad. cbv beta iota. unfold str_to_int at 1. rewrite Ht.
  unfold_monad. cbv beta iota.
  rewrite for_lines_step. unfold body at 1. rewrite E2, E3. cbn [next].
  unfold_monad. cbv beta iota. unfold str_to_int at 1. rewrite He.
  unfold_monad. cbv beta iota.
  rewrite for_lines_step. unfold body at 1. rewrite H1, H2, H3, H4.
  unfold_monad. cbv beta iota.
  match goal with
  | |- context [for_lines None ?n ?st rows] =>
      destruct (rows_read None e rows atoms n st Hf Hm eq_refl eq_refl
                  ltac:(simpl; lia))
        as (st' & -> & Hd & Hts & Hb & Hp & Hty & Hc & Hrd)
  end.
  simpl in Hd, Hts, Hb, Hp, Hty, Hc, Hrd.
  rewrite Z.sub_0_r in *.
  unfold save. rewrite Hts, Hrd, Hd, Hp, Hty, Hc, Hb.
  unfold one_frame.
  destruct (take (Z.to_nat (Z.max 1 e)) atoms) as [|a kept]; [reflexivity|].
  change (save None init_state) with (∅ : gmap Z Frame).
  cbn [length Nat.ltb Nat.leb]. rewrite insert_empty. reflexivity.
Qed.

Lemma declared_count_truncates_witness :
  read_lammps_dump
    (ln "ITEM: TIMESTEP" :: ln "0" :: ln "ITEM: NUMBER OF ATOMS" :: ln "1"
       :: ln "ITEM: ATOMS id type x y z c1 c2 c3 c4 c5 c_csp" :: two_csp_rows)
    None
  = inr (one_frame 0
      (take (Z.to_nat (Z.max 1 1)) (default [] (converted two_csp_rows)))).
Proof.
  apply declared_count_truncates; vm_compute; reflexivity.
Defined.

End DislocationsMore.


(** * Further properties of [export_frame_to_xyz] *)

Module ExportFacts.
Import Dislocations DislocationsSpec.

Lemma write_each_length {A} (w : A -> result string) (l : list A)
    (out : list string) :
  write_each w l = inr out -> length out = length l.
Proof.
  revert out. induction l as [|a l IH]; intros out; simpl; unfold_monad.
  - intros [= <-]. reflexivity.
  - destruct (w a); [discriminate|].
    destruct (write_each w l) as [|rest]; [discriminate|].
    intros [= <-]. simpl. f_equal. apply IH. reflexivity.
Qed.

Lemma xyz_rows_written (float_str : pyfloat -> string) (fr : Frame) :
  frame_ok fr ->
  exists rows,
    write_each (fun '(pos, t, c) => xyz_line float_str pos t c)
               (zip (zip (positions fr) (np_items (types fr))) (csp fr))
      = inr rows /\
    length rows = length (positions fr).
Proof.
  intros (_ & Ht & Hc & H3 & _).
  destruct (write_each_ok
              (fun '(pos, t, c) => xyz_line float_str pos t c)
              (zip (zip (positions fr) (np_items (types fr))) (csp fr)))
    as (rows & E).
  { apply Forall_forall. intros [[pos t] c] Hin.
    apply elem_of_zip_l, elem_of_zip_l in Hin.
    rewrite Forall_forall in H3. specialize (H3 _ Hin).
    unfold xyz_line, Py.getitem. unfold_monad.
    destruct pos as [|x [|y [|z [|? ?]]]]; simpl in H3; try lia.
    simpl. eauto. }
  exists rows. split; [exact E|].
  apply write_each_length in E. unfold np_len in Ht.
  rewrite E, !length_zip. lia.
Qed.



End ExportFacts.

(** ** A BOX BOUNDS section that is cut short *)

Module DislocationsTruncated.
Import Dislocations DislocationsSpec.

Lemma dump_read_bounds_app (k : nat) (f f' g : list string) bb :
  read_bounds k f = inr (bb, f') ->
  read_bounds k (f ++ g) = inr (bb, f' ++ g).
Proof.
  revert f f' bb. induction k as [|k IH]; intros f f' bb; simpl; unfold_monad.
  - intros [= <- <-]. reflexivity.
  - destruct f as [|l f1]; [discriminate|]. simpl.
    destruct (Py.getitem (Py.split l) 0) as [|b0]; [discriminate|].
    destruct (str_to_float b0) as [|lo]; [discriminate|].
    destruct (Py.getitem (Py.split l) 1) as [|b1]; [discriminate|].
    destruct (str_to_float b1) as [|hi]; [discriminate|].
    destruct (read_bounds k f1) as [|[rest f2]] eqn:E; [discriminate|].
    intros [= <- <-]. rewrite (IH _ _ _ E). reflexivity.
Qed.

(** An iteration that completes does the same when lines follow. *)
Lemma dump_body_app (tt : option (list Z)) (st st' : State) (line : string)
    (f f' g : list string) :
  body tt st line f = inr (st', f') ->
  body tt st line (f ++ g) = inr (st', f' ++ g).
Proof.
  unfold body.
  destruct (Py.has_substring "ITEM: TIMESTEP" line).
  { unfold_monad. destruct f as [|v f1]; [discriminate|]. simpl.
    destruct (str_to_int v); [discriminate|]. intros [= <- <-]. reflexivity. }
  destruct (Py.has_substring "ITEM: NUMBER OF ATOMS" line).
  { unfold_monad. destruct f as [|v f1]; [discriminate|]. simpl.
    destruct (str_to_int v); [discriminate|]. intros [= <- <-]. reflexivity. }
  destruct (Py.has_substring "ITEM: BOX BOUNDS" line).
  { unfold_monad. destruct (read_bounds 3 f) as [|[bb f1]] eqn:E; [discriminate|].
    intros [= <- <-]. rewrite (dump_read_bounds_app _ _ _ g _ E). reflexivity. }
  destruct (Py.has_substring "ITEM: ATOMS" line); [intros [= <- <-]; reflexivity|].
  destruct (reading_atoms st); [|intros [= <- <-]; reflexivity].
  unfold_monad. destruct (except_Value_Index st _); [discriminate|].
  intros [= <- <-]. reflexivity.
Qed.

(** A loop that completes on [f] continues on what follows [f]. *)
Lemma dump_run_app (tt : option (list Z)) (g : list string) (n : nat) :
  forall (f : list string) (st st' : State),
  (length f <= n)%nat ->
  run tt st f = inr st' -> run tt st (f ++ g) = run tt st' g.
Proof.
  induction n as [|n IH]; intros f st st' Hn H.
  - destruct f; [|simpl in Hn; lia]. injection H as <-. reflexivity.
  - destruct f as [|line f]; [injection H as <-; reflexivity|].
    rewrite DislocationsBlocks.dump_run_step in H.
    destruct (body tt st line f) as [|[st1 f1]] eqn:E; [discriminate|].
    change ((line :: f) ++ g) with (line :: (f ++ g)).
    rewrite DislocationsBlocks.dump_run_step, (dump_body_app _ _ _ _ _ _ g E).
    apply IH; [|exact H].
    apply DislocationsBlocks.body_rest in E. simpl in Hn. lia.
Qed.

Lemma str_to_float_error (s : string) (e : exn) :
  str_to_float s = inl e -> e = ValueError.
Proof.
  unfold str_to_float. destruct (float_of_string s); [discriminate|].
  intros [= <-]. reflexivity.
Qed.

(** [float] fails on the first token of a marker line. *)
Lemma marker_first_token (l : string) :
  is_marker l = true ->
  exists t ts, Py.split l = String "I" (String "T" t) :: ts.
Proof.
  intros H. destruct (marker_lstrip _ H) as [r Hr].
  rewrite <- split_lstrip, Hr.
  exact (split_cons2 "I" "T" ("EM:" ++ r)%string eq_refl eq_refl).
Qed.

Lemma dump_read_bounds_truncated (k : nat) (f : list string) :
  truncated k f = true ->
  read_bounds k f = inl ValueError \/ read_bounds k f = inl IndexError \/
  read_bounds k f = inl StopIteration.
Proof.
  unfold truncated. revert f. induction k as [|k IH]; intros f H.
  - rewrite take_0 in H. simpl in H. discriminate.
  - destruct f as [|l f]; [right; right; reflexivity|].
    simpl. unfold_monad.
    destruct (is_marker l) eqn:Hl.
    { destruct (marker_first_token _ Hl) as (t & ts & ->).
      cbn. unfold str_to_float. rewrite float_of_marker_token. auto. }
    simpl in H. rewrite Hl in H. simpl in H.
    destruct (Py.getitem (Py.split l) 0) as [e|b0] eqn:E0.
    { apply getitem_index_error in E0. subst e. auto. }
    destruct (str_to_float b0) as [e|lo] eqn:F0.
    { apply str_to_float_error in F0. subst e. auto. }
    destruct (Py.getitem (Py.split l) 1) as [e|b1] eqn:E1.
    { apply getitem_index_error in E1. subst e. auto. }
    destruct (str_to_float b1) as [e|hi] eqn:F1.
    { apply str_to_float_error in F1. subst e. auto. }
    destruct (IH f H) as [-> | [-> | ->]]; auto.
Qed.

Lemma dump_bounds_marker_truncated (tt : option (list Z)) (st : State)
    (raw : string) (f : list string) :
  is_bounds_line raw = true ->
  truncated 3 f = true ->
  run tt st (raw :: f) = inl ValueError \/
  run tt st (raw :: f) = inl IndexError \/
  run tt st (raw :: f) = inl StopIteration.
Proof.
  unfold is_bounds_line. intros K H.
  apply andb_prop in K as [K K3]. apply andb_prop in K as [K1 K2].
  apply negb_true_iff in K1, K2.
  rewrite DislocationsBlocks.dump_run_step. unfold body.
  rewrite K1, K2, K3. unfold_monad.
  destruct (dump_read_bounds_truncated 3 f H) as [-> | [-> | ->]]; auto.
Qed.

Lemma read_lammps_dump_truncated (tt : option (list Z)) (pre post : list string)
    (raw : string) (m : gmap Z Frame) :
  read_lammps_dump pre tt = inr m ->
  is_bounds_line raw = true ->
  truncated 3 post = true ->
  read_lammps_dump (pre ++ raw :: post) tt = inl ValueError \/
  read_lammps_dump (pre ++ raw :: post) tt = inl IndexError \/
  read_lammps_dump (pre ++ raw :: post) tt = inl StopIteration.
Proof.
  unfold read_lammps_dump. unfold_monad. intros Hpre K H.
  fold (run tt init_state pre) in Hpre.
  fold (run tt init_state (pre ++ raw :: post)).
  destruct (run tt init_state pre) as [|st] eqn:E; [discriminate|].
  rewrite (dump_run_app tt (raw :: post) _ pre _ _ (le_n _) E).
  destruct (dump_bounds_marker_truncated tt st raw post K H) as [-> | [-> | ->]];
    auto.
Qed.

End DislocationsTruncated.

(** The loop of [read_dump_voro] at a BOX BOUNDS marker whose section is
    cut short. *)
Lemma bounds_marker_truncated (n : nat) (st : State) (raw : string)
    (f : list string) :
  classify raw = KBounds ->
  truncated 3 f = true ->
  for_lines (S n) st (raw :: f) = inl ValueError \/
  for_lines (S n) st (raw :: f) = inl StopIteration.
Proof.
  intros K H. simpl. rewrite body_classify, K.
  destruct (read_bounds_truncated 3 f H) as [-> | ->]; auto.
Qed.

(** C4, as amended: the lines [pre] are a file that the reader accepts,
    so that the loop takes the line after them as a line of its own;
    that line is a BOX BOUNDS marker, and one of the three lines after
    it is itself a marker line, or the input ends before the third.
    Then [read_dump_voro] ends with [ValueError] (from the conversion to
    [float]) or [StopIteration] (from [next]), and [read_lammps_dump],
    under the same conditions, with [ValueError], [IndexError] or
    [StopIteration]; neither returns a snapshot. *)
Theorem truncated_bounds_raise (pre post : list string) (raw : string) :
  truncated 3 post = true ->
  (forall d, read_dump_voro pre = inr d -> classify raw = KBounds ->
     read_dump_voro (pre ++ raw :: post) = inl ValueError \/
     read_dump_voro (pre ++ raw :: post) = inl StopIteration) /\
  (forall tt m, Dislocations.read_lammps_dump pre tt = inr m ->
     DislocationsSpec.is_bounds_line raw = true ->
     Dislocations.read_lammps_dump (pre ++ raw :: post) tt = inl ValueError \/
     Dislocations.read_lammps_dump (pre ++ raw :: post) tt = inl IndexError \/
     Dislocations.read_lammps_dump (pre ++ raw :: post) tt = inl StopIteration).
Proof.
  intros H. split.
  - intros d Hpre K. unfold read_dump_voro in Hpre. unfold_monad.
    destruct (for_lines (length pre) init_state pre) as [|st] eqn:E;
      [discriminate|].
    rewrite (read_dump_voro_app _ _ _ E). cbn [length].
    destruct (bounds_marker_truncated (length post) st raw post K H)
      as [-> | ->]; auto.
  - intros tt m Hpre K.
    exact (DislocationsTruncated.read_lammps_dump_truncated tt pre post raw m
             Hpre K H).
Qed.

Lemma truncated_bounds_raise_witness :
  (read_dump_voro (before_second_bounds ++
                   ln "ITEM: BOX BOUNDS pp pp pp" :: cut_short_section)
     = inl ValueError \/
   read_dump_voro (before_second_bounds ++
                   ln "ITEM: BOX BOUNDS pp pp pp" :: cut_short_section)
     = inl StopIteration) /\
  (Dislocations.read_lammps_dump
     (before_second_bounds ++
      ln "ITEM: BOX BOUNDS pp pp pp" :: cut_short_section) None
     = inl ValueError \/
   Dislocations.read_lammps_dump
     (before_second_bounds ++
      ln "ITEM: BOX BOUNDS pp pp pp" :: cut_short_section) None
     = inl IndexError \/
   Dislocations.read_lammps_dump
     (before_second_bounds ++
      ln "ITEM: BOX BOUNDS pp pp pp" :: cut_short_section) None
     = inl StopIteration).
Proof.
  destruct (truncated_bounds_raise before_second_bounds cut_short_section
              (ln "ITEM: BOX BOUNDS pp pp pp") eq_refl) as [H1 H2].
  split.
  - eapply H1; [vm_compute; reflexivity|reflexivity].
  - eapply H2; [vm_compute; reflexivity|reflexivity].
Defined.
